(** * Rajhi credit-card statement importer: a shallow embedding

    The program is [src/rajhi_importer/rajhi_importer.py], a beangulp
    importer.  Its class [Importer] is embedded below, method by method, over
    explicit models of the Python values it works on:

    - [str] is [string]; a character is an [ascii].  Text outside ASCII is
      carried as the bytes of its UTF-8 encoding: the digit, whitespace,
      line-end and upper-case classes below are the ASCII ones (Unicode
      digits, spaces and line ends beyond ASCII are not recognised), and a
      byte above 127 counts as a word character for [\b].  On ASCII text
      the classes are Python's; a statement below that holds of such text
      only names [ascii_text] among its hypotheses.
    - an exception is a value of [exn], and a computation that may raise has
      type [result A];
    - the [re] module is a backtracking matcher over the syntax tree that
      [re_compile] reads from the pattern text, so every pattern of the source
      appears below as the very string the source holds;
    - [Decimal], [datetime.date] and the beancount tuples are records. *)

From Stdlib Require Import String Ascii List Bool Arith ZArith Lia.
Import ListNotations.

Local Open Scope string_scope.
Local Open Scope list_scope.
Local Open Scope nat_scope.

(** ** Exceptions *)

Inductive exn : Type :=
| TypeError
| ValueError
| UnboundLocalError
| NameError
| IndexError
| ReError
| Overflow.

Inductive result (A : Type) : Type :=
| Ok (a : A)
| Raise (e : exn).

Arguments Ok {A} a.
Arguments Raise {A} e.

Definition bind {A B : Type} (x : result A) (f : A -> result B) : result B :=
  match x with
  | Ok a => f a
  | Raise e => Raise e
  end.

Notation "x <- c1 ;; c2" := (bind c1 (fun x => c2))
  (at level 61, c1 at next level, right associativity).

(** ** Characters *)

Definition chr (n : nat) : ascii := ascii_of_nat n.
Definition ord (c : ascii) : nat := nat_of_ascii c.

Definition nl : ascii := chr 10.

Definition between (lo hi : nat) (c : ascii) : bool :=
  (lo <=? ord c) && (ord c <=? hi).

Definition is_digit (c : ascii) : bool := between 48 57 c.

(** [str.isspace] on one character: tab, line feed, vertical tab, form feed,
    carriage return, the four separators 28..31 and the space. *)
Definition is_space (c : ascii) : bool :=
  between 9 13 c || between 28 31 c || (ord c =? 32).

(** [\w]: letters, digits and the underscore. *)
Definition is_word (c : ascii) : bool :=
  between 48 57 c || between 65 90 c || between 97 122 c
  || (ord c =? 95) || (128 <=? ord c).

(** ** [str] methods *)

Definition chars (s : string) : list ascii := list_ascii_of_string s.
Definition text_of (l : list ascii) : string := string_of_list_ascii l.

Fixpoint lstrip_chars (l : list ascii) : list ascii :=
  match l with
  | c :: l' => if is_space c then lstrip_chars l' else l
  | [] => []
  end.

(** [s.strip()] *)
Definition strip (s : string) : string :=
  text_of (rev (lstrip_chars (rev (lstrip_chars (chars s))))).

(** [sep.join(parts)] *)
Fixpoint join (sep : string) (parts : list string) : string :=
  match parts with
  | [] => ""
  | [p] => p
  | p :: rest => (p ++ sep ++ join sep rest)%string
  end.

(** [s.split('\n')]: [cur] is the piece being read, reversed. *)
Fixpoint split_on (sep : ascii) (cur : list ascii) (l : list ascii) : list string :=
  match l with
  | [] => [text_of (rev cur)]
  | c :: l' =>
      if Ascii.eqb c sep then text_of (rev cur) :: split_on sep [] l'
      else split_on sep (c :: cur) l'
  end.

Definition split_nl (s : string) : list string := split_on nl [] (chars s).

(** [s.splitlines()].  A line ends at "\n", "\r", "\r\n", "\v", "\f" and the
    separators 28, 29 and 30.  No empty last line is produced after a final
    line end. *)
Definition is_linebreak (c : ascii) : bool :=
  between 10 13 c || between 28 30 c.

Fixpoint splitlines_from (cur : list ascii) (l : list ascii) : list string :=
  let flush := text_of (rev cur) in
  match l with
  | [] => match cur with [] => [] | _ => [flush] end
  | c :: l' =>
      if (ord c =? 13) then
        match l' with
        | d :: l'' =>
            if (ord d =? 10) then flush :: splitlines_from [] l''
            else flush :: splitlines_from [] l'
        | [] => [flush]
        end
      else if is_linebreak c then flush :: splitlines_from [] l'
      else splitlines_from (c :: cur) l'
  end.

Definition splitlines (s : string) : list string := splitlines_from [] (chars s).

Fixpoint is_prefix (p l : list ascii) : bool :=
  match p, l with
  | [], _ => true
  | a :: p', b :: l' => Ascii.eqb a b && is_prefix p' l'
  | _ :: _, [] => false
  end.

Fixpoint occurs_in (p l : list ascii) : bool :=
  is_prefix p l ||
  match l with
  | [] => false
  | _ :: l' => occurs_in p l'
  end.

(** [sub in s] *)
Definition contains (sub s : string) : bool := occurs_in (chars sub) (chars s).

(** * The [re] module

    The fragment of the pattern language that the importer uses: literals,
    [.], [^], [$], the escapes [\d \s \w \D \S \W \b \A \n \t \r \f \v]
    and escaped punctuation, character sets with ranges and negation, groups
    (capturing and [(?:...)]), alternation, and the quantifiers
    [* + ? {m} {m,} {m,n}] with their lazy forms.  Every pattern the source
    holds is in the fragment.  A pattern that comes from outside, the
    configured token of [identify], need not be: flags, look-around,
    back-references, named groups, possessive quantifiers, [\B], [\Z], the
    numeric escapes and the upper-case classes inside a set are not read,
    and the classes are those of ASCII text. *)

Inductive citem : Type :=
| CRange (lo hi : ascii)
| CDigit
| CSpace
| CWord.

Inductive regex : Type :=
| Empty
| Lit (c : ascii)
| Any
| CharSet (negated : bool) (items : list citem)
| Bol
| Eol
| WordB
| Cat (r1 r2 : regex)
| Alt (r1 r2 : regex)
| Repeat (lo : nat) (hi : option nat) (lazy : bool) (r : regex)
| Group (n : nat) (r : regex).

(** ** Reading a pattern *)

Definition is_alnum (c : ascii) : bool :=
  between 48 57 c || between 65 90 c || between 97 122 c.

Definition ceq (c : ascii) (s : string) : bool :=
  match s with
  | String d EmptyString => Ascii.eqb c d
  | _ => false
  end.

(** The character a control escape stands for. *)
Definition control_escape (c : ascii) : option ascii :=
  if ceq c "n" then Some (chr 10)
  else if ceq c "t" then Some (chr 9)
  else if ceq c "r" then Some (chr 13)
  else if ceq c "f" then Some (chr 12)
  else if ceq c "v" then Some (chr 11)
  else if is_alnum c then None
  else Some c.

Definition class_escape (c : ascii) : option citem :=
  if ceq c "d" then Some CDigit
  else if ceq c "s" then Some CSpace
  else if ceq c "w" then Some CWord
  else if ceq c "b" then Some (CRange (chr 8) (chr 8))
  else option_map (fun x => CRange x x) (control_escape c).

Definition atom_escape (c : ascii) : option regex :=
  if ceq c "d" then Some (CharSet false [CDigit])
  else if ceq c "s" then Some (CharSet false [CSpace])
  else if ceq c "w" then Some (CharSet false [CWord])
  else if ceq c "D" then Some (CharSet true [CDigit])
  else if ceq c "S" then Some (CharSet true [CSpace])
  else if ceq c "W" then Some (CharSet true [CWord])
  else if ceq c "b" then Some WordB
  else if ceq c "A" then Some Bol
  else option_map Lit (control_escape c).

(** The range from one item of a set to another: both ends have to be
    single characters, in their order. *)
Definition range_item (a b : citem) : option citem :=
  match a, b with
  | CRange lo lo', CRange hi hi' =>
      if Ascii.eqb lo lo' && Ascii.eqb hi hi' && (ord lo <=? ord hi)
      then Some (CRange lo hi)
      else None
  | _, _ => None
  end.

(** The items of a set, read up to its closing bracket; [first] holds at the
    first item, where a closing bracket is a literal.  An item is a
    character or an escape; a hyphen after it starts a range, unless the
    closing bracket follows, where it is a literal. *)
Fixpoint parse_set_items (first : bool) (acc : list citem) (s : list ascii)
  : option (list citem * list ascii) :=
  match s with
  | [] => None
  | c :: s1 =>
      if ceq c "]" && negb first then Some (rev acc, s1)
      else if ceq c "\" then
        match s1 with
        | e :: s2 =>
            match class_escape e with
            | Some it =>
                match s2 with
                | d :: h :: s4 =>
                    if ceq d "-" then
                      if ceq h "]" then Some (rev (CRange d d :: it :: acc), s4)
                      else if ceq h "\" then
                        match s4 with
                        | e2 :: s5 =>
                            match class_escape e2 with
                            | Some it2 =>
                                match range_item it it2 with
                                | Some r => parse_set_items false (r :: acc) s5
                                | None => None
                                end
                            | None => None
                            end
                        | [] => None
                        end
                      else
                        match range_item it (CRange h h) with
                        | Some r => parse_set_items false (r :: acc) s4
                        | None => None
                        end
                    else parse_set_items false (it :: acc) s2
                | _ => parse_set_items false (it :: acc) s2
                end
            | None => None
            end
        | [] => None
        end
      else
        match s1 with
        | d :: h :: s4 =>
            if ceq d "-" then
              if ceq h "]" then Some (rev (CRange d d :: CRange c c :: acc), s4)
              else if ceq h "\" then
                match s4 with
                | e2 :: s5 =>
                    match class_escape e2 with
                    | Some it2 =>
                        match range_item (CRange c c) it2 with
                        | Some r => parse_set_items false (r :: acc) s5
                        | None => None
                        end
                    | None => None
                    end
                | [] => None
                end
              else
                match range_item (CRange c c) (CRange h h) with
                | Some r => parse_set_items false (r :: acc) s4
                | None => None
                end
            else parse_set_items false (CRange c c :: acc) s1
        | _ => parse_set_items false (CRange c c :: acc) s1
        end
  end.

Fixpoint read_digits (acc : option nat) (s : list ascii) : option nat * list ascii :=
  match s with
  | c :: s1 =>
      if is_digit c
      then read_digits (Some (10 * match acc with Some n => n | None => 0 end
                              + (ord c - 48))) s1
      else (acc, s)
  | [] => (acc, s)
  end.

(** What follows an opening brace, when it is a repeat count. *)
Definition parse_braces (s : list ascii) : option (nat * option nat * list ascii) :=
  let (m, s1) := read_digits None s in
  match s1 with
  | c :: s2 =>
      if ceq c "}" then
        match m with
        | Some n => Some (n, Some n, s2)
        | None => None
        end
      else if ceq c "," then
        let (h, s3) := read_digits None s2 in
        match s3 with
        | d :: s4 =>
            if ceq d "}"
            then Some (match m with Some n => n | None => 0 end, h, s4)
            else None
        | [] => None
        end
      else None
  | [] => None
  end.

Inductive quant : Type :=
| NoQuant
| Quant (lo : nat) (hi : option nat) (lazy : bool)
| BadQuant.

Definition starts_quant (s : list ascii) : bool :=
  match s with
  | c :: s1 =>
      ceq c "*" || ceq c "+" || ceq c "?"
      || (ceq c "{" && match parse_braces s1 with Some _ => true | None => false end)
  | [] => false
  end.

Definition lazy_suffix (lo : nat) (hi : option nat) (s : list ascii)
  : quant * list ascii :=
  if match hi with Some h => h <? lo | None => false end then (BadQuant, s)
  else
    match s with
    | c :: s1 =>
        if ceq c "?" then
          if starts_quant s1 then (BadQuant, s1) else (Quant lo hi true, s1)
        else if starts_quant s then (BadQuant, s)
        else (Quant lo hi false, s)
    | [] => (Quant lo hi false, s)
    end.

Definition parse_quant (s : list ascii) : quant * list ascii :=
  match s with
  | c :: s1 =>
      if ceq c "*" then lazy_suffix 0 None s1
      else if ceq c "+" then lazy_suffix 1 None s1
      else if ceq c "?" then lazy_suffix 0 (Some 1) s1
      else if ceq c "{" then
        match parse_braces s1 with
        | Some (lo, hi, s2) => lazy_suffix lo hi s2
        | None => (NoQuant, s)
        end
      else (NoQuant, s)
  | [] => (NoQuant, s)
  end.

Definition is_anchor (r : regex) : bool :=
  match r with
  | Bol | Eol | WordB => true
  | _ => false
  end.

(** [g] is the number the next capturing group gets. *)
Fixpoint parse_alt (fuel : nat) (g : nat) (s : list ascii)
  : option (regex * nat * list ascii) :=
  match fuel with
  | 0 => None
  | S f =>
      match parse_seq f g s with
      | Some (r1, g1, s1) =>
          match s1 with
          | c :: s2 =>
              if ceq c "|" then
                match parse_alt f g1 s2 with
                | Some (r2, g2, s3) => Some (Alt r1 r2, g2, s3)
                | None => None
                end
              else Some (r1, g1, s1)
          | [] => Some (r1, g1, s1)
          end
      | None => None
      end
  end

with parse_seq (fuel : nat) (g : nat) (s : list ascii)
  : option (regex * nat * list ascii) :=
  match fuel with
  | 0 => None
  | S f =>
      match s with
      | [] => Some (Empty, g, s)
      | c :: _ =>
          if ceq c "|" || ceq c ")" then Some (Empty, g, s)
          else
            match parse_atom f g s with
            | Some (a, g1, s1) =>
                match parse_quant s1 with
                | (BadQuant, _) => None
                | (NoQuant, s2) =>
                    match parse_seq f g1 s2 with
                    | Some (r, g2, s3) => Some (Cat a r, g2, s3)
                    | None => None
                    end
                | (Quant lo hi lz, s2) =>
                    if is_anchor a then None
                    else
                      match parse_seq f g1 s2 with
                      | Some (r, g2, s3) => Some (Cat (Repeat lo hi lz a) r, g2, s3)
                      | None => None
                      end
                end
            | None => None
            end
      end
  end

with parse_atom (fuel : nat) (g : nat) (s : list ascii)
  : option (regex * nat * list ascii) :=
  match fuel with
  | 0 => None
  | S f =>
      match s with
      | [] => None
      | c :: s1 =>
          if ceq c "(" then
            match s1 with
            | q :: s2 =>
                if ceq q "?" then
                  match s2 with
                  | k :: s3 =>
                      if ceq k ":" then
                        match parse_alt f g s3 with
                        | Some (r, g1, d :: s4) =>
                            if ceq d ")" then Some (r, g1, s4) else None
                        | _ => None
                        end
                      else None
                  | [] => None
                  end
                else
                  match parse_alt f (S g) s1 with
                  | Some (r, g1, d :: s4) =>
                      if ceq d ")" then Some (Group g r, g1, s4) else None
                  | _ => None
                  end
            | [] => None
            end
          else if ceq c "[" then
            match s1 with
            | n :: s2 =>
                if ceq n "^" then
                  option_map (fun '(items, s3) => (CharSet true items, g, s3))
                             (parse_set_items true [] s2)
                else
                  option_map (fun '(items, s3) => (CharSet false items, g, s3))
                             (parse_set_items true [] s1)
            | [] => None
            end
          else if ceq c "\" then
            match s1 with
            | e :: s2 => option_map (fun r => (r, g, s2)) (atom_escape e)
            | [] => None
            end
          else if ceq c "." then Some (Any, g, s1)
          else if ceq c "^" then Some (Bol, g, s1)
          else if ceq c "$" then Some (Eol, g, s1)
          else if starts_quant s then None
          else Some (Lit c, g, s1)
      end
  end.

(** [re.compile]: [None] stands for [re.error], and for a pattern outside
    the fragment above, which [re] may well read. *)
Definition re_compile (p : string) : option regex :=
  match parse_alt (4 * String.length p + 4) 1 (chars p) with
  | Some (r, _, []) => Some r
  | _ => None
  end.

(** ** Matching

    The matcher walks the text from a position, keeping the character before
    it (for [^] and [\b]) and the groups captured so far.  It is written in
    continuation-passing style: [k] is the rest of the pattern, and a failing
    continuation sends the matcher back to the latest choice, as the
    backtracking engine of [re] does (first alternative first, greedy
    repeats longest first, lazy repeats shortest first). *)

Record mstate : Type := MState {
  ms_prev : option ascii;
  ms_rest : list ascii;
  ms_caps : list (nat * list ascii)
}.

Definition item_has (c : ascii) (it : citem) : bool :=
  match it with
  | CRange lo hi => (ord lo <=? ord c) && (ord c <=? ord hi)
  | CDigit => is_digit c
  | CSpace => is_space c
  | CWord => is_word c
  end.

Definition set_has (negated : bool) (items : list citem) (c : ascii) : bool :=
  xorb negated (existsb (item_has c) items).

(** One character is consumed when it satisfies [p]. *)
Definition eat (p : ascii -> bool) (st : mstate) (k : mstate -> option mstate)
  : option mstate :=
  match ms_rest st with
  | c :: rest => if p c then k (MState (Some c) rest (ms_caps st)) else None
  | [] => None
  end.

Definition word_at (c : option ascii) : bool :=
  match c with
  | Some x => is_word x
  | None => false
  end.

(** [$] holds at the end of the text and just before a final line feed. *)
Definition at_end (l : list ascii) : bool :=
  match l with
  | [] => true
  | [c] => Ascii.eqb c nl
  | _ => false
  end.

(** The text read between two states of one run. *)
Definition consumed (st st' : mstate) : list ascii :=
  firstn (length (ms_rest st) - length (ms_rest st')) (ms_rest st).

Definition set_group (n : nat) (st st' : mstate) : mstate :=
  MState (ms_prev st') (ms_rest st') ((n, consumed st st') :: ms_caps st').

Definition may_repeat (hi : option nat) (cnt : nat) : bool :=
  match hi with
  | Some h => cnt <? h
  | None => true
  end.

Definition or_else (a : option mstate) (b : unit -> option mstate) : option mstate :=
  match a with
  | Some x => Some x
  | None => b tt
  end.

Definition same_place (last : option nat) (st : mstate) : bool :=
  match last with
  | Some n => n =? length (ms_rest st)
  | None => false
  end.

(** The iterations of a repeat, [body] matching one of them.  [cnt]
    iterations are done and [last] is where the previous one started.  Past
    the lower bound no further iteration is tried at the place where the
    previous one started (an iteration that read nothing is followed by the
    rest of the pattern), so the number of iterations is bounded by the lower
    bound plus the length of the text left, plus two. *)
Fixpoint rep_loop (body : mstate -> (mstate -> option mstate) -> option mstate)
  (lo : nat) (hi : option nat) (lz : bool) (k : mstate -> option mstate)
  (fuel cnt : nat) (last : option nat) (st0 : mstate) {struct fuel}
  : option mstate :=
  match fuel with
  | 0 => None
  | S f =>
      let again (_ : unit) :=
        body st0
          (fun st1 =>
             rep_loop body lo hi lz k f (S cnt) (Some (length (ms_rest st0))) st1) in
      if cnt <? lo then again tt
      else if may_repeat hi cnt && negb (same_place last st0) then
        if lz then or_else (k st0) again
        else or_else (again tt) (fun _ => k st0)
      else k st0
  end.

Fixpoint rmatch (r : regex) (st : mstate) (k : mstate -> option mstate)
  {struct r} : option mstate :=
  match r with
  | Empty => k st
  | Lit c => eat (Ascii.eqb c) st k
  | Any => eat (fun x => negb (Ascii.eqb x nl)) st k
  | CharSet negated items => eat (set_has negated items) st k
  | Bol => match ms_prev st with None => k st | Some _ => None end
  | Eol => if at_end (ms_rest st) then k st else None
  | WordB =>
      if xorb (word_at (ms_prev st)) (word_at (hd_error (ms_rest st)))
      then k st else None
  | Cat r1 r2 => rmatch r1 st (fun st1 => rmatch r2 st1 k)
  | Alt r1 r2 => or_else (rmatch r1 st k) (fun _ => rmatch r2 st k)
  | Group n r1 => rmatch r1 st (fun st1 => k (set_group n st st1))
  | Repeat lo hi lz r1 =>
      rep_loop (rmatch r1) lo hi lz k (S (S (lo + length (ms_rest st)))) 0 None st
  end.

(** A match object: the groups, group 0 being the whole match. *)
Definition match_obj : Type := list (nat * list ascii).

Definition run_at (r : regex) (prev : option ascii) (l : list ascii)
  : option match_obj :=
  option_map ms_caps (rmatch (Group 0 r) (MState prev l []) Some).

(** [re.match(r, s)] *)
Definition re_match (r : regex) (s : string) : option match_obj :=
  run_at r None (chars s).

Fixpoint search_from (r : regex) (prev : option ascii) (l : list ascii)
  : option match_obj :=
  match run_at r prev l with
  | Some m => Some m
  | None =>
      match l with
      | c :: l' => search_from r (Some c) l'
      | [] => None
      end
  end.

(** [re.search(r, s)] *)
Definition re_search (r : regex) (s : string) : option match_obj :=
  search_from r None (chars s).

(** [m.group(n)]: [None] when the group took no part in the match. *)
Fixpoint group (n : nat) (m : match_obj) : option string :=
  match m with
  | (i, t) :: m' => if i =? n then Some (text_of t) else group n m'
  | [] => None
  end.

Definition compiled (p : string) : regex :=
  match re_compile p with
  | Some r => r
  | None => Empty
  end.

Definition is_some {A : Type} (o : option A) : bool :=
  match o with
  | Some _ => true
  | None => false
  end.

(** [bool(m.group(n))]: a group that took no part is [None], which is false,
    as is the empty string. *)
Definition truthy (o : option string) : bool :=
  match o with
  | Some s => negb (String.eqb s "")
  | None => false
  end.

(** [m.group(n)] for a group that takes part in every match of its pattern. *)
Definition group_str (n : nat) (m : match_obj) : string :=
  match group n m with
  | Some s => s
  | None => ""
  end.

(** * [decimal.Decimal] and [beancount.core.number.D]

    A finite decimal is a sign, a coefficient and an exponent; "150.00" is
    coefficient 15000 with exponent -2.  The constructor is exact; the
    result of an operation is brought into the default context: 28 digits,
    rounding half-even, exponents between [Emin] and [Emax], and of the
    signals only [decimal.Overflow] among those an amount can set off is
    trapped, which is the exception [Overflow]. *)

Record Decimal : Type := MkDecimal {
  d_neg : bool;
  d_int : Z;
  d_exp : Z
}.

Fixpoint digits_value (acc : Z) (l : list ascii) : option Z :=
  match l with
  | [] => Some acc
  | c :: l' =>
      if is_digit c then digits_value (10 * acc + Z.of_nat (ord c - 48)) l'
      else None
  end.

Fixpoint split_point (int_part : list ascii) (l : list ascii)
  : list ascii * option (list ascii) :=
  match l with
  | [] => (rev int_part, None)
  | c :: l' =>
      if ceq c "." then (rev int_part, Some l')
      else split_point (c :: int_part) l'
  end.

(** [Decimal(s)] for an unsigned numeral: digits, with or without a point.
    Signs, exponents and the special values, which no amount pattern of the
    importer lets through, are not read. *)
Definition Decimal_of_str (s : string) : option Decimal :=
  match split_point [] (chars s) with
  | (ip, None) =>
      match ip with
      | [] => None
      | _ => option_map (fun v => MkDecimal false v 0) (digits_value 0 ip)
      end
  | (ip, Some fp) =>
      match ip, fp with
      | [], [] => None
      | _, _ =>
          option_map (fun v => MkDecimal false v (- Z.of_nat (length fp)))
                     (digits_value 0 (ip ++ fp))
      end
  end.

(** The characters [D] keeps: it removes what matches "[, ]". *)
Definition kept_in_number (c : ascii) : bool := negb (ceq c "," || ceq c " ").

(** [D(s)]: commas and spaces are removed before the text is read; the
    empty text is zero, and text that is no number raises [ValueError]. *)
Definition D (s : string) : result Decimal :=
  if String.eqb s "" then Ok (MkDecimal false 0 0)
  else
    let cleaned := text_of (filter kept_in_number (chars s)) in
    match Decimal_of_str cleaned with
    | Some d => Ok d
    | None => Raise ValueError
    end.

Fixpoint count_digits (fuel : nat) (n : Z) : nat :=
  match fuel with
  | 0 => 1
  | S f => if (n <? 10)%Z then 1 else S (count_digits f (n / 10))
  end.

Definition ndigits (n : Z) : nat := count_digits (Z.to_nat (Z.log2 n)) n.

(** The default context. *)
Definition prec : nat := 28.
Definition Emax : Z := 999999.
Definition Emin : Z := -999999.

(** [Context.Etiny()] and [Context.Etop()]: the least exponent of a result
    and the greatest one of a result of full precision. *)
Definition Etiny : Z := Emin - (Z.of_nat prec - 1).
Definition Etop : Z := Emax - (Z.of_nat prec - 1).

(** [Decimal._fix]: what an operation does to its exact result.  A zero
    keeps its sign and has its exponent brought between [Etiny] and [Emax].
    Otherwise a number whose leading digit is above [Emax] raises
    [Overflow]; a coefficient of more than 28 digits, or one that reaches
    below [Etiny], is rounded half-even to what fits (down to zero when
    nothing is left of it), and a rounding that carries past [Emax] raises
    [Overflow] as well. *)
Definition fix_to_context (d : Decimal) : result Decimal :=
  if (d_int d =? 0)%Z
  then Ok (MkDecimal (d_neg d) 0 (Z.min (Z.max (d_exp d) Etiny) Emax))
  else
    let n := Z.of_nat (ndigits (d_int d)) in
    let exp_min := (n + d_exp d - Z.of_nat prec)%Z in
    if (Etop <? exp_min)%Z then Raise Overflow
    else
      let exp_min := Z.max exp_min Etiny in
      if (d_exp d <? exp_min)%Z then
        let k := (exp_min - d_exp d)%Z in
        let p := (10 ^ k)%Z in
        let q := (d_int d / p)%Z in
        let r := (d_int d mod p)%Z in
        let up := ((p <? 2 * r) || ((2 * r =? p) && Z.odd q))%Z in
        let q' := if up then (q + 1)%Z else q in
        if (q' =? 10 ^ Z.of_nat prec)%Z
        then
          if (Etop <? exp_min + 1)%Z then Raise Overflow
          else Ok (MkDecimal (d_neg d) (10 ^ (Z.of_nat prec - 1))%Z
                             (exp_min + 1)%Z)
        else Ok (MkDecimal (d_neg d) q' exp_min)
      else Ok d.

(** [d * (1 if is_credit else -1)]: the sign changes for a debit, the
    digits and the exponent are those of [d], and the product is brought
    into the context. *)
Definition signed (d : Decimal) (is_credit : bool) : result Decimal :=
  fix_to_context
    (MkDecimal (xorb (d_neg d) (negb is_credit)) (d_int d) (d_exp d)).

(** * [datetime] *)

Record caldate : Type := MkDate {
  year : nat;
  month : nat;
  day : nat
}.

Definition is_leap (y : nat) : bool :=
  (y mod 4 =? 0) && (negb (y mod 100 =? 0) || (y mod 400 =? 0)).

Definition days_in_month (y m : nat) : nat :=
  match m with
  | 2 => if is_leap y then 29 else 28
  | 4 | 6 | 9 | 11 => 30
  | _ => 31
  end.

Definition nat_of_digits (s : string) : nat :=
  match digits_value 0 (chars s) with
  | Some v => Z.to_nat v
  | None => 0
  end.

(** The pattern [strptime] builds from the format '%d/%m/%y'. *)
Definition dmy_format : regex :=
  Eval vm_compute in
    compiled "(3[0-1]|[1-2]\d|0[1-9]|[1-9]| [1-9])/(1[0-2]|0[1-9]|[1-9])/(\d\d)".

(** [datetime.strptime(s, '%d/%m/%y').date()]: the whole text has to fit
    the format, a two-digit year up to 68 is in 2000..2068 and one from 69 on
    in 1969..1999, and the day has to exist in its month. *)
Definition strptime_dmy (s : string) : result caldate :=
  match re_match dmy_format s with
  | Some m =>
      if negb (String.eqb (group_str 0 m) s) then Raise ValueError
      else
        let d := nat_of_digits (strip (group_str 1 m)) in
        let mo := nat_of_digits (group_str 2 m) in
        let yy := nat_of_digits (group_str 3 m) in
        let y := if yy <=? 68 then 2000 + yy else 1900 + yy in
        if d <=? days_in_month y mo then Ok (MkDate y mo d)
        else Raise ValueError
  | None => Raise ValueError
  end.

(** * [beancount.core.data] *)

Module data.

Record Amount : Type := MkAmount {
  number : Decimal;
  currency : string
}.

Record Posting : Type := MkPosting {
  account : string;
  units : Amount;
  cost : option Amount;
  price : option Amount;
  pflag : option string;
  pmeta : option (string * nat)
}.

Record Transaction : Type := MkTransaction {
  meta : string * nat;
  date : caldate;
  flag : string;
  payee : option string;
  narration : string;
  tags : list string;
  links : list string;
  postings : list Posting
}.

(** [new_metadata(filename, lineno, ())] *)
Definition new_metadata (filename : string) (lineno : nat) : string * nat :=
  (filename, lineno).

Definition EMPTY_SET : list string := [].

End data.

(** * The collaborators

    What the file system and the libraries answer for a path: the media type
    [mimetypes.guess_type] gives, and the text [pdfplumber] extracts from
    each page. *)

Record world : Type := MkWorld {
  guess_type : string -> option string;
  extract_text : string -> list string
}.

(** The names the module binds at its top level: its imports, the licence
    line and the class. *)
Definition module_names : list string :=
  ["__license__"; "csv"; "pdfplumber"; "datetime"; "re"; "logging"; "sp";
   "ROUND_DOWN"; "path"; "StringIO"; "parse"; "defaultdict"; "parse_datetime";
   "account"; "amount"; "data"; "flags"; "position"; "D"; "ZERO"; "beangulp";
   "mimetypes"; "cache"; "main"; "Importer"].

(** Reading a global name that no local shadows: a name the module does not
    bind (and that is no builtin) raises [NameError]. *)
Definition load_global {A : Type} (name : string) (value : result A) : result A :=
  if existsb (String.eqb name) module_names then value else Raise NameError.

(** Reading a local variable: one that nothing was assigned to raises
    [UnboundLocalError]. *)
Definition load_local {A : Type} (v : option A) : result A :=
  match v with
  | Some x => Ok x
  | None => Raise UnboundLocalError
  end.

(** [a + b] where [a] is a [str]: [b] has to be a [str] too. *)
Definition str_add (a : string) (b : option string) : result string :=
  match b with
  | Some s => Ok (a ++ s)%string
  | None => Raise TypeError
  end.

Definition NL : string := String nl "".

(** * The class [Importer] *)

Module Importer.

(** The attributes [__init__] stores; [flag] is '*' when not given. *)
Record t : Type := MkImporter {
  importer_account : string;
  currency : string;
  flag : string;
  account_number : string
}.

(** [Importer(...)] with the arguments given by position: [account],
    [currency] and [account_number] have to be there, [flag] is '*' when not
    given; with fewer than three or more than four the call raises. *)
Definition __init__ (args : list string) : result t :=
  match args with
  | [account; currency; account_number] =>
      Ok (MkImporter account currency "*" account_number)
  | [account; currency; account_number; flag] =>
      Ok (MkImporter account currency flag account_number)
  | _ => Raise TypeError
  end.

Definition filename (self : t) (filepath : string) : string := "maybank.pdf".

Definition account (self : t) (filepath : string) : string :=
  importer_account self.

(** The result is [False], [True] or, when the text is empty and the
    function falls off its end, [None].  [re.search] compiles the configured
    token as a pattern, and a token that is no pattern raises [re.error].
    A token outside the fragment that [re_compile] reads is taken for one
    that is no pattern, which [re] may see otherwise: what is stated of
    [identify] below keeps to tokens inside the fragment. *)
Definition identify (self : t) (w : world) (filepath : string)
  : result (option bool) :=
  let mimetype := guess_type w filepath in
  if negb (match mimetype with
           | Some m => String.eqb m "application/pdf"
           | None => false
           end)
  then Ok (Some false)
  else
    let text := join NL (extract_text w filepath) in
    if negb (String.eqb text "") then
      match re_compile (account_number self) with
      | Some r => Ok (Some (is_some (re_search r text)))
      | None => Raise ReError
      end
    else Ok None.

(** The pattern of [date] is written in a plain (not raw) literal, so the
    set in it holds the line feed itself. *)
Definition date_pattern_text : string := ("Date: ([^" ++ NL ++ "]*)")%string.

Definition date_pattern : regex := Eval vm_compute in compiled date_pattern_text.

Section Date.

(** [pdf_to_text] is what a binding of that name would compute, were there
    one; [parse_datetime] is [dateutil.parser.parse] followed by [.date()]. *)
Variable pdf_to_text : string -> result string.
Variable parse_datetime : string -> result caldate.

(** The statements of [date] after the text is read. *)
Definition date_of_text (text : string) : result (option caldate) :=
  match re_search date_pattern text with
  | Some m =>
      d <- parse_datetime (group_str 1 m) ;;
      Ok (Some d)
  | None => Ok None
  end.

Definition date (self : t) (filepath : string) : result (option caldate) :=
  text <- load_global "pdf_to_text" (pdf_to_text filepath) ;;
  date_of_text text.

End Date.

(** ** [extract]: the patterns *)

Definition patterns_text : list string :=
  ["ﺔﻴﻧﺎﻤﺘﺋﻻﺍ ﺔﻗﺎﻄﺒﻟﺍ ﺏﺎﺴﺣ ﻒﺸﻛ";
   "credit card statement";
   "Page no\. \d+ of \d+";
   "ﺮﻬﺷ ﺏﺎﺴﺣ ﻒﺸﻛ";
   "[A-Z]+, \d{4} Statement Month"].

Definition patterns : list regex := Eval vm_compute in map compiled patterns_text.

(** The pattern literals of the loop body, each under the name of the
    variable that holds it; the two that are searched in place,
    [\b([A-Z]{3})\b] and the bare amount, are named after their use. *)
Definition advance_payment_pattern_text : string :=
  "^(CR\s+)?(\d{1,3}(?:,\d{3})*\.\d+|\d+\.\d+)\s+(\d{1,3}(?:,\d{3})*\.\d+|\d+\.\d+)\s+Advance Payment\s+.+?\s+(\d{1,3}(?:,\d{3})*\.\d+|\d+\.\d+)\s+([A-Z]{3})\s+(\d{2}/\d{2}/\d{2})\s+(\d{2}/\d{2}/\d{2})$".

Definition general_pattern_text : string :=
  "^(CR\s+)?(\d{1,3}(?:,\d{3})*\.\d+|\d+\.\d+)\s+(\d{1,3}(?:,\d{3})*\.\d+|\d+\.\d+)\s+(.+?)\s+(\d{2}/\d{2}/\d{2})\s+(\d{2}/\d{2}/\d{2})$".

Definition currency_pattern_text : string :=
  "(\d{1,3}(?:,\d{3})*\.\d+|\d+\.\d+)\s+([A-Z]{3})".

Definition currency_code_pattern_text : string := "\b([A-Z]{3})\b".

Definition pattern_text : string :=
  "^(CR\s+)?(\d{1,3}(?:,\d{3})*\.\d+|\d+\.\d+)\s+(\d{1,3}(?:,\d{3})*\.\d+|\d+\.\d+)\s+(.+?)\s+(\d{2}/\d{2}/\d{2})\s+(\d{2}/\d{2}/\d{2})$".

Definition alt_pattern_text : string :=
  "^(CR\s+)?(\d{1,3}(?:,\d{3})*\.\d+|\d+\.\d+)\s+(\d{1,3}(?:,\d{3})*\.\d+|\d+\.\d+)\s+Amount:\s+(\d{1,3}(?:,\d{3})*\.\d+|\d+\.\d+)\s+(.+?)\s+(\d{2}/\d{2}/\d{2})\s+(\d{2}/\d{2}/\d{2})$".

Definition transaction_amount_pattern_text : string :=
  "(\d{1,3}(?:,\d{3})*\.\d+|\d+\.\d+)".

Definition next_line_amount_pattern_text : string :=
  "^Amount:\s+(\d{1,3}(?:,\d{3})*\.\d+|\d+\.\d+)".

Definition advance_payment_pattern : regex :=
  Eval vm_compute in compiled advance_payment_pattern_text.
Definition general_pattern : regex :=
  Eval vm_compute in compiled general_pattern_text.
Definition currency_pattern : regex :=
  Eval vm_compute in compiled currency_pattern_text.
Definition currency_code_pattern : regex :=
  Eval vm_compute in compiled currency_code_pattern_text.
Definition pattern : regex :=
  Eval vm_compute in compiled pattern_text.
Definition alt_pattern : regex :=
  Eval vm_compute in compiled alt_pattern_text.
Definition transaction_amount_pattern : regex :=
  Eval vm_compute in compiled transaction_amount_pattern_text.
Definition next_line_amount_pattern : regex :=
  Eval vm_compute in compiled next_line_amount_pattern_text.

(** ** [extract]: removing the page dividers *)

(** [any(re.match(pattern, line) for pattern in patterns)] *)
Definition is_boilerplate (line : string) : bool :=
  existsb (fun p => is_some (re_match p line)) patterns.

(** The loop over [text.splitlines()] that fills [clean_lines]. *)
Fixpoint clean_loop (clean_lines : list string) (todo : list string) : list string :=
  match todo with
  | [] => clean_lines
  | line :: rest =>
      if negb (is_boilerplate line)
      then clean_loop (clean_lines ++ [line]) rest
      else clean_loop clean_lines rest
  end.

Definition sanitize (raw_lines : list string) : list string :=
  clean_loop [] raw_lines.

(** [[line.strip() for line in text_lines.strip().split('\n') if line.strip()]] *)
Definition nonblank_lines (text_lines : string) : list string :=
  flat_map (fun line =>
              if negb (String.eqb (strip line) "") then [strip line] else [])
           (split_nl (strip text_lines)).

(** ** [extract]: one line of the statement

    The local variables a transaction line sets. *)

Record fields : Type := MkFields {
  is_credit : bool;
  amount : string;
  fee : string;
  transaction_amount : string;
  transaction_currency : option string;
  posting_date : string;
  transaction_date : string
}.

(** What the first part of the loop body finds at line [i]: nothing (the
    cursor moves on by one), an Advance Payment line, or a standard line
    with its neighbours; [consumed_next] says that the next line was an
    "Amount:" continuation.  [AdvanceLine] carries the local variable [units]
    as it is after the line: [None] while nothing was assigned to it. *)
Inductive parsed : Type :=
| NoTransaction
| AdvanceLine (f : fields) (units : option data.Amount)
| StandardLine (f : fields) (units : data.Amount)
    (payee description : option string) (consumed_next : bool).

(** [data.Amount(D(str(amount)) * (1 if is_credit else -1), currency)] *)
Definition make_units (amount : string) (is_credit : bool) (currency : string)
  : result data.Amount :=
  n <- D amount ;;
  number <- signed n is_credit ;;
  Ok (data.MkAmount number currency).

(** The two lines above line [i], when there are two. *)
Definition two_above (lines : list string) (i : nat)
  : option string * option string :=
  if 2 <=? i then (nth_error lines (i - 2), nth_error lines (i - 1))
  else (None, None).

(** The line above and the line below line [i], each when it exists. *)
Definition above_below (lines : list string) (i : nat)
  : option string * option string :=
  ((if 0 <? i then nth_error lines (i - 1) else None),
   (if i + 1 <? length lines then nth_error lines (i + 1) else None)).

(** [units_var] is the local variable [units] on entry: it lives across the
    iterations of the loop. *)
Definition classify (self : t) (lines : list string) (i : nat)
  (units_var : option data.Amount) (current_line : string) : result parsed :=
  let currency := currency self in
  let advance_match := re_match advance_payment_pattern current_line in
  if is_some advance_match || contains "Advance Payment" current_line then
    match advance_match with
    | None =>
        match re_match general_pattern current_line with
        | Some m =>
            let is_credit := truthy (group 1 m) in
            let amount := group_str 2 m in
            let fee := group_str 3 m in
            let remaining := group_str 4 m in
            let currency_match := re_search currency_pattern remaining in
            let '(transaction_amount, transaction_currency) :=
              match currency_match with
              | Some cm => (group_str 1 cm, group 2 cm)
              | None =>
                  let currency_code_match :=
                    re_search currency_code_pattern remaining in
                  (amount,
                   match currency_code_match with
                   | Some ccm => group 1 ccm
                   | None => None
                   end)
              end in
            let posting_date := group_str 5 m in
            let transaction_date := group_str 6 m in
            Ok (AdvanceLine
                  (MkFields is_credit amount fee transaction_amount
                            transaction_currency posting_date transaction_date)
                  units_var)
        | None => Ok NoTransaction
        end
    | Some m =>
        let is_credit := truthy (group 1 m) in
        let amount := group_str 2 m in
        let fee := group_str 3 m in
        let transaction_amount := group_str 4 m in
        let transaction_currency := group 5 m in
        let posting_date := group_str 6 m in
        let transaction_date := group_str 7 m in
        units <- make_units amount is_credit currency ;;
        Ok (AdvanceLine
              (MkFields is_credit amount fee transaction_amount
                        transaction_currency posting_date transaction_date)
              (Some units))
    end
  else
    let has_amount_keyword := contains "Amount:" current_line in
    let match_ := re_match pattern current_line in
    let alt_match := re_match alt_pattern current_line in
    if is_some match_ || is_some alt_match then
      let transaction_type := if has_amount_keyword then "B" else "C" in
      match alt_match with
      | Some m =>
          let is_credit := truthy (group 1 m) in
          let amount := group_str 2 m in
          let fee := group_str 3 m in
          let transaction_amount := group_str 4 m in
          units <- make_units amount is_credit currency ;;
          let remaining := group_str 5 m in
          let currency_match := re_search currency_pattern remaining in
          let transaction_currency :=
            match currency_match with
            | Some cm => group 2 cm
            | None => None
            end in
          let posting_date := group_str 6 m in
          let transaction_date := group_str 7 m in
          let '(payee, description) := two_above lines i in
          Ok (StandardLine
                (MkFields is_credit amount fee transaction_amount
                          transaction_currency posting_date transaction_date)
                units payee description false)
      | None =>
          match match_ with
          | Some m =>
              let is_credit := truthy (group 1 m) in
              let amount := group_str 2 m in
              let fee := group_str 3 m in
              units <- make_units amount is_credit currency ;;
              let remaining := group_str 4 m in
              let currency_match := re_search currency_pattern remaining in
              let '(transaction_amount, transaction_currency) :=
                match currency_match with
                | Some cm => (group_str 1 cm, group 2 cm)
                | None =>
                    let transaction_amount_match :=
                      re_search transaction_amount_pattern remaining in
                    let currency_code_match :=
                      re_search currency_code_pattern remaining in
                    (match transaction_amount_match with
                     | Some tm => group_str 0 tm
                     | None => amount
                     end,
                     match currency_code_match with
                     | Some ccm => group 1 ccm
                     | None => None
                     end)
                end in
              let posting_date := group_str 5 m in
              let transaction_date := group_str 6 m in
              let f := MkFields is_credit amount fee transaction_amount
                                transaction_currency posting_date
                                transaction_date in
              if (i + 1 <? length lines)
                 && match nth_error lines (i + 1) with
                    | Some next => is_some (re_match next_line_amount_pattern next)
                    | None => false
                    end
              then
                let '(payee, description) := two_above lines i in
                Ok (StandardLine f units payee description true)
              else
                let '(payee, description) := above_below lines i in
                Ok (StandardLine f units payee description false)
          | None => Ok NoTransaction
          end
      end
    else Ok NoTransaction.

(** The narration: [("CR " if is_credit else "-") + str(transaction_amount)
    + " " + transaction_currency + " on " + transaction_date]. *)
Definition make_narration (f : fields) : result string :=
  s <- str_add ((if is_credit f then "CR " else "-")
                ++ transaction_amount f ++ " ")%string
               (transaction_currency f) ;;
  Ok (s ++ " on " ++ transaction_date f)%string.

(** [data.Transaction(...)]: the arguments are evaluated from left to right,
    the date first, then the narration, then the posting with [units]. *)
Definition make_entry (filepath : string) (default_account : string)
  (payee : option string) (f : fields) (units : option data.Amount)
  : result data.Transaction :=
  let meta := data.new_metadata filepath 0 in
  d <- strptime_dmy (posting_date f) ;;
  narration <- make_narration f ;;
  u <- load_local units ;;
  Ok (data.MkTransaction meta d "*" payee narration data.EMPTY_SET data.EMPTY_SET
        [data.MkPosting default_account u None None None None]).

(** ** [extract]: the loop *)

Record loop_state : Type := MkState {
  i : nat;
  entries : list data.Transaction;
  units_var : option data.Amount
}.

(** One iteration of [while i < len(lines)], for [i < len(lines)]. *)
Definition step (self : t) (filepath : string) (lines : list string)
  (st : loop_state) : result loop_state :=
  let default_account := account self filepath in
  match nth_error lines (i st) with
  | None => Raise IndexError
  | Some current_line =>
      p <- classify self lines (i st) (units_var st) current_line ;;
      match p with
      | NoTransaction => Ok (MkState (i st + 1) (entries st) (units_var st))
      | AdvanceLine f units =>
          entry <- make_entry filepath default_account
                     (Some "Advance payment") f units ;;
          Ok (MkState (i st + 1) (entries st ++ [entry]) units)
      | StandardLine f units payee description consumed_next =>
          let i1 := if consumed_next then i st + 1 else i st in
          entry <- make_entry filepath default_account payee f (Some units) ;;
          Ok (MkState (i1 + 1) (entries st ++ [entry]) (Some units))
      end
  end.

(** The loop; every iteration moves the cursor on, so [len(lines)]
    iterations are enough. *)
Fixpoint run (fuel : nat) (self : t) (filepath : string) (lines : list string)
  (st : loop_state) : result loop_state :=
  match fuel with
  | 0 => Ok st
  | S f =>
      if i st <? length lines then
        st' <- step self filepath lines st ;;
        run f self filepath lines st'
      else Ok st
  end.

Definition parse_lines (self : t) (filepath : string) (lines : list string)
  : result (list data.Transaction) :=
  st <- run (length lines) self filepath lines (MkState 0 [] None) ;;
  Ok (entries st).

Definition extract (self : t) (w : world) (filepath : string)
  : result (list data.Transaction) :=
  let text := join NL (extract_text w filepath) in
  let clean_lines := sanitize (splitlines text) in
  let text_lines := join NL clean_lines in
  let lines := nonblank_lines text_lines in
  parse_lines self filepath lines.

End Importer.

(** * The module run as a script

    The statements under [if __name__ == '__main__']; [main] is
    [beangulp.testing.main]. *)
Definition main_block {A : Type} (main : Importer.t -> result A) : result A :=
  importer <- Importer.__init__ ["Liabilities:Rajhi:Bonvoy"; "SAR"] ;;
  main importer.

(** * Notions the statements below are written with *)

(** [sub] is [l] with some elements left out, the others in their order. *)
Inductive subseq {A : Type} : list A -> list A -> Prop :=
| subseq_nil : subseq [] []
| subseq_keep x l1 l2 : subseq l1 l2 -> subseq (x :: l1) (x :: l2)
| subseq_drop x l1 l2 : subseq l1 l2 -> subseq l1 (x :: l2).

(** The text [sub] occurs in the text [s]. *)
Definition occurs (sub s : string) : Prop :=
  exists before after, chars s = before ++ chars sub ++ after.

(** The characters the pattern language gives a meaning of their own. *)
Definition is_meta (c : ascii) : bool :=
  ceq c "." || ceq c "^" || ceq c "$" || ceq c "*" || ceq c "+" || ceq c "?"
  || ceq c "{" || ceq c "[" || ceq c "\" || ceq c "|" || ceq c "(" || ceq c ")".

(** A token that is free of them. *)
Definition plain_token (s : string) : Prop :=
  forallb (fun c => negb (is_meta c)) (chars s) = true.

(** The pattern that reads the characters of [l] one after the other. *)
Fixpoint literal (l : list ascii) : regex :=
  match l with
  | [] => Empty
  | c :: l' => Cat (Lit c) (literal l')
  end.

(** A statement of one page holding the given lines, a PDF by its name. *)
Definition statement (lines : list string) : world :=
  MkWorld (fun _ => Some "application/pdf") (fun _ => [join NL lines]).

(** The amounts of the postings of the records, each as sign, coefficient
    and exponent, in the order of the records. *)
Definition posted (es : list data.Transaction) : list (bool * Z * Z) :=
  flat_map (fun e =>
              map (fun p => let n := data.number (data.units p) in
                            (d_neg n, d_int n, d_exp n))
                  (data.postings e)) es.

(** The lines the sanitizer keeps. *)
Definition kept (line : string) : bool := negb (Importer.is_boilerplate line).

(** Line [i] is followed by an "Amount:" continuation line: the test of
    the plain branch, [i + 1 < len(lines) and re.match(..., lines[i+1])]. *)
Definition continues (lines : list string) (i : nat) : bool :=
  (i + 1 <? length lines)
  && match nth_error lines (i + 1) with
     | Some next => is_some (re_match Importer.next_line_amount_pattern next)
     | None => false
     end.

(** [w] put in front of the pattern [tail]. *)
Fixpoint prepend (w : list ascii) (tail : regex) : regex :=
  match w with
  | [] => tail
  | c :: w' => Cat (Lit c) (prepend w' tail)
  end.

(** What follows "Date: " in the pattern of [date]: a group holding the
    characters up to the next line feed. *)
Definition rest_of_line : regex :=
  Cat (Group 1 (Cat (Repeat 0 None false (CharSet true [CRange nl nl])) Empty))
      Empty.

(** The groups 0 to 3 of the first match of the pattern text [p] in [s],
    from the start of [s] or, with [search], from anywhere in it. *)
Definition groups_of (p : string) (search : bool) (s : string)
  : option (list (option string)) :=
  match re_compile p with
  | Some r =>
      option_map (fun m => map (fun n => group n m) [0; 1; 2; 3])
                 (if search then re_search r s else re_match r s)
  | None => None
  end.

(** ** The texts of a pattern *)

(** The numbers of the groups of a pattern. *)
Fixpoint groups_in (r : regex) : list nat :=
  match r with
  | Cat r1 r2 | Alt r1 r2 => groups_in r1 ++ groups_in r2
  | Repeat _ _ _ r1 => groups_in r1
  | Group n r1 => n :: groups_in r1
  | _ => []
  end.

(** The texts a pattern can read, whatever surrounds them. *)
Inductive matches : regex -> list ascii -> Prop :=
| m_empty : matches Empty []
| m_lit c : matches (Lit c) [c]
| m_any c : matches Any [c]
| m_set negated items c :
    set_has negated items c = true -> matches (CharSet negated items) [c]
| m_bol : matches Bol []
| m_eol : matches Eol []
| m_wordb : matches WordB []
| m_cat r1 r2 w1 w2 :
    matches r1 w1 -> matches r2 w2 -> matches (Cat r1 r2) (w1 ++ w2)
| m_alt_l r1 r2 w : matches r1 w -> matches (Alt r1 r2) w
| m_alt_r r1 r2 w : matches r2 w -> matches (Alt r1 r2) w
| m_group n r w : matches r w -> matches (Group n r) w
| m_repeat_stop hi lz r : matches (Repeat 0 hi lz r) []
| m_repeat_more lo hi lz r w1 w2 :
    matches r w1 -> matches (Repeat (pred lo) hi lz r) w2 ->
    matches (Repeat lo hi lz r) (w1 ++ w2).

(** The groups outside [G] are the same in both states. *)
Definition same_groups (G : list nat) (st st1 : mstate) : Prop :=
  forall n, ~ In n G -> group n (ms_caps st1) = group n (ms_caps st).

(** [st1] is reached from [st] by reading [w]. *)
Definition reads (st st1 : mstate) (w : list ascii) : Prop :=
  ms_rest st = w ++ ms_rest st1.

(** [body] reads only texts of [r], hands what follows to its continuation
    and leaves the groups outside [r] alone. *)
Definition sound_body (body : mstate -> (mstate -> option mstate) -> option mstate)
  (r : regex) : Prop :=
  forall st k res,
    body st k = Some res ->
    exists st1 w, k st1 = Some res /\ reads st st1 w /\ matches r w
                  /\ same_groups (groups_in r) st st1.

Definition digit_re : regex := CharSet false [CDigit].

(** The pattern of an amount: [\d{1,3}(?:,\d{3})*\.\d+|\d+\.\d+]. *)
Definition amount_re : regex :=
  Eval vm_compute in compiled "\d{1,3}(?:,\d{3})*\.\d+|\d+\.\d+".

(** The parts of a pattern [^ r1 r2 rest]. *)
Definition second_part (r : regex) : regex :=
  match r with
  | Cat _ (Cat r1 _) => r1
  | _ => Empty
  end.

Definition rest_part (r : regex) : regex :=
  match r with
  | Cat _ (Cat _ (Cat _ rest)) => rest
  | _ => Empty
  end.

(** A line pattern of the importer: the start, the optional "CR", the amount
    as group 2, and a rest that does not set group 2. *)
Definition amount_first (r : regex) : Prop :=
  r = Cat Bol (Cat (second_part r) (Cat (Group 2 amount_re) (rest_part r)))
  /\ ~ In 2 (groups_in (rest_part r)).

Definition all_digits (l : list ascii) : Prop := forallb is_digit l = true.

Definition is_comma (c : ascii) : bool := ceq c ",".

Definition digits_or_commas (l : list ascii) : Prop :=
  forallb (fun c => is_digit c || is_comma c) l = true.

(** The exception the building of an entry ends in, if any: the posting
    date is read first, then the currency is joined to the narration, then
    [units] is read. *)
Definition entry_error (f : Importer.fields) (units : option data.Amount)
  : option exn :=
  match strptime_dmy (Importer.posting_date f) with
  | Raise e => Some e
  | Ok _ =>
      match Importer.transaction_currency f with
      | None => Some TypeError
      | Some _ =>
          match units with
          | None => Some UnboundLocalError
          | Some _ => None
          end
      end
  end.

(** What one iteration of the loop does at a cursor inside the lines.
    Classifying the line raises nothing, but for [Overflow] from the
    multiplication of a raw amount on a line of a million characters or
    more; a line that is no transaction moves the cursor on by one; a
    transaction line either appends its record and moves the cursor on (by
    two after a consumed continuation line), or raises the exception the
    building of its entry ends in. *)
Definition iteration_spec (self : Importer.t) (filepath : string)
  (lines : list string) (st : Importer.loop_state) : Prop :=
  exists line,
    nth_error lines (Importer.i st) = Some line
    /\ match Importer.classify self lines (Importer.i st)
               (Importer.units_var st) line with
       | Raise x =>
           x = Overflow
           /\ (999999 < Z.of_nat (String.length line))%Z
           /\ Importer.step self filepath lines st = Raise Overflow
       | Ok Importer.NoTransaction =>
           Importer.step self filepath lines st
           = Ok (Importer.MkState (Importer.i st + 1) (Importer.entries st)
                                  (Importer.units_var st))
       | Ok (Importer.AdvanceLine f units) =>
           match entry_error f units with
           | Some x =>
               Importer.step self filepath lines st = Raise x
               /\ (x = ValueError \/ x = TypeError \/ x = UnboundLocalError)
           | None =>
               exists e,
                 Importer.step self filepath lines st
                 = Ok (Importer.MkState (Importer.i st + 1)
                         (Importer.entries st ++ [e]) units)
                 /\ data.payee e = Some "Advance payment"
           end
       | Ok (Importer.StandardLine f units payee description consumed_next) =>
           match entry_error f (Some units) with
           | Some x =>
               Importer.step self filepath lines st = Raise x
               /\ (x = ValueError \/ x = TypeError)
           | None =>
               exists e,
                 Importer.step self filepath lines st
                 = Ok (Importer.MkState
                         (Importer.i st + (if consumed_next then 2 else 1))
                         (Importer.entries st ++ [e]) (Some units))
                 /\ data.payee e = payee
           end
       end.

(** A line that matches no transaction shape: the strict Advance Payment
    pattern fails and, with the phrase "Advance Payment" in the line, so does
    the looser one, or, without the phrase, so do the plain and the
    "Amount:" pattern. *)
Definition unmatched (line : string) : bool :=
  negb (is_some (re_match Importer.advance_payment_pattern line))
  && (if contains "Advance Payment" line
      then negb (is_some (re_match Importer.general_pattern line))
      else negb (is_some (re_match Importer.pattern line))
           && negb (is_some (re_match Importer.alt_pattern line))).

(** The lines the loop of [extract] runs over. *)
Definition loop_lines (w : world) (filepath : string) : list string :=
  Importer.nonblank_lines
    (join NL (Importer.sanitize (splitlines (join NL (extract_text w filepath))))).

(** A line as the loop sees it: trimmed, and left out when blank. *)
Definition trimmed (line : string) : list string :=
  if negb (String.eqb (strip line) "") then [strip line] else [].

Definition no_line_feed (s : string) : Prop := ~ In nl (chars s).

(** What every record of [extract] looks like, whatever its line. *)
Definition entry_shape (self : Importer.t) (filepath : string)
  (e : data.Transaction) : Prop :=
  data.meta e = (filepath, 0)
  /\ data.flag e = "*"
  /\ data.tags e = []
  /\ data.links e = []
  /\ exists number,
       data.postings e
       = [data.MkPosting (Importer.importer_account self)
            (data.MkAmount number (Importer.currency self))
            None None None None].

(** The state of the loop between two iterations. *)
Definition loop_invariant (self : Importer.t) (filepath : string)
  (lines : list string) (st : Importer.loop_state) : Prop :=
  Forall (entry_shape self filepath) (Importer.entries st)
  /\ (forall u, Importer.units_var st = Some u ->
                data.currency u = Importer.currency self)
  /\ length (Importer.entries st) <= Importer.i st
  /\ Importer.i st <= length lines.

(** A day of the calendar, in the years a two-digit year stands for. *)
Definition real_day (d : caldate) : Prop :=
  1969 <= year d <= 2068
  /\ 1 <= month d <= 12
  /\ 1 <= day d <= days_in_month (year d) (month d).

(** The three groups of the date format. *)
Definition day_re : regex :=
  match dmy_format with
  | Cat (Group _ r) _ => r
  | _ => Empty
  end.

Definition month_re : regex :=
  match dmy_format with
  | Cat _ (Cat _ (Cat (Group _ r) _)) => r
  | _ => Empty
  end.

Definition year_re : regex :=
  match dmy_format with
  | Cat _ (Cat _ (Cat _ (Cat _ (Cat (Group _ r) _)))) => r
  | _ => Empty
  end.

(** The first characters of a transaction line: a digit, or "CR" and a
    white-space character. *)
Definition starts_like_a_transaction (l : list ascii) : Prop :=
  match l with
  | c :: rest =>
      is_digit c = true
      \/ (c = "C"%char
          /\ exists s rest', rest = "R"%char :: s :: rest' /\ is_space s = true)
  | [] => False
  end.

(** A state the loop of [extract] is in before one of its iterations. *)
Definition reached (self : Importer.t) (filepath : string)
  (lines : list string) (st : Importer.loop_state) : Prop :=
  exists k, Importer.run k self filepath lines (Importer.MkState 0 [] None)
            = Ok st
            /\ Importer.i st < length lines.

(** The match whose groups give [units] its value: that of the strict
    Advance Payment pattern, or, on a line without the phrase
    "Advance Payment", that of the "Amount:" pattern or else of the plain
    one.  Group 1 of it is the "CR" mark and group 2 the raw amount. *)
Definition assigning_match (line : string) : option match_obj :=
  match re_match Importer.advance_payment_pattern line with
  | Some m => Some m
  | None =>
      if contains "Advance Payment" line then None
      else match re_match Importer.alt_pattern line with
           | Some m => Some m
           | None => re_match Importer.pattern line
           end
  end.

(** The characters up to the next line feed. *)
Definition not_nl (c : ascii) : bool := set_has true [CRange nl nl] c.

(** [st] after its first characters [w] are read. *)
Fixpoint advance (w : list ascii) (st : mstate) : mstate :=
  match w, ms_rest st with
  | c :: w', _ :: rest => advance w' (MState (Some c) rest (ms_caps st))
  | _, _ => st
  end.

(** The posting date the code reads off a line: group 6 of the match of the
    strict Advance Payment pattern or, with the phrase "Advance Payment" in
    the line, group 5 of the looser one; otherwise group 6 of the "Amount:"
    pattern or else group 5 of the plain one. *)
Definition posting_date_of (line : string) : option string :=
  match re_match Importer.advance_payment_pattern line with
  | Some m => Some (group_str 6 m)
  | None =>
      if contains "Advance Payment" line
      then option_map (group_str 5) (re_match Importer.general_pattern line)
      else match re_match Importer.alt_pattern line with
           | Some m => Some (group_str 6 m)
           | None => option_map (group_str 5) (re_match Importer.pattern line)
           end
  end.

(** The year a two-digit year stands for. *)
Definition two_digit_year (yy : nat) : nat :=
  if yy <=? 68 then 2000 + yy else 1900 + yy.

(** [d] is the day that the text [s] writes as day/month/year, in digits,
    the year with two of them. *)
Definition written_as (s : string) (d : caldate) : Prop :=
  exists wd wm wy : list ascii,
    chars s = wd ++ "/"%char :: wm ++ "/"%char :: wy
    /\ all_digits (chars (strip (text_of wd)))
    /\ all_digits wm
    /\ (all_digits wy /\ length wy = 2)
    /\ day d = nat_of_digits (strip (text_of wd))
    /\ month d = nat_of_digits (text_of wm)
    /\ year d = two_digit_year (nat_of_digits (text_of wy)).

(** The date of a record is a day of the calendar, the one that the posting
    date of one of the lines writes. *)
Definition dated_by_a_line (lines : list string) (e : data.Transaction)
  : Prop :=
  real_day (data.date e)
  /\ exists line s,
       In line lines /\ posting_date_of line = Some s
       /\ written_as s (data.date e).

(** A text of ASCII characters only: on such a text the classes of the
    patterns ([\d], [\s], [\w], [\b]) and of the [str] methods are those
    modelled here. *)
Definition ascii_text (s : string) : Prop :=
  forallb (fun c => ord c <? 128) (chars s) = true.

(** * Theorems *)

(** ** The patterns are patterns *)

Lemma patterns_compile :
  map re_compile Importer.patterns_text = map Some Importer.patterns
  /\ re_compile Importer.date_pattern_text = Some Importer.date_pattern
  /\ re_compile Importer.advance_payment_pattern_text
     = Some Importer.advance_payment_pattern
  /\ re_compile Importer.general_pattern_text = Some Importer.general_pattern
  /\ re_compile Importer.currency_pattern_text = Some Importer.currency_pattern
  /\ re_compile Importer.currency_code_pattern_text
     = Some Importer.currency_code_pattern
  /\ re_compile Importer.pattern_text = Some Importer.pattern
  /\ re_compile Importer.alt_pattern_text = Some Importer.alt_pattern
  /\ re_compile Importer.transaction_amount_pattern_text
     = Some Importer.transaction_amount_pattern
  /\ re_compile Importer.next_line_amount_pattern_text
     = Some Importer.next_line_amount_pattern.
Proof. repeat split; vm_compute; reflexivity. Qed.

(** ** The matcher and the library models on known cases

    Each expected value is what the Python library returns. *)

Example matcher_case_1 :
  groups_of "(a|ab)(c|bcd)(d*)" false "abcd"
  = Some [Some "abcd"; Some "a"; Some "bcd"; Some ""].
Proof. vm_compute. reflexivity. Qed.

Example matcher_case_2 :
  groups_of "(a+?)(a*)" false "aaa"
  = Some [Some "aaa"; Some "a"; Some "aa"; None].
Proof. vm_compute. reflexivity. Qed.

Example matcher_case_3 :
  groups_of "x{2,3}?x" false "xxxx"
  = Some [Some "xxx"; None; None; None].
Proof. vm_compute. reflexivity. Qed.

Example matcher_case_4 :
  groups_of "(\d{1,3}(?:,\d{3})*\.\d+|\d+\.\d+)\s+([A-Z]{3})" true "x 1,2.5 AB 3.5 ABC"
  = Some [Some "3.5 ABC"; Some "3.5"; Some "ABC"; None].
Proof. vm_compute. reflexivity. Qed.

Example matcher_case_5 :
  groups_of "\b([A-Z]{3})\b" true "aUSDb (EUR)"
  = Some [Some "EUR"; Some "EUR"; None; None].
Proof. vm_compute. reflexivity. Qed.

Example matcher_case_6 :
  groups_of "\b([A-Z]{3})\b" true "POS purchase"
  = Some [Some "POS"; Some "POS"; None; None].
Proof. vm_compute. reflexivity. Qed.

Example matcher_case_7 :
  groups_of "\b([A-Z]{3})\b" true "Some Merchant"
  = None.
Proof. vm_compute. reflexivity. Qed.

Example matcher_case_8 :
  groups_of "(a*)*b" false "b"
  = Some [Some "b"; Some ""; None; None].
Proof. vm_compute. reflexivity. Qed.

Example matcher_case_9 :
  groups_of "a$" true "ba"
  = Some [Some "a"; None; None; None].
Proof. vm_compute. reflexivity. Qed.

Example matcher_case_10 :
  groups_of "[^]a]+" false "xy]z"
  = Some [Some "xy"; None; None; None].
Proof. vm_compute. reflexivity. Qed.

Example compile_errors :
  map re_compile ["*a"; "a**"; "(a"; "a)"; "[a"; "a{2,1}"]
  = [None; None; None; None; None; None].
Proof. vm_compute. reflexivity. Qed.

Example strptime_cases :
  map strptime_dmy ["01/05/23"; "29/02/24"; "31/12/69"; "31/12/68"; "31/02/23";
                    "00/01/23"; "01/13/23"; "01/05/2023"]
  = [Ok (MkDate 2023 5 1); Ok (MkDate 2024 2 29); Ok (MkDate 1969 12 31);
     Ok (MkDate 2068 12 31); Raise ValueError; Raise ValueError;
     Raise ValueError; Raise ValueError].
Proof. vm_compute. reflexivity. Qed.

Example decimal_cases :
  map (fun s => n <- D s ;; signed n false)
      ["150.00"; "1,250.50"; "0.00"; "12345678901234567890123456789.00"; "1.2.3"]
  = [Ok (MkDecimal true 15000 (-2)); Ok (MkDecimal true 125050 (-2));
     Ok (MkDecimal true 0 (-2));
     Ok (MkDecimal true 1234567890123456789012345679 1);
     Raise ValueError].
Proof. vm_compute. reflexivity. Qed.

Example lines_cases :
  splitlines ("a" ++ NL ++ NL ++ " b " ++ String (chr 13) NL ++ "c" ++ NL)
  = ["a"; ""; " b "; "c"]
  /\ Importer.nonblank_lines ("  a " ++ NL ++ NL ++ " b" ++ NL) = ["a"; "b"]
  /\ split_nl "" = [""]
  /\ strip (" " ++ NL ++ "x y" ++ String (chr 9) "") = "x y".
Proof. repeat split; vm_compute; reflexivity. Qed.

(** ** [filename] *)

(** C10: [filename] returns the text 'maybank.pdf' whatever the path and
    whatever the configuration of the importer. *)
Theorem filename_is_constant :
  forall (self self' : Importer.t) (filepath filepath' : string),
    Importer.filename self filepath = "maybank.pdf"
    /\ Importer.filename self filepath = Importer.filename self' filepath'.
Proof. intros; split; reflexivity. Qed.

(** ** [date] *)

(** C7: the first statement of [date] reads the global name [pdf_to_text],
    which the module neither defines nor imports: whatever the document, and
    whatever a date parser would answer, the call raises [NameError].  It
    returns neither the date of a "Date: ..." line nor an absent value. *)
Theorem date_raises_NameError :
  forall (pdf_to_text : string -> result string)
         (parse_datetime : string -> result caldate)
         (self : Importer.t) (filepath : string),
    Importer.date pdf_to_text parse_datetime self filepath = Raise NameError.
Proof. intros; reflexivity. Qed.

(** ** The sanitizer *)

Section Sanitizer.

Lemma clean_loop_filter (todo clean_lines : list string) :
  Importer.clean_loop clean_lines todo = clean_lines ++ filter kept todo.
Proof.
  revert clean_lines.
  induction todo as [|line rest IH]; intros clean_lines; simpl.
  - now rewrite app_nil_r.
  - unfold kept at 1.
    destruct (negb (Importer.is_boilerplate line)).
    + now rewrite IH, <- app_assoc.
    + apply IH.
Qed.

Lemma filter_subseq (A : Type) (f : A -> bool) (l : list A) :
  subseq (filter f l) l.
Proof.
  induction l as [|x l IH]; simpl.
  - constructor.
  - destruct (f x); now constructor.
Qed.

Lemma is_boilerplate_spec (line : string) :
  Importer.is_boilerplate line = true
  <-> exists p, In p Importer.patterns /\ re_match p line <> None.
Proof.
  unfold Importer.is_boilerplate.
  rewrite existsb_exists.
  split; intros [p [Hin Hm]]; exists p; split; trivial.
  - destruct (re_match p line); [discriminate | discriminate Hm].
  - destruct (re_match p line); [reflexivity | now elim Hm].
Qed.

Lemma sanitize_filter (raw_lines : list string) :
  Importer.sanitize raw_lines = filter kept raw_lines.
Proof. unfold Importer.sanitize. now rewrite clean_loop_filter. Qed.

End Sanitizer.

(** C5: for every sequence of lines, the sanitizer keeps a line exactly when
    none of the fixed patterns matches at its start (so it drops exactly the
    lines that one of them matches), and what it returns is the input with
    the dropped lines left out: the lines that remain, every occurrence of
    them, in their original order. *)
Theorem sanitize_drops_exactly_boilerplate :
  forall raw_lines : list string,
    (forall line,
        In line (Importer.sanitize raw_lines)
        <-> In line raw_lines
            /\ forall p, In p Importer.patterns -> re_match p line = None)
    /\ subseq (Importer.sanitize raw_lines) raw_lines
    /\ Importer.sanitize raw_lines
       = filter (fun line =>
                   negb (existsb (fun p => is_some (re_match p line))
                                 Importer.patterns))
                raw_lines.
Proof.
  intros raw_lines.
  rewrite sanitize_filter.
  split; [|split].
  - intros line. rewrite filter_In. unfold kept.
    split; intros [Hin Hk]; split; trivial.
    + intros p Hp.
      destruct (re_match p line) eqn:E; trivial.
      assert (Hb : Importer.is_boilerplate line = true).
      { apply is_boilerplate_spec. exists p. split; trivial. now rewrite E. }
      now rewrite Hb in Hk.
    + destruct (Importer.is_boilerplate line) eqn:E; trivial.
      apply is_boilerplate_spec in E. destruct E as [p [Hp Hm]].
      now elim Hm; apply Hk.
  - apply filter_subseq.
  - reflexivity.
Qed.

(** The limits of the context: a product below [Etiny] is rounded to
    zero there, one above [Emax] raises, and so does a rounding that carries
    past [Emax]. *)
Example decimal_limits :
  map (fun d => signed d false)
      [MkDecimal false 1 (-1000101); MkDecimal false 15 (-1000027);
       MkDecimal false 0 (-2000000); MkDecimal false 1 999999;
       MkDecimal false 1 1000000;
       MkDecimal false 99999999999999999999999999995 999971]
  = [Ok (MkDecimal true 0 (-1000026)); Ok (MkDecimal true 2 (-1000026));
     Ok (MkDecimal true 0 (-1000026)); Ok (MkDecimal true 1 999999);
     Raise Overflow; Raise Overflow].
Proof. vm_compute. reflexivity. Qed.

Example sanitize_example :
  Importer.sanitize
    ["Page no. 1 of 3"; "15.00 0.00 Bakery 15.00 SAR 01/05/23 02/05/23";
     "see Page no. 1 of 3"; "credit card statement for May";
     "MAY, 2023 Statement Month"; "May, 2023 Statement Month"]
  = ["15.00 0.00 Bakery 15.00 SAR 01/05/23 02/05/23"; "see Page no. 1 of 3";
     "May, 2023 Statement Month"].
Proof. vm_compute. reflexivity. Qed.

(** ** [extract] on single statements *)

(** C1: [extract] raises on lines that have the shape of a transaction.  A
    plain line whose free text holds no currency code leaves
    [transaction_currency] at [None], and building the narration raises
    [TypeError] (here after a first line that is a complete transaction, which
    is lost with it); a line whose posting date is no day of the calendar
    raises [ValueError]; and an Advance Payment line that only the looser
    pattern matches reads the variable [units] before anything was assigned
    to it, which raises [UnboundLocalError]. *)
Theorem extract_raises_on_transaction_lines :
  forall (self : Importer.t) (filepath : string),
    Importer.extract self
      (statement ["10.00 1.00 Shop 10.00 SAR 01/05/23 02/05/23";
                  "12.00 0.00 Coffee house 03/05/23 04/05/23"]) filepath
    = Raise TypeError
    /\ Importer.extract self
         (statement ["10.00 1.00 Shop 10.00 SAR 31/02/23 02/03/23"]) filepath
       = Raise ValueError
    /\ Importer.extract self
         (statement ["CR 20.00 0.00 Advance Payment 20.00 SAR 03/05/23 04/05/23"])
         filepath
       = Raise UnboundLocalError.
Proof. intros. repeat split; vm_compute; reflexivity. Qed.

(** C2: on the single line "150.00 2.00 Some Merchant 01/05/23 02/05/23",
    with the currency SAR configured, the line is read as a plain
    transaction of 150.00 with posting date 2023-05-01 and units -150.00 SAR,
    but its free text "Some Merchant" holds no currency code, so
    [transaction_currency] is [None]: building the narration raises
    [TypeError] and [extract] returns no record at all. *)
Theorem scenario_1_raises_TypeError :
  forall (acct flag token filepath : string),
    let self := Importer.MkImporter acct "SAR" flag token in
    let line := "150.00 2.00 Some Merchant 01/05/23 02/05/23" in
    let f := Importer.MkFields false "150.00" "2.00" "150.00" None
                               "01/05/23" "02/05/23" in
    Importer.classify self [line] 0 None line
    = Ok (Importer.StandardLine f
            (data.MkAmount (MkDecimal true 15000 (-2)) "SAR") None None false)
    /\ strptime_dmy (Importer.posting_date f) = Ok (MkDate 2023 5 1)
    /\ Importer.make_narration f = Raise TypeError
    /\ Importer.extract self (statement [line]) filepath = Raise TypeError.
Proof. intros. repeat split; vm_compute; reflexivity. Qed.

(** C3: on the lines "Amazon", "Online purchase" and
    "75.00 1.50 Amount: 73.50 USD 05/07/23 06/07/23" the third line is read
    with payee "Amazon", description "Online purchase" and transaction amount
    "73.50", but the amount pattern has taken "73.50" for itself, the text left
    is "USD" alone, and the currency is searched as a number followed by a
    code: [transaction_currency] is [None], not USD, and building the
    narration raises [TypeError], so [extract] returns no record. *)
Theorem scenario_3_raises_TypeError :
  forall (self : Importer.t) (filepath : string),
    let line := "75.00 1.50 Amount: 73.50 USD 05/07/23 06/07/23" in
    let lines := ["Amazon"; "Online purchase"; line] in
    (exists units,
        Importer.classify self lines 2 None line
        = Ok (Importer.StandardLine
                (Importer.MkFields false "75.00" "1.50" "73.50" None
                                   "05/07/23" "06/07/23")
                units (Some "Amazon") (Some "Online purchase") false))
    /\ Importer.extract self (statement lines) filepath = Raise TypeError.
Proof.
  intros. split.
  - eexists. vm_compute. reflexivity.
  - vm_compute. reflexivity.
Qed.

(** C4: an Advance Payment line that only the looser pattern matches gets
    the units of the record before it.  After a debit of 10.00, the credit
    line "CR 20.00 0.00 Advance Payment 20.00 SAR 03/05/23 04/05/23" is read as
    a credit with raw amount "20.00" (that is 2000 with exponent -2), and its
    record is posted with -10.00: neither the amount of its line nor
    positive. *)
Theorem fallback_advance_posts_stale_units :
  forall (self : Importer.t) (filepath : string),
    let debit := "10.00 1.00 Shop 10.00 SAR 01/05/23 02/05/23" in
    let credit := "CR 20.00 0.00 Advance Payment 20.00 SAR 03/05/23 04/05/23" in
    re_match Importer.advance_payment_pattern credit = None
    /\ (forall units_var,
           Importer.classify self [debit; credit] 1 units_var credit
           = Ok (Importer.AdvanceLine
                   (Importer.MkFields true "20.00" "0.00" "20.00" (Some "SAR")
                                      "03/05/23" "04/05/23")
                   units_var))
    /\ D "20.00" = Ok (MkDecimal false 2000 (-2))
    /\ exists e1 e2,
         Importer.extract self (statement [debit; credit]) filepath
         = Ok [e1; e2]
         /\ data.narration e2 = "CR 20.00 SAR on 04/05/23"
         /\ posted [e1] = [(true, 1000, -2)%Z]
         /\ posted [e2] = [(true, 1000, -2)%Z].
Proof.
  intros. split; [|split; [|split]].
  - vm_compute. reflexivity.
  - intros. vm_compute. reflexivity.
  - vm_compute. reflexivity.
  - do 2 eexists. split; [vm_compute; reflexivity|].
    repeat split.
Qed.

(** C6: a plain line followed by an "Amount:" line is classified with the
    two lines above it and with the next line consumed, but when its free
    text holds no currency code no record is built and the cursor moves
    nowhere: [extract] raises [TypeError]. *)
Theorem continuation_line_raises_TypeError :
  forall (self : Importer.t) (filepath : string),
    let line := "45.00 0.00 Coffee house 01/05/23 02/05/23" in
    let lines := ["Cafe Bateel"; "Riyadh"; line; "Amount: 45.00"] in
    re_match Importer.alt_pattern line = None
    /\ re_match Importer.pattern line <> None
    /\ re_match Importer.next_line_amount_pattern "Amount: 45.00" <> None
    /\ (exists units,
          Importer.classify self lines 2 None line
          = Ok (Importer.StandardLine
                  (Importer.MkFields false "45.00" "0.00" "45.00" None
                                     "01/05/23" "02/05/23")
                  units (Some "Cafe Bateel") (Some "Riyadh") true))
    /\ Importer.extract self (statement lines) filepath = Raise TypeError.
Proof.
  intros. split; [|split; [|split; [|split]]].
  - vm_compute. reflexivity.
  - vm_compute. discriminate.
  - vm_compute. discriminate.
  - eexists. vm_compute. reflexivity.
  - vm_compute. reflexivity.
Qed.

(** C9: at the first (and only) line of a statement an "Amount:" line and a
    plain line are both read with payee and description absent, but no
    record is emitted for either: their free text holds no currency that the
    search finds, and [extract] raises [TypeError]. *)
Theorem boundary_lines_raise_TypeError :
  forall (self : Importer.t) (filepath : string),
    let annotated := "75.00 1.50 Amount: 73.50 USD 05/07/23 06/07/23" in
    let plain := "99.00 0.00 Grocery store 01/05/23 02/05/23" in
    (exists f units,
        Importer.classify self [annotated] 0 None annotated
        = Ok (Importer.StandardLine f units None None false))
    /\ Importer.extract self (statement [annotated]) filepath = Raise TypeError
    /\ (exists f units,
          Importer.classify self [plain] 0 None plain
          = Ok (Importer.StandardLine f units None None false))
    /\ Importer.extract self (statement [plain]) filepath = Raise TypeError.
Proof.
  intros. split; [|split; [|split]].
  - do 2 eexists. vm_compute. reflexivity.
  - vm_compute. reflexivity.
  - do 2 eexists. vm_compute. reflexivity.
  - vm_compute. reflexivity.
Qed.

(** ** [identify] *)

Section PlainTokens.

Lemma chars_length (s : string) : length (chars s) = String.length s.
Proof. induction s as [|c s IH]; simpl; [reflexivity | now rewrite IH]. Qed.

Lemma not_meta_inv (c : ascii) :
  is_meta c = false ->
  ceq c "." = false /\ ceq c "^" = false /\ ceq c "$" = false
  /\ ceq c "*" = false /\ ceq c "+" = false /\ ceq c "?" = false
  /\ ceq c "{" = false /\ ceq c "[" = false /\ ceq c "\" = false
  /\ ceq c "|" = false /\ ceq c "(" = false /\ ceq c ")" = false.
Proof.
  unfold is_meta. intros H.
  repeat (apply orb_false_elim in H; destruct H as [H ?]).
  repeat split; assumption.
Qed.

Lemma parse_quant_plain (w : list ascii) :
  forallb (fun c => negb (is_meta c)) w = true ->
  parse_quant w = (NoQuant, w).
Proof.
  destruct w as [|d w]; [reflexivity|].
  intros H. cbn [forallb] in H. apply andb_prop in H. destruct H as [H _].
  apply negb_true_iff, not_meta_inv in H.
  destruct H as (_ & _ & _ & Hs & Hp & Hq & Hb & _).
  unfold parse_quant. now rewrite Hs, Hp, Hq, Hb.
Qed.

Lemma parse_atom_plain (c : ascii) (w : list ascii) (fuel g : nat) :
  is_meta c = false ->
  parse_atom (S fuel) g (c :: w) = Some (Lit c, g, w).
Proof.
  intros H. apply not_meta_inv in H.
  destruct H as (Hd & Hc & He & Hs & Hp & Hq & Hb & Hk & Hx & _ & Ho & _).
  cbn [parse_atom]. unfold starts_quant.
  now rewrite Ho, Hk, Hx, Hd, Hc, He, Hs, Hp, Hq, Hb.
Qed.

Lemma parse_seq_plain (w : list ascii) :
  forall fuel g,
    forallb (fun c => negb (is_meta c)) w = true ->
    length w + 2 <= fuel ->
    parse_seq fuel g w = Some (literal w, g, []).
Proof.
  induction w as [|c w IH]; intros fuel g Hw Hf.
  - destruct fuel; [simpl in Hf; lia | reflexivity].
  - destruct fuel as [|[|fuel]]; try (simpl in Hf; lia).
    simpl in Hw. apply andb_prop in Hw. destruct Hw as [Hc Hw].
    apply negb_true_iff in Hc.
    assert (Hi := not_meta_inv c Hc).
    destruct Hi as (_ & _ & _ & _ & _ & _ & _ & _ & _ & Hbar & _ & Hclose).
    change (parse_seq (S (S fuel)) g (c :: w))
      with (if ceq c "|" || ceq c ")" then Some (Empty, g, c :: w)
            else
              match parse_atom (S fuel) g (c :: w) with
              | Some (a, g1, s1) =>
                  match parse_quant s1 with
                  | (BadQuant, _) => None
                  | (NoQuant, s2) =>
                      match parse_seq (S fuel) g1 s2 with
                      | Some (r, g2, s3) => Some (Cat a r, g2, s3)
                      | None => None
                      end
                  | (Quant lo hi lz, s2) =>
                      if is_anchor a then None
                      else
                        match parse_seq (S fuel) g1 s2 with
                        | Some (r, g2, s3) =>
                            Some (Cat (Repeat lo hi lz a) r, g2, s3)
                        | None => None
                        end
                  end
              | None => None
              end).
    rewrite Hbar, Hclose. cbn [orb].
    rewrite (parse_atom_plain c w fuel g Hc).
    rewrite (parse_quant_plain w Hw).
    rewrite (IH (S fuel) g Hw) by (simpl in Hf; lia).
    reflexivity.
Qed.

(** A token without pattern characters is the pattern of its own text. *)
Lemma re_compile_plain (s : string) :
  plain_token s -> re_compile s = Some (literal (chars s)).
Proof.
  intros H. unfold re_compile.
  replace (4 * String.length s + 4) with (S (4 * String.length s + 3)) by lia.
  change (parse_alt (S (4 * String.length s + 3)) 1 (chars s))
    with (match parse_seq (4 * String.length s + 3) 1 (chars s) with
          | Some (r1, g1, s1) =>
              match s1 with
              | c :: s2 =>
                  if ceq c "|" then
                    match parse_alt (4 * String.length s + 3) g1 s2 with
                    | Some (r2, g2, s3) => Some (Alt r1 r2, g2, s3)
                    | None => None
                    end
                  else Some (r1, g1, s1)
              | [] => Some (r1, g1, s1)
              end
          | None => None
          end).
  rewrite (parse_seq_plain (chars s) _ 1 H) by (rewrite chars_length; lia).
  reflexivity.
Qed.

Lemma rmatch_literal (w : list ascii) :
  forall (st : mstate) (k : mstate -> option mstate),
    (forall st', k st' <> None) ->
    is_some (rmatch (literal w) st k) = is_prefix w (ms_rest st).
Proof.
  induction w as [|c w IH]; intros st k Hk; simpl.
  - destruct (k st) eqn:E; [reflexivity | now elim (Hk st)].
  - unfold eat. destruct (ms_rest st) as [|x rest]; [reflexivity|].
    destruct (Ascii.eqb c x); [|reflexivity].
    now rewrite IH.
Qed.

Lemma run_at_literal (w l : list ascii) (prev : option ascii) :
  is_some (run_at (literal w) prev l) = is_prefix w l.
Proof.
  unfold run_at.
  change (rmatch (Group 0 (literal w)) (MState prev l []) Some)
    with (rmatch (literal w) (MState prev l [])
            (fun st1 => Some (set_group 0 (MState prev l []) st1))).
  assert (H := rmatch_literal w (MState prev l [])
                 (fun st1 => Some (set_group 0 (MState prev l []) st1))).
  cbn [ms_rest] in H. rewrite <- H by discriminate.
  now destruct (rmatch (literal w) _ _).
Qed.

Lemma search_from_prefix (r : regex) (w : list ascii) :
  (forall prev l, is_some (run_at r prev l) = is_prefix w l) ->
  forall l prev, is_some (search_from r prev l) = occurs_in w l.
Proof.
  intros Hr. induction l as [|c l IH]; intros prev; simpl;
    rewrite <- (Hr prev);
    destruct (run_at r prev _); simpl; trivial.
Qed.

Lemma search_from_literal (w l : list ascii) (prev : option ascii) :
  is_some (search_from (literal w) prev l) = occurs_in w l.
Proof.
  apply search_from_prefix. intros p l0. apply run_at_literal.
Qed.

Lemma is_prefix_spec (p l : list ascii) :
  is_prefix p l = true <-> exists after, l = p ++ after.
Proof.
  revert l. induction p as [|a p IH]; intros l; simpl.
  - split; [intros _; now exists l | reflexivity].
  - destruct l as [|b l].
    + split; [discriminate | intros [t Ht]; discriminate].
    + rewrite andb_true_iff, Ascii.eqb_eq, IH.
      split.
      * intros [-> [t ->]]. now exists t.
      * intros [t Ht]. injection Ht as -> ->. split; [reflexivity | now exists t].
Qed.

Lemma occurs_in_spec (p l : list ascii) :
  occurs_in p l = true <-> exists before after, l = before ++ p ++ after.
Proof.
  induction l as [|c l IH]; simpl; rewrite orb_true_iff, is_prefix_spec.
  - split.
    + intros [[t Ht] | H]; [|discriminate]. now exists [], t.
    + intros [b [t Ht]]. left.
      destruct b; [now exists t | discriminate].
  - rewrite IH. split.
    + intros [[t Ht] | [b [t Ht]]].
      * now exists [], t.
      * exists (c :: b), t. now rewrite Ht.
    + intros [b [t Ht]]. destruct b as [|x b].
      * left. now exists t.
      * right. injection Ht as _ Ht. now exists b, t.
Qed.

End PlainTokens.

Lemma identify_plain_token (self : Importer.t) (w : world) (filepath : string) :
  guess_type w filepath = Some "application/pdf" ->
  join NL (extract_text w filepath) <> "" ->
  plain_token (Importer.account_number self) ->
  Importer.identify self w filepath
  = Ok (Some (contains (Importer.account_number self)
                       (join NL (extract_text w filepath)))).
Proof.
  intros Hm Ht Hp. unfold Importer.identify.
  rewrite Hm, String.eqb_refl. cbn [negb].
  apply String.eqb_neq in Ht. rewrite Ht. cbn [negb].
  rewrite (re_compile_plain _ Hp).
  unfold re_search, contains. now rewrite search_from_literal.
Qed.

(** C8: [identify] does not look for the configured token in the text, as
    its comment has it ("by looking for the card number"): it hands the
    token to [re.search] as a pattern.  A card number written with its mask,
    "**** 4321", occurs in the text "Card number **** 4321", yet [identify]
    raises [re.error], for the token is no pattern; the token "1.3" does not
    occur in the text "Card 123", yet [identify] returns true; and the token
    "1+1" occurs in the text "ref 1+1", yet [identify] returns false. *)
Theorem identify_token_is_a_pattern :
  let conf := Importer.MkImporter "Liabilities:Rajhi" "SAR" "*" in
  let text_of_file (w : world) := join NL (extract_text w "may.pdf") in
  (occurs "**** 4321" (text_of_file (statement ["Card number **** 4321"]))
   /\ Importer.identify (conf "**** 4321")
        (statement ["Card number **** 4321"]) "may.pdf"
      = Raise ReError)
  /\ (~ occurs "1.3" (text_of_file (statement ["Card 123"]))
      /\ Importer.identify (conf "1.3") (statement ["Card 123"]) "may.pdf"
         = Ok (Some true))
  /\ (occurs "1+1" (text_of_file (statement ["ref 1+1"]))
      /\ Importer.identify (conf "1+1") (statement ["ref 1+1"]) "may.pdf"
         = Ok (Some false)).
Proof.
  intros conf text_of_file. split; [|split].
  - split; [|vm_compute; reflexivity].
    apply occurs_in_spec. vm_compute. reflexivity.
  - split; [|vm_compute; reflexivity].
    intros H. apply occurs_in_spec in H. vm_compute in H. discriminate.
  - split; [|vm_compute; reflexivity].
    apply occurs_in_spec. vm_compute. reflexivity.
Qed.

(** ** [extract]: what one iteration does on any statement *)

Section OneLine.

Variable self : Importer.t.
Variable filepath : string.
Variable lines : list string.

(** What a standard line was classified from. *)
Lemma classify_standard_inv (i : nat) (units_var : option data.Amount)
  (line : string) (f : Importer.fields) (u : data.Amount)
  (payee description : option string) (c : bool) :
  Importer.classify self lines i units_var line
  = Ok (Importer.StandardLine f u payee description c) ->
  re_match Importer.advance_payment_pattern line = None
  /\ contains "Advance Payment" line = false
  /\ Importer.make_units (Importer.amount f) (Importer.is_credit f)
       (Importer.currency self) = Ok u
  /\ ((exists m, re_match Importer.alt_pattern line = Some m
                 /\ Importer.is_credit f = truthy (group 1 m)
                 /\ Importer.amount f = group_str 2 m
                 /\ c = false
                 /\ (payee, description) = Importer.two_above lines i)
      \/ (re_match Importer.alt_pattern line = None
          /\ exists m, re_match Importer.pattern line = Some m
                       /\ Importer.is_credit f = truthy (group 1 m)
                       /\ Importer.amount f = group_str 2 m
                       /\ c = continues lines i
                       /\ (payee, description)
                          = if c then Importer.two_above lines i
                            else Importer.above_below lines i)).
Proof.
  unfold Importer.classify.
  destruct (re_match Importer.advance_payment_pattern line) as [am|] eqn:Ea.
  - cbn [is_some orb].
    destruct (Importer.make_units _ _ _); cbn [bind]; discriminate.
  - cbn [is_some orb].
    destruct (contains "Advance Payment" line) eqn:Ec.
    + destruct (re_match Importer.general_pattern line); [|discriminate].
      destruct (re_search Importer.currency_pattern _); discriminate.
    + destruct (re_match Importer.alt_pattern line) as [m|] eqn:Eb.
      * rewrite orb_true_r.
        destruct (Importer.make_units _ _ _) as [u0|] eqn:Eu; cbn [bind];
          [|discriminate].
        destruct (Importer.two_above lines i) as [p0 d0] eqn:Et.
        intros H. injection H as <- <- <- <- <-.
        cbn [Importer.amount Importer.is_credit].
        repeat split; trivial. left. exists m. repeat split; trivial.
      * rewrite orb_false_r.
        destruct (re_match Importer.pattern line) as [m|] eqn:Ep;
          cbn [is_some]; [|discriminate].
        destruct (Importer.make_units _ _ _) as [u0|] eqn:Eu; cbn [bind];
          [|discriminate].
        fold (continues lines i).
        destruct (re_search Importer.currency_pattern _);
          destruct (continues lines i) eqn:Ek;
          [ destruct (Importer.two_above lines i) as [p0 d0] eqn:Et
          | destruct (Importer.above_below lines i) as [p0 d0] eqn:Et
          | destruct (Importer.two_above lines i) as [p0 d0] eqn:Et
          | destruct (Importer.above_below lines i) as [p0 d0] eqn:Et ];
          intros H; injection H as <- <- <- <- <-;
          cbn [Importer.amount Importer.is_credit];
          (repeat split; trivial); right; (split; trivial); exists m;
          rewrite ?Et; repeat split; trivial.
Qed.

(** The record of a standard line carries the payee it was classified with. *)
Lemma make_entry_payee (acct : string) (payee : option string)
  (f : Importer.fields) (units : option data.Amount) (e : data.Transaction) :
  Importer.make_entry filepath acct payee f units = Ok e ->
  data.payee e = payee /\ data.postings e <> []
  /\ exists u, units = Some u
               /\ map data.units (data.postings e) = [u].
Proof.
  unfold Importer.make_entry.
  destruct (strptime_dmy _); cbn [bind]; [|discriminate].
  destruct (Importer.make_narration f); cbn [bind]; [|discriminate].
  destruct units as [u|]; cbn [load_local bind]; [|discriminate].
  intros H. injection H as <-. cbn.
  repeat split; [discriminate | now exists u].
Qed.

(** Every iteration that returns has moved the cursor on, by one or two
    lines. *)
Lemma step_advances (st st' : Importer.loop_state) :
  Importer.step self filepath lines st = Ok st' ->
  Importer.i st' = Importer.i st + 1 \/ Importer.i st' = Importer.i st + 2.
Proof.
  unfold Importer.step.
  destruct (nth_error lines (Importer.i st)); [|discriminate].
  destruct (Importer.classify _ _ _ _ _) as [[|f u|f u p d c]|];
    cbn [bind]; try discriminate.
  - intros H. injection H as <-. now left.
  - destruct (Importer.make_entry _ _ _ _ _); cbn [bind]; [|discriminate].
    intros H. injection H as <-. now left.
  - destruct (Importer.make_entry _ _ _ _ _); cbn [bind]; [|discriminate].
    intros H. injection H as <-. cbn.
    destruct c; [right | left]; lia.
Qed.

End OneLine.

Section Shapes.

Variable self : Importer.t.
Variable lines : list string.
Variable i : nat.
Variable units_var : option data.Amount.
Variable line : string.

Hypothesis no_strict : re_match Importer.advance_payment_pattern line = None.
Hypothesis no_phrase : contains "Advance Payment" line = false.

(** A line that [alt_pattern] matches is classified as a standard line with
    the two lines above it, unless reading its amount raises. *)
Lemma classify_annotated (m : match_obj) :
  re_match Importer.alt_pattern line = Some m ->
  exists f,
    Importer.classify self lines i units_var line
    = (units <- Importer.make_units (group_str 2 m) (truthy (group 1 m))
                  (Importer.currency self) ;;
       Ok (Importer.StandardLine f units
             (fst (Importer.two_above lines i))
             (snd (Importer.two_above lines i)) false)).
Proof.
  intros Hb. unfold Importer.classify.
  rewrite no_strict, no_phrase, Hb. cbn [is_some orb]. rewrite orb_true_r.
  destruct (Importer.two_above lines i) as [p d]. cbn [fst snd].
  eexists. reflexivity.
Qed.

(** A line that only [pattern] matches is classified as a standard line:
    with the two lines above it when an "Amount:" line follows, and else with
    the line above and the line below. *)
Lemma classify_plain (m : match_obj) :
  re_match Importer.alt_pattern line = None ->
  re_match Importer.pattern line = Some m ->
  exists f,
    Importer.classify self lines i units_var line
    = (units <- Importer.make_units (group_str 2 m) (truthy (group 1 m))
                  (Importer.currency self) ;;
       let nb := if continues lines i then Importer.two_above lines i
                 else Importer.above_below lines i in
       Ok (Importer.StandardLine f units (fst nb) (snd nb)
             (continues lines i))).
Proof.
  intros Hb Hp. unfold Importer.classify.
  rewrite no_strict, no_phrase, Hb, Hp. cbn [is_some orb].
  fold (continues lines i).
  destruct (re_search Importer.currency_pattern (group_str 4 m));
    destruct (continues lines i);
    [ destruct (Importer.two_above lines i) as [p d]
    | destruct (Importer.above_below lines i) as [p d]
    | destruct (Importer.two_above lines i) as [p d]
    | destruct (Importer.above_below lines i) as [p d] ];
    cbn [fst snd]; eexists; reflexivity.
Qed.

End Shapes.

(** X1: a line that matches no transaction shape is skipped: when the strict
    Advance Payment pattern does not match and, for a line holding the phrase
    "Advance Payment", the looser pattern does not match either, or, for a
    line without the phrase, neither the plain nor the "Amount:" pattern
    matches, the iteration raises nothing, emits no record, leaves [units]
    alone and moves the cursor on by one. *)
Theorem unmatched_line_is_skipped :
  forall (self : Importer.t) (filepath : string) (lines : list string)
         (st : Importer.loop_state) (line : string),
    nth_error lines (Importer.i st) = Some line ->
    re_match Importer.advance_payment_pattern line = None ->
    (contains "Advance Payment" line = true ->
     re_match Importer.general_pattern line = None) ->
    (contains "Advance Payment" line = false ->
     re_match Importer.pattern line = None
     /\ re_match Importer.alt_pattern line = None) ->
    Importer.step self filepath lines st
    = Ok (Importer.MkState (Importer.i st + 1) (Importer.entries st)
                           (Importer.units_var st)).
Proof.
  intros self filepath lines st line Hn Ha Hg Hp.
  unfold Importer.step. rewrite Hn.
  unfold Importer.classify. rewrite Ha. cbn [is_some orb].
  destruct (contains "Advance Payment" line).
  - now rewrite (Hg eq_refl).
  - destruct (Hp eq_refl) as [H1 H2]. now rewrite H1, H2.
Qed.

Lemma unmatched_line_is_skipped_witness :
  let self := Importer.MkImporter "Liabilities:Rajhi" "SAR" "*" "4321" in
  let lines := ["Previous balance 1,200.00"; "Advance Payment received"] in
  Importer.step self "may.pdf" lines (Importer.MkState 0 [] None)
  = Ok (Importer.MkState 1 [] None)
  /\ Importer.step self "may.pdf" lines (Importer.MkState 1 [] None)
     = Ok (Importer.MkState 2 [] None).
Proof.
  intros self lines. split.
  - apply (unmatched_line_is_skipped self "may.pdf" lines
             (Importer.MkState 0 [] None) "Previous balance 1,200.00");
      [ reflexivity | vm_compute; reflexivity
      | vm_compute; discriminate
      | intros _; split; vm_compute; reflexivity ].
  - apply (unmatched_line_is_skipped self "may.pdf" lines
             (Importer.MkState 1 [] None) "Advance Payment received");
      [ reflexivity | vm_compute; reflexivity
      | intros _; vm_compute; reflexivity
      | vm_compute; discriminate ].
Defined.

(** X2: a plain line (no Advance Payment, not matched by the "Amount:"
    pattern, matched by the plain pattern) whose next line matches
    "^Amount: <decimal>": whenever the iteration returns, it has appended one
    record, whose payee is the line two above the cursor (absent when fewer
    than two lines precede), and has moved the cursor on by two, past the
    continuation line. *)
Theorem continuation_line_is_consumed :
  forall (self : Importer.t) (filepath : string) (lines : list string)
         (st st' : Importer.loop_state) (line : string),
    nth_error lines (Importer.i st) = Some line ->
    re_match Importer.advance_payment_pattern line = None ->
    contains "Advance Payment" line = false ->
    re_match Importer.alt_pattern line = None ->
    re_match Importer.pattern line <> None ->
    continues lines (Importer.i st) = true ->
    Importer.step self filepath lines st = Ok st' ->
    Importer.i st' = Importer.i st + 2
    /\ exists e,
         Importer.entries st' = Importer.entries st ++ [e]
         /\ data.payee e = (if 2 <=? Importer.i st
                            then nth_error lines (Importer.i st - 2)
                            else None).
Proof.
  intros self filepath lines st st' line Hn Ha Hc Hb Hp Hk.
  destruct (re_match Importer.pattern line) as [m|] eqn:Em; [|now elim Hp].
  destruct (classify_plain self lines (Importer.i st) (Importer.units_var st)
              line Ha Hc m Hb Em) as [f Hf].
  unfold Importer.step. rewrite Hn, Hf, Hk.
  destruct (Importer.make_units _ _ _) as [u|]; cbn [bind]; [|discriminate].
  destruct (Importer.make_entry _ _ _ _ _) as [e|] eqn:Ee; cbn [bind];
    [|discriminate].
  intros H. injection H as <-. cbn [Importer.i Importer.entries].
  split; [lia|].
  exists e. split; [reflexivity|].
  apply make_entry_payee in Ee. destruct Ee as [-> _].
  unfold Importer.two_above. now destruct (2 <=? Importer.i st).
Qed.

Lemma continuation_line_is_consumed_witness :
  let self := Importer.MkImporter "Liabilities:Rajhi" "SAR" "*" "4321" in
  let line := "45.00 0.00 Coffee house 45.00 SAR 01/05/23 02/05/23" in
  let lines := ["Cafe Bateel"; "Riyadh"; line; "Amount: 45.00"] in
  exists st',
    Importer.step self "may.pdf" lines (Importer.MkState 2 [] None) = Ok st'
    /\ Importer.i st' = 4
    /\ exists e, Importer.entries st' = [e]
                 /\ data.payee e = Some "Cafe Bateel".
Proof.
  intros self line lines.
  destruct (Importer.step self "may.pdf" lines (Importer.MkState 2 [] None))
    as [st'|] eqn:E; [|vm_compute in E; discriminate].
  exists st'. split; [reflexivity|].
  exact (continuation_line_is_consumed self "may.pdf" lines
           (Importer.MkState 2 [] None) st' line
           eq_refl
           ltac:(vm_compute; reflexivity) ltac:(vm_compute; reflexivity)
           ltac:(vm_compute; reflexivity) ltac:(vm_compute; discriminate)
           ltac:(vm_compute; reflexivity) E).
Defined.

(** X3: a standard line at a boundary of the statement gets absent
    neighbours, and nothing else changes: at index 0 the payee is absent; an
    "Amount:" line, or a plain line followed by one, with fewer than two
    lines above it gets payee and description absent; a plain line at the
    last index gets no description.  The iteration then emits the record
    exactly when the entry itself can be built. *)
Theorem missing_neighbours_are_absent :
  forall (self : Importer.t) (lines : list string) (i : nat)
         (units_var : option data.Amount) (line : string)
         (f : Importer.fields) (u : data.Amount)
         (payee description : option string) (c : bool),
    Importer.classify self lines i units_var line
    = Ok (Importer.StandardLine f u payee description c) ->
    (i = 0 -> payee = None)
    /\ (i < 2 -> re_match Importer.alt_pattern line <> None \/ c = true ->
        payee = None /\ description = None)
    /\ (i + 1 = length lines -> re_match Importer.alt_pattern line = None ->
        c = false /\ description = None)
    /\ forall (filepath : string) (st : Importer.loop_state),
         Importer.i st = i -> nth_error lines i = Some line ->
         Importer.units_var st = units_var ->
         match Importer.make_entry filepath (Importer.account self filepath)
                 payee f (Some u) with
         | Ok e =>
             Importer.step self filepath lines st
             = Ok (Importer.MkState (if c then i + 2 else i + 1)
                                    (Importer.entries st ++ [e]) (Some u))
         | Raise x => Importer.step self filepath lines st = Raise x
         end.
Proof.
  intros self lines i units_var line f u payee description c H.
  destruct (classify_standard_inv self lines i units_var line f u payee
              description c H) as (_ & _ & _ & Hs).
  assert (Htwo : i < 2 -> Importer.two_above lines i = (None, None)).
  { intros Hi. unfold Importer.two_above.
    destruct (2 <=? i) eqn:E; [apply Nat.leb_le in E; lia | reflexivity]. }
  assert (Hlast : i + 1 = length lines -> continues lines i = false).
  { intros Hi. unfold continues.
    destruct (i + 1 <? length lines) eqn:E; [apply Nat.ltb_lt in E; lia|].
    reflexivity. }
  split; [|split; [|split]].
  - intros ->.
    destruct Hs as [(m & _ & _ & _ & _ & Hn) | (_ & m & _ & _ & _ & _ & Hn)].
    + rewrite Htwo in Hn by lia. now injection Hn.
    + destruct c.
      * rewrite Htwo in Hn by lia. now injection Hn.
      * unfold Importer.above_below in Hn. cbn [Nat.ltb Nat.leb] in Hn.
        now injection Hn.
  - intros Hi Hor.
    destruct Hs as [(m & _ & _ & _ & _ & Hn) | (Hb & m & _ & _ & _ & _ & Hn)].
    + rewrite Htwo in Hn by exact Hi. now injection Hn.
    + destruct Hor as [Hor | ->]; [now elim Hor|].
      rewrite Htwo in Hn by exact Hi. now injection Hn.
  - intros Hi Hb.
    destruct Hs as [(m & Hm & _) | (_ & m & _ & _ & _ & Hc & Hn)].
    + rewrite Hb in Hm. discriminate.
    + rewrite Hlast in Hc by exact Hi. subst c. split; [reflexivity|].
      unfold Importer.above_below in Hn.
      destruct (i + 1 <? length lines) eqn:E;
        [apply Nat.ltb_lt in E; lia | now injection Hn].
  - intros filepath st Hi Hn Hu. subst i units_var.
    unfold Importer.step. rewrite Hn, H. cbn [bind].
    destruct (Importer.make_entry _ _ _ _ _); cbn [bind]; [|reflexivity].
    destruct c; do 2 f_equal; lia.
Qed.

Lemma missing_neighbours_are_absent_witness :
  let self := Importer.MkImporter "Liabilities:Rajhi" "SAR" "*" "4321" in
  let line := "75.00 1.50 Amount: 73.50 Bookshop 73.50 USD 05/07/23 06/07/23" in
  exists f u,
    Importer.classify self [line] 0 None line
    = Ok (Importer.StandardLine f u None None false)
    /\ exists e,
         Importer.step self "may.pdf" [line] (Importer.MkState 0 [] None)
         = Ok (Importer.MkState 1 [e] (Some u))
         /\ data.payee e = None.
Proof.
  intros self line.
  destruct (Importer.classify self [line] 0 None line)
    as [[|f0 u0|f u payee description c]|] eqn:E;
    try (vm_compute in E; discriminate).
  assert (Ep : payee = None /\ description = None /\ c = false)
    by (vm_compute in E; injection E as _ _ <- <- <-; repeat split).
  destruct Ep as (-> & -> & ->).
  exists f, u. split; [reflexivity|].
  assert (H := proj2 (proj2 (proj2
                 (missing_neighbours_are_absent self [line] 0 None line
                    f u None None false E)))
                 "may.pdf" (Importer.MkState 0 [] None) eq_refl eq_refl eq_refl).
  destruct (Importer.make_entry "may.pdf" (Importer.account self "may.pdf")
              None f (Some u)) as [e|x] eqn:Ee.
  - exists e. split; [exact H|].
    now destruct (make_entry_payee "may.pdf" _ None f (Some u) e Ee).
  - exfalso. vm_compute in E. injection E as <- <-.
    vm_compute in Ee. discriminate.
Defined.

(** ** The sign convention *)

Lemma D_not_negative (s : string) (n : Decimal) : D s = Ok n -> d_neg n = false.
Proof.
  unfold D. destruct (String.eqb s ""); [intros H; now injection H as <-|].
  destruct (Decimal_of_str _) as [d|] eqn:E; [|discriminate].
  intros H. injection H as <-.
  unfold Decimal_of_str in E.
  destruct (split_point [] _) as [ip [fp|]].
  - destruct ip, fp; try discriminate;
      destruct (digits_value 0 _); try discriminate;
      cbn in E; now injection E as <-.
  - destruct ip; try discriminate.
    destruct (digits_value 0 _); try discriminate.
    cbn in E. now injection E as <-.
Qed.

Lemma D_exponent (s : string) (n : Decimal) :
  D s = Ok n -> (d_exp n <= 0)%Z.
Proof.
  unfold D. destruct (String.eqb s ""); [intros H; now injection H as <-|].
  destruct (Decimal_of_str _) as [d|] eqn:E; [|discriminate].
  intros H. injection H as <-.
  unfold Decimal_of_str in E.
  destruct (split_point [] _) as [ip [fp|]].
  - destruct ip, fp; try discriminate;
      destruct (digits_value 0 _); try discriminate;
      cbn [option_map] in E; injection E as <-; cbn [d_exp]; lia.
  - destruct ip; try discriminate.
    destruct (digits_value 0 _); try discriminate.
    cbn in E. now injection E as <-.
Qed.

Lemma fix_to_context_sign (d r : Decimal) :
  fix_to_context d = Ok r -> d_neg r = d_neg d.
Proof.
  unfold fix_to_context.
  destruct (d_int d =? 0)%Z; [intros H; now injection H as <-|].
  destruct (Etop <? _)%Z; [discriminate|].
  destruct (d_exp d <? _)%Z; [|intros H; now injection H as <-].
  destruct (_ =? 10 ^ Z.of_nat prec)%Z.
  - destruct (Etop <? _)%Z; [discriminate|]. intros H. now injection H as <-.
  - intros H. now injection H as <-.
Qed.

Lemma signed_sign (n r : Decimal) (is_credit : bool) :
  signed n is_credit = Ok r -> d_neg r = xorb (d_neg n) (negb is_credit).
Proof. intros H. now apply fix_to_context_sign in H. Qed.

(** A number of at most 28 digits whose exponent is not below [Etiny] (not
    more than 1000026 decimals) comes through unchanged. *)
Lemma signed_exact (n : Decimal) (is_credit : bool) :
  ndigits (d_int n) <= prec ->
  (Etiny <= d_exp n <= 0)%Z ->
  signed n is_credit
  = Ok (MkDecimal (xorb (d_neg n) (negb is_credit)) (d_int n) (d_exp n)).
Proof.
  intros Hn [Hlo Hhi]. unfold signed, fix_to_context. cbn [d_neg d_int d_exp].
  unfold Etiny, Etop, Emin, Emax, prec in *.
  change (Z.of_nat 28) with 28%Z in *.
  destruct (d_int n =? 0)%Z eqn:Ez.
  - apply Z.eqb_eq in Ez. rewrite Ez. do 2 f_equal. lia.
  - assert (H1 : ((999999 - (28 - 1) <? Z.of_nat (ndigits (d_int n)) + d_exp n - 28)
                  = false)%Z) by (apply Z.ltb_ge; lia).
    rewrite H1.
    assert (H2 : ((d_exp n
                   <? Z.max (Z.of_nat (ndigits (d_int n)) + d_exp n - 28)
                            (-999999 - (28 - 1))) = false)%Z)
      by (apply Z.ltb_ge; lia).
    now rewrite H2.
Qed.

(** A line that the strict Advance Payment pattern matches sets every local
    variable from its groups, [units] among them. *)
Lemma classify_strict (self : Importer.t) (lines : list string) (i : nat)
  (units_var : option data.Amount) (line : string) (m : match_obj) :
  re_match Importer.advance_payment_pattern line = Some m ->
  Importer.classify self lines i units_var line
  = (units <- Importer.make_units (group_str 2 m) (truthy (group 1 m))
                (Importer.currency self) ;;
     Ok (Importer.AdvanceLine
           (Importer.MkFields (truthy (group 1 m)) (group_str 2 m)
              (group_str 3 m) (group_str 4 m) (group 5 m) (group_str 6 m)
              (group_str 7 m))
           (Some units))).
Proof.
  intros H. unfold Importer.classify. rewrite H. reflexivity.
Qed.

(** X4: on the paths that assign [units] (the two standard shapes and the
    strict Advance Payment pattern) the units are read from the match of the
    line itself: the number is [D] of group 2, the raw amount, which is the
    first amount of the line and not the settled one, times 1 for a line
    that starts with "CR" (group 1) and times -1 otherwise, in the
    configured currency.  So the sign is negative exactly for a debit, and a
    raw amount of at most 28 digits with no more than 1000026 decimals is
    kept digit for digit. *)
Theorem assigned_units_are_the_signed_raw_amount :
  forall (self : Importer.t) (lines : list string) (i : nat)
         (units_var : option data.Amount) (line : string)
         (f : Importer.fields) (u : data.Amount),
    (exists payee description c,
        Importer.classify self lines i units_var line
        = Ok (Importer.StandardLine f u payee description c))
    \/ (re_match Importer.advance_payment_pattern line <> None
        /\ Importer.classify self lines i units_var line
           = Ok (Importer.AdvanceLine f (Some u))) ->
    exists m n,
      assigning_match line = Some m
      /\ Importer.amount f = group_str 2 m
      /\ Importer.is_credit f = truthy (group 1 m)
      /\ D (group_str 2 m) = Ok n
      /\ signed n (truthy (group 1 m)) = Ok (data.number u)
      /\ data.currency u = Importer.currency self
      /\ d_neg (data.number u) = negb (truthy (group 1 m))
      /\ (ndigits (d_int n) <= prec -> (Etiny <= d_exp n)%Z ->
          d_int (data.number u) = d_int n /\ d_exp (data.number u) = d_exp n).
Proof.
  intros self lines i units_var line f u H.
  assert (Hm : exists m,
             assigning_match line = Some m
             /\ Importer.amount f = group_str 2 m
             /\ Importer.is_credit f = truthy (group 1 m)
             /\ Importer.make_units (group_str 2 m) (truthy (group 1 m))
                  (Importer.currency self) = Ok u).
  { unfold assigning_match. destruct H as [(p & d & c & H) | [Hm H]].
    - destruct (classify_standard_inv self lines i units_var line f u p d c H)
        as (-> & -> & Hu & [(m & -> & Hc & Ha & _) | (-> & m & -> & Hc & Ha & _)]);
        exists m; rewrite <- Ha, <- Hc; auto.
    - destruct (re_match Importer.advance_payment_pattern line) as [m|] eqn:E;
        [|now elim Hm].
      rewrite (classify_strict _ _ _ _ _ _ E) in H.
      destruct (Importer.make_units _ _ _) as [u0|] eqn:Eu; cbn [bind] in H;
        [|discriminate].
      injection H as <- <-. exists m. auto. }
  destruct Hm as (m & Hm & Ha & Hc & Hu). exists m.
  unfold Importer.make_units in Hu.
  destruct (D (group_str 2 m)) as [n|] eqn:En; cbn [bind] in Hu;
    [|discriminate].
  destruct (signed n (truthy (group 1 m))) as [r|] eqn:Es; cbn [bind] in Hu;
    [|discriminate].
  injection Hu as <-. exists n. cbn [data.number data.currency].
  repeat (split; [reflexivity || assumption|]).
  split.
  - rewrite (signed_sign _ _ _ Es), (D_not_negative _ _ En). reflexivity.
  - intros Hd He.
    rewrite (signed_exact n _ Hd (conj He (D_exponent _ _ En))) in Es.
    injection Es as <-. now split.
Qed.

Lemma assigned_units_are_the_signed_raw_amount_witness :
  let self := Importer.MkImporter "Liabilities:Rajhi" "SAR" "*" "4321" in
  let line := "75.00 1.50 Amount: 73.50 Shop USD 05/07/23 06/07/23" in
  exists f u,
    Importer.classify self [line] 0 None line
    = Ok (Importer.StandardLine f u None None false)
    /\ Importer.transaction_amount f = "73.50"
    /\ data.number u = MkDecimal true 7500 (-2)
    /\ exists m n,
         assigning_match line = Some m
         /\ Importer.amount f = group_str 2 m
         /\ Importer.is_credit f = truthy (group 1 m)
         /\ D (group_str 2 m) = Ok n
         /\ signed n (truthy (group 1 m)) = Ok (data.number u)
         /\ data.currency u = Importer.currency self
         /\ d_neg (data.number u) = negb (truthy (group 1 m))
         /\ (ndigits (d_int n) <= prec -> (Etiny <= d_exp n)%Z ->
             d_int (data.number u) = d_int n
             /\ d_exp (data.number u) = d_exp n).
Proof.
  intros self line.
  destruct (Importer.classify self [line] 0 None line)
    as [[|f0 u0|f u [p0|] [d0|] [|]]|] eqn:E;
    try (vm_compute in E; discriminate).
  exists f, u. split; [reflexivity|].
  split; [vm_compute in E; now injection E as <- _|].
  split; [vm_compute in E; now injection E as _ <-|].
  apply (assigned_units_are_the_signed_raw_amount self [line] 0 None line f u).
  left. exists None, None, false. exact E.
Defined.

(** ** The loop *)

Lemma run_reaches_end (self : Importer.t) (filepath : string)
  (lines : list string) :
  forall (fuel : nat) (st st' : Importer.loop_state),
    length lines <= fuel + Importer.i st ->
    Importer.run fuel self filepath lines st = Ok st' ->
    length lines <= Importer.i st'.
Proof.
  induction fuel as [|fuel IH]; intros st st' Hf; cbn [Importer.run].
  - intros H. injection H as <-. exact Hf.
  - destruct (Importer.i st <? length lines) eqn:E.
    + destruct (Importer.step self filepath lines st) as [st1|] eqn:Es;
        cbn [bind]; [|discriminate].
      apply IH. apply step_advances in Es. lia.
    + intros H. injection H as <-. apply Nat.ltb_ge in E. exact E.
Qed.

(** X5: the loop of [extract] is never cut short: whenever it returns, the
    cursor has reached the end of the lines, so the iterations counted by
    [len(lines)] are enough; and it returns the records of its last state. *)
Theorem loop_reaches_the_end :
  forall (self : Importer.t) (filepath : string) (lines : list string)
         (es : list data.Transaction),
    Importer.parse_lines self filepath lines = Ok es ->
    exists st,
      Importer.run (length lines) self filepath lines
        (Importer.MkState 0 [] None) = Ok st
      /\ Importer.entries st = es
      /\ length lines <= Importer.i st.
Proof.
  intros self filepath lines es. unfold Importer.parse_lines.
  destruct (Importer.run _ _ _ _ _) as [st|] eqn:E; cbn [bind]; [|discriminate].
  intros H. injection H as <-. exists st. repeat split.
  apply (run_reaches_end self filepath lines _ _ st) in E; [exact E|].
  cbn. lia.
Qed.

Lemma loop_reaches_the_end_witness :
  let self := Importer.MkImporter "Liabilities:Rajhi" "SAR" "*" "4321" in
  let lines := ["Cafe Bateel"; "Riyadh";
                "45.00 0.00 Coffee house 45.00 SAR 01/05/23 02/05/23";
                "Amount: 45.00"] in
  exists es st,
    Importer.parse_lines self "may.pdf" lines = Ok es
    /\ Importer.run (length lines) self "may.pdf" lines
         (Importer.MkState 0 [] None) = Ok st
    /\ Importer.entries st = es
    /\ length lines <= Importer.i st.
Proof.
  intros self lines.
  destruct (Importer.parse_lines self "may.pdf" lines) as [es|] eqn:E;
    [|vm_compute in E; discriminate].
  destruct (loop_reaches_the_end self "may.pdf" lines es E) as (st & H1 & H2 & H3).
  exists es, st. repeat split; assumption.
Defined.

(** ** [date], the statements after the text is read *)

Section DateOfText.

Lemma star_never_fails (hi : option nat) (r : regex) (st : mstate)
  (k : mstate -> option mstate) :
  (forall st', k st' <> None) ->
  rmatch (Repeat 0 hi false r) st k <> None.
Proof.
  intros Hk. cbn [rmatch rep_loop Nat.ltb Nat.leb].
  destruct (may_repeat hi 0 && negb (same_place None st)); [|apply Hk].
  unfold or_else.
  destruct (rmatch r st _); [discriminate | apply Hk].
Qed.

Lemma rmatch_Cat (r1 r2 : regex) (st : mstate) (k : mstate -> option mstate) :
  rmatch (Cat r1 r2) st k = rmatch r1 st (fun st1 => rmatch r2 st1 k).
Proof. reflexivity. Qed.

Lemma rmatch_Group (n : nat) (r : regex) (st : mstate)
  (k : mstate -> option mstate) :
  rmatch (Group n r) st k = rmatch r st (fun st1 => k (set_group n st st1)).
Proof. reflexivity. Qed.

Lemma rmatch_prepend (w : list ascii) (tail : regex)
  (k : mstate -> option mstate) :
  (forall st1, rmatch tail st1 k <> None) ->
  forall st, is_some (rmatch (prepend w tail) st k) = is_prefix w (ms_rest st).
Proof.
  intros Ht. induction w as [|c w IH]; intros st; cbn [prepend is_prefix].
  - destruct (rmatch tail st k) eqn:E; [reflexivity | now elim (Ht st)].
  - cbn [rmatch]. unfold eat. destruct (ms_rest st) as [|x rest]; [reflexivity|].
    destruct (Ascii.eqb c x); [|reflexivity].
    now rewrite IH.
Qed.

Lemma date_pattern_shape :
  Importer.date_pattern = prepend (chars "Date: ") rest_of_line.
Proof. reflexivity. Qed.

Lemma run_at_date_pattern (prev : option ascii) (l : list ascii) :
  is_some (run_at Importer.date_pattern prev l) = is_prefix (chars "Date: ") l.
Proof.
  rewrite date_pattern_shape. unfold run_at.
  change (rmatch (Group 0 (prepend (chars "Date: ") rest_of_line))
                 (MState prev l []) Some)
    with (rmatch (prepend (chars "Date: ") rest_of_line) (MState prev l [])
            (fun st1 => Some (set_group 0 (MState prev l []) st1))).
  assert (Ht : forall st1,
             rmatch rest_of_line st1
               (fun st2 => Some (set_group 0 (MState prev l []) st2)) <> None).
  { intros st1. unfold rest_of_line.
    rewrite rmatch_Cat, rmatch_Group, rmatch_Cat.
    apply star_never_fails. discriminate. }
  assert (H := rmatch_prepend (chars "Date: ") rest_of_line _ Ht
                 (MState prev l [])).
  cbn [ms_rest] in H. rewrite <- H.
  now destruct (rmatch _ _ _).
Qed.

Lemma search_date_pattern (text : string) :
  is_some (re_search Importer.date_pattern text) = contains "Date: " text.
Proof.
  unfold re_search, contains.
  apply search_from_prefix. intros prev l. apply run_at_date_pattern.
Qed.

End DateOfText.

(** ** What [date] parses *)

Section Greedy.

Lemma advance_rest (w rest : list ascii) :
  forall st, ms_rest st = w ++ rest -> ms_rest (advance w st) = rest.
Proof.
  induction w as [|c w IH]; intros st H; cbn [advance].
  - destruct (ms_rest st); exact H.
  - rewrite H. cbn [app]. apply IH. reflexivity.
Qed.

Lemma advance_caps (w : list ascii) :
  forall st, ms_caps (advance w st) = ms_caps st.
Proof.
  induction w as [|c w IH]; intros st; cbn [advance].
  - now destruct (ms_rest st).
  - destruct (ms_rest st); [reflexivity|]. now rewrite IH.
Qed.

(** A greedy star of one-character steps, followed by something that
    cannot fail, reads all the characters it can. *)
Lemma star_reads_all (p : ascii -> bool) (k : mstate -> option mstate)
  (w : list ascii) :
  (forall st, k st <> None) ->
  forallb p w = true ->
  forall (rest : list ascii) (fuel cnt : nat) (last : option nat) (st : mstate),
    ms_rest st = w ++ rest ->
    match rest with c :: _ => p c = false | [] => True end ->
    length (ms_rest st) < fuel ->
    same_place last st = false ->
    rep_loop (eat p) 0 None false k fuel cnt last st = k (advance w st).
Proof.
  intros Hk. induction w as [|c w IH]; intros Hw rest fuel cnt last st Hst Hrest Hf Hl;
    (destruct fuel as [|fuel]; [lia|]); cbn [rep_loop Nat.ltb Nat.leb may_repeat];
    rewrite Hl; cbn [negb andb]; unfold eat at 1; rewrite Hst.
  - cbn [app advance]. destruct rest as [|x rest].
    + cbn [or_else]. now destruct (ms_rest st).
    + rewrite Hrest. cbn [or_else]. now destruct (ms_rest st).
  - cbn [forallb] in Hw. apply andb_prop in Hw. destruct Hw as [Hc Hw].
    cbn [app]. rewrite Hc.
    rewrite (IH Hw rest fuel (S cnt) (Some (length (c :: w ++ rest)))
               (MState (Some c) (w ++ rest) (ms_caps st)) eq_refl Hrest).
    + cbn [advance]. rewrite Hst. cbn [app].
      destruct (k _) eqn:E; [reflexivity | now elim (Hk _ E)].
    + rewrite Hst in Hf. cbn [ms_rest app length] in *. lia.
    + cbn [same_place ms_rest length]. apply Nat.eqb_neq. lia.
Qed.

(** The characters of [w], read one after the other. *)
Lemma rmatch_prepend_reads (w : list ascii) (tail : regex)
  (k : mstate -> option mstate) :
  forall (rest : list ascii) (st : mstate),
    ms_rest st = w ++ rest ->
    rmatch (prepend w tail) st k = rmatch tail (advance w st) k.
Proof.
  induction w as [|c w IH]; intros rest st H; cbn [prepend advance].
  - now destruct (ms_rest st).
  - cbn [rmatch]. unfold eat. rewrite H. cbn [app].
    rewrite Ascii.eqb_refl. apply (IH rest). reflexivity.
Qed.

(** A match of the pattern of [date] at the start of "Date: ", a value
    and what follows the value. *)
Lemma run_at_date_value (prev : option ascii) (value after : list ascii) :
  forallb not_nl value = true ->
  match after with c :: _ => not_nl c = false | [] => True end ->
  exists m,
    run_at Importer.date_pattern prev (chars "Date: " ++ value ++ after)
    = Some m
    /\ group 1 m = Some (text_of value).
Proof.
  intros Hv Ha. rewrite date_pattern_shape. unfold run_at.
  rewrite rmatch_Group.
  rewrite (rmatch_prepend_reads _ _ _ (value ++ after)) by reflexivity.
  unfold rest_of_line. rewrite rmatch_Cat, rmatch_Group, rmatch_Cat.
  set (st0 := MState prev (chars "Date: " ++ value ++ after) []).
  set (st1 := advance (chars "Date: ") st0).
  assert (H1 : ms_rest st1 = value ++ after)
    by (apply advance_rest; reflexivity).
  cbn [rmatch]. fold not_nl.
  rewrite (star_reads_all not_nl _ value) with (rest := after);
    [ | discriminate | exact Hv | exact H1 | exact Ha | lia | reflexivity ].
  eexists. split; [reflexivity|].
  cbn [option_map]. unfold set_group. cbn [ms_caps group Nat.eqb].
  f_equal. f_equal.
  unfold consumed. rewrite H1, (advance_rest value after _ H1).
  rewrite length_app.
  replace (length value + length after - length after) with (length value)
    by lia.
  rewrite firstn_app, firstn_all, Nat.sub_diag. cbn [firstn]. apply app_nil_r.
Qed.

(** The search stops at the first place where the pattern matches. *)
Lemma search_from_first (r : regex) (w : list ascii) :
  (forall prev l, is_some (run_at r prev l) = is_prefix w l) ->
  forall (before l : list ascii) (prev : option ascii),
    (forall b a, before ++ l = b ++ w ++ a -> length before <= length b) ->
    exists prev',
      search_from r prev (before ++ l) = search_from r prev' l.
Proof.
  intros Hr. induction before as [|c before IH]; intros l prev Hfirst.
  - now exists prev.
  - cbn [app search_from].
    assert (Hn : run_at r prev (c :: before ++ l) = None).
    { destruct (run_at r prev (c :: before ++ l)) eqn:E; [|reflexivity].
      assert (Hp := Hr prev (c :: before ++ l)). rewrite E in Hp.
      symmetry in Hp. apply is_prefix_spec in Hp. destruct Hp as [a Ha].
      specialize (Hfirst [] a). cbn [app length] in Hfirst.
      specialize (Hfirst Ha). lia. }
    rewrite Hn. apply IH. intros b a Hb.
    specialize (Hfirst (c :: b) a). cbn [app length] in Hfirst.
    rewrite Hb in Hfirst. specialize (Hfirst eq_refl). lia.
Qed.

End Greedy.

(** X6: the statements of [date] that follow the reading of the text (they
    are reached once [pdf_to_text] is bound).  When "Date: " occurs nowhere
    in the text the result is the absent value, and nothing is raised.  When
    it occurs, what is handed to the date parser is the text between the
    first "Date: " and the next line feed, or the end of the text when no
    line feed follows; the result is the parser's, its exception
    included. *)
Theorem date_of_text_spec :
  forall (parse_datetime : string -> result caldate) (text : string),
    (~ occurs "Date: " text ->
     Importer.date_of_text parse_datetime text = Ok None)
    /\ (forall before value after : list ascii,
          chars text = before ++ chars "Date: " ++ value ++ after ->
          (forall b a, chars text = b ++ chars "Date: " ++ a ->
                       length before <= length b) ->
          ~ In nl value ->
          (after = [] \/ exists rest, after = nl :: rest) ->
          Importer.date_of_text parse_datetime text
          = (d <- parse_datetime (text_of value) ;; Ok (Some d))).
Proof.
  intros parse_datetime text. split.
  - intros Hn. assert (H := search_date_pattern text).
    unfold Importer.date_of_text.
    destruct (re_search Importer.date_pattern text) as [m|]; [|reflexivity].
    elim Hn. apply occurs_in_spec. now symmetry.
  - intros before value after Ht Hfirst Hv Ha.
    unfold Importer.date_of_text, re_search. rewrite Ht.
    destruct (search_from_first Importer.date_pattern (chars "Date: ")
                run_at_date_pattern before
                (chars "Date: " ++ value ++ after) None) as [prev' ->].
    { intros b a Hb. apply (Hfirst b a). now rewrite Ht. }
    destruct (run_at_date_value prev' value after) as (m & Hm & Hg).
    + apply forallb_forall. intros c Hc. unfold not_nl, set_has.
      cbn [existsb item_has xorb]. rewrite orb_false_r.
      destruct (Nat.leb_spec (ord nl) (ord c)), (Nat.leb_spec (ord c) (ord nl));
        cbn; try reflexivity.
      elim Hv. replace nl with c; [exact Hc|].
      rewrite <- (ascii_nat_embedding c), <- (ascii_nat_embedding nl).
      f_equal. unfold ord in *. lia.
    + destruct Ha as [->|[rest ->]]; [exact I | reflexivity].
    + destruct (chars "Date: " ++ value ++ after) eqn:El;
        cbn [search_from]; rewrite Hm; unfold group_str; now rewrite Hg.
Qed.

Lemma date_of_text_spec_witness :
  let parse (s : string) : result caldate :=
    if String.eqb s "01 June 2023" then Ok (MkDate 2023 6 1)
    else Raise ValueError in
  let text := ("Card" ++ NL ++ "Date: 01 June 2023" ++ NL
               ++ "Due Date: 25 June 2023")%string in
  ~ occurs "Date: " "Statement of account"
  /\ Importer.date_of_text parse "Statement of account" = Ok None
  /\ Importer.date_of_text parse text
     = (d <- parse "01 June 2023" ;; Ok (Some d)).
Proof.
  intros parse text.
  assert (Hn : ~ occurs "Date: " "Statement of account").
  { intros H. apply occurs_in_spec in H. vm_compute in H. discriminate. }
  split; [exact Hn|]. split.
  - exact (proj1 (date_of_text_spec parse "Statement of account") Hn).
  - apply (proj2 (date_of_text_spec parse text)
             (chars ("Card" ++ NL)) (chars "01 June 2023")
             (chars (NL ++ "Due Date: 25 June 2023"))).
    + reflexivity.
    + intros b a H.
      do 5 (destruct b as [|? b]; [cbn in H; discriminate H|]).
      change (length (chars ("Card" ++ NL))) with 5. cbn [length]. lia.
    + vm_compute. intuition discriminate.
    + right. eexists. reflexivity.
Defined.

(** X7: on the single line
    "CR 1,250.50 0.00 Advance Payment XYZ 1,250.50 SAR 10/06/23 11/06/23"
    [extract] returns one record: dated 2023-06-10, flagged "*", with payee
    "Advance payment", narration "CR 1,250.50 SAR on 11/06/23", no tags, no
    links, and one posting of +1250.50 in the configured currency against
    the configured account. *)
Theorem scenario_2_advance_payment :
  forall (self : Importer.t) (filepath : string),
    Importer.extract self
      (statement ["CR 1,250.50 0.00 Advance Payment XYZ 1,250.50 SAR 10/06/23 11/06/23"])
      filepath
    = Ok [data.MkTransaction (filepath, 0) (MkDate 2023 6 10) "*"
            (Some "Advance payment") "CR 1,250.50 SAR on 11/06/23" [] []
            [data.MkPosting (Importer.importer_account self)
               (data.MkAmount (MkDecimal false 125050 (-2))
                              (Importer.currency self))
               None None None None]].
Proof. intros. vm_compute. reflexivity. Qed.

(** X8: a statement of two pages whose page break falls between a
    transaction and the lines that name it.  The page dividers ("Page no.",
    the title and the month line) and the blank line are dropped and the
    lines are trimmed before the loop runs, so the "Amount:" line on the
    second page takes as payee and description the last two lines of the
    first page, and the indented plain line takes the line before the blank
    line as payee; [extract] returns three records in the order of their
    lines. *)
Theorem extract_two_pages :
  let self := Importer.MkImporter "Liabilities:Rajhi" "SAR" "*" "1234" in
  let page1 :=
    join NL ["credit card statement"; "MAY, 2023 Statement Month";
             "Card number 1234"; "Amazon"; "Online purchase";
             "Page no. 1 of 2"] in
  let page2 :=
    join NL ["credit card statement"; "MAY, 2023 Statement Month";
             "75.00 1.50 Amount: 73.50 Books 73.50 USD 05/05/23 06/05/23";
             "Cafe Bateel"; "";
             "  45.00 0.00 Coffee 45.00 SAR 07/05/23 08/05/23";
             "Riyadh";
             "CR 1,250.50 0.00 Advance Payment XYZ 1,250.50 SAR 10/05/23 11/05/23";
             "Page no. 2 of 2"] in
  let w := MkWorld (fun _ => Some "application/pdf") (fun _ => [page1; page2]) in
  loop_lines w "may.pdf"
  = ["Card number 1234"; "Amazon"; "Online purchase";
     "75.00 1.50 Amount: 73.50 Books 73.50 USD 05/05/23 06/05/23";
     "Cafe Bateel"; "45.00 0.00 Coffee 45.00 SAR 07/05/23 08/05/23";
     "Riyadh";
     "CR 1,250.50 0.00 Advance Payment XYZ 1,250.50 SAR 10/05/23 11/05/23"]
  /\ exists e1 e2 e3,
       Importer.extract self w "may.pdf" = Ok [e1; e2; e3]
       /\ map (fun e => (data.date e, data.payee e, data.narration e))
              [e1; e2; e3]
          = [(MkDate 2023 5 5, Some "Amazon", "-73.50 USD on 06/05/23");
             (MkDate 2023 5 7, Some "Cafe Bateel", "-45.00 SAR on 08/05/23");
             (MkDate 2023 5 10, Some "Advance payment",
              "CR 1,250.50 SAR on 11/05/23")]
       /\ posted [e1; e2; e3]
          = [(true, 7500, -2)%Z; (true, 4500, -2)%Z; (false, 125050, -2)%Z]
       /\ map (fun e => map data.account (data.postings e)) [e1; e2; e3]
          = [["Liabilities:Rajhi"]; ["Liabilities:Rajhi"];
             ["Liabilities:Rajhi"]].
Proof.
  intros self page1 page2 w. split; [vm_compute; reflexivity|].
  do 3 eexists. split; [vm_compute; reflexivity|].
  repeat split.
Qed.

(** ** The amounts the patterns capture, and what an iteration can raise *)

Section Soundness.

Lemma same_groups_refl G st : same_groups G st st.
Proof. intros n _. reflexivity. Qed.

Lemma same_groups_trans G1 G2 st st1 st2 :
  same_groups G1 st st1 -> same_groups G2 st1 st2 ->
  same_groups (G1 ++ G2) st st2.
Proof.
  intros H1 H2 n Hn. rewrite H2, H1; trivial;
    intros Hin; apply Hn, in_or_app; auto.
Qed.

Lemma same_groups_weaken G G' st st1 :
  (forall n, In n G -> In n G') -> same_groups G st st1 -> same_groups G' st st1.
Proof. intros Hs H n Hn. apply H. intros Hin. apply Hn, Hs, Hin. Qed.

Lemma eat_sound (p : ascii -> bool) (st : mstate)
  (k : mstate -> option mstate) (res : mstate) :
  eat p st k = Some res ->
  exists st1 c, k st1 = Some res /\ reads st st1 [c] /\ p c = true
                /\ ms_caps st1 = ms_caps st.
Proof.
  unfold eat, reads. destruct (ms_rest st) as [|c rest]; [discriminate|].
  destruct (p c) eqn:E; [|discriminate].
  intros H. exists (MState (Some c) rest (ms_caps st)), c. now repeat split.
Qed.

Lemma rep_loop_sound body r lo hi lz k :
  sound_body body r ->
  forall fuel cnt last st0 res,
    rep_loop body lo hi lz k fuel cnt last st0 = Some res ->
    exists st1 w, k st1 = Some res /\ reads st0 st1 w
                  /\ matches (Repeat (lo - cnt) hi lz r) w
                  /\ same_groups (groups_in r) st0 st1.
Proof.
  intros Hb. induction fuel as [|f IH]; intros cnt last st0 res; [discriminate|].
  cbn [rep_loop].
  assert (Hagain :
    body st0 (fun st1 => rep_loop body lo hi lz k f (S cnt)
                           (Some (length (ms_rest st0))) st1) = Some res ->
    exists st1 w, k st1 = Some res /\ reads st0 st1 w
                  /\ matches (Repeat (lo - cnt) hi lz r) w
                  /\ same_groups (groups_in r) st0 st1).
  { intros H. apply Hb in H. destruct H as (st1 & w1 & H & Hr & Hm & Hg).
    apply IH in H. destruct H as (st2 & w2 & Hk & Hr2 & Hm2 & Hg2).
    exists st2, (w1 ++ w2). split; [exact Hk|]. split; [|split].
    - unfold reads in *. now rewrite Hr, Hr2, app_assoc.
    - apply m_repeat_more; [exact Hm|].
      now replace (pred (lo - cnt)) with (lo - S cnt) by lia.
    - intros n Hn. now rewrite Hg2, Hg. }
  assert (Hstop : (cnt <? lo) = false -> k st0 = Some res ->
    exists st1 w, k st1 = Some res /\ reads st0 st1 w
                  /\ matches (Repeat (lo - cnt) hi lz r) w
                  /\ same_groups (groups_in r) st0 st1).
  { intros Hc H. exists st0, []. split; [exact H|]. split; [|split].
    - reflexivity.
    - apply Nat.ltb_ge in Hc.
      replace (lo - cnt) with 0 by lia. constructor.
    - apply same_groups_refl. }
  destruct (cnt <? lo) eqn:Ec; [exact Hagain|].
  destruct (may_repeat hi cnt && negb (same_place last st0)); [|now apply Hstop].
  destruct lz; unfold or_else.
  - destruct (k st0) eqn:Ek.
    + intros H. injection H as <-. now apply Hstop.
    + exact Hagain.
  - destruct (body st0 _) eqn:Eb.
    + intros H. injection H as <-. now apply Hagain.
    + now apply Hstop.
Qed.

Lemma group_set_group_other (n m : nat) (st st1 : mstate) :
  n <> m -> group n (ms_caps (set_group m st st1)) = group n (ms_caps st1).
Proof.
  intros Hn. unfold set_group. cbn [ms_caps group].
  destruct (m =? n) eqn:E; [apply Nat.eqb_eq in E; congruence | reflexivity].
Qed.

Lemma rmatch_sound (r : regex) : sound_body (rmatch r) r.
Proof.
  induction r as [ | c | | negated items | | | | r1 IH1 r2 IH2 | r1 IH1 r2 IH2
                 | lo hi lz r1 IH1 | n r1 IH1 ];
    intros st k res; cbn [rmatch groups_in].
  - intros H. exists st, [].
    split; [exact H|]. split; [reflexivity|].
    split; [constructor | apply same_groups_refl].
  - intros H. apply eat_sound in H. destruct H as (st1 & x & H & Hr & Hp & Hc).
    apply Ascii.eqb_eq in Hp. subst x. exists st1, [c].
    split; [exact H|]. split; [exact Hr|].
    split; [constructor | intros n _; now rewrite Hc].
  - intros H. apply eat_sound in H. destruct H as (st1 & x & H & Hr & Hp & Hc).
    exists st1, [x].
    split; [exact H|]. split; [exact Hr|].
    split; [constructor | intros n _; now rewrite Hc].
  - intros H. apply eat_sound in H. destruct H as (st1 & x & H & Hr & Hp & Hc).
    exists st1, [x].
    split; [exact H|]. split; [exact Hr|].
    split; [now constructor | intros n _; now rewrite Hc].
  - destruct (ms_prev st); [discriminate|].
    intros H. exists st, [].
    split; [exact H|]. split; [reflexivity|].
    split; [constructor | apply same_groups_refl].
  - destruct (at_end (ms_rest st)); [|discriminate].
    intros H. exists st, [].
    split; [exact H|]. split; [reflexivity|].
    split; [constructor | apply same_groups_refl].
  - destruct (xorb _ _); [|discriminate].
    intros H. exists st, [].
    split; [exact H|]. split; [reflexivity|].
    split; [constructor | apply same_groups_refl].
  - intros H. apply IH1 in H. destruct H as (st1 & w1 & H & Hr1 & Hm1 & Hg1).
    apply IH2 in H. destruct H as (st2 & w2 & H & Hr2 & Hm2 & Hg2).
    exists st2, (w1 ++ w2).
    split; [exact H|]. split; [|split].
    + unfold reads in *. now rewrite Hr1, Hr2, app_assoc.
    + now constructor.
    + eapply same_groups_trans; eassumption.
  - unfold or_else. destruct (rmatch r1 st k) eqn:E.
    + intros H. injection H as <-. apply IH1 in E.
      destruct E as (st1 & w & H & Hr & Hm & Hg).
      exists st1, w.
      split; [exact H|]. split; [exact Hr|]. split; [now apply m_alt_l|].
      eapply same_groups_weaken; [|exact Hg]. intros; apply in_or_app; auto.
    + intros H. apply IH2 in H. destruct H as (st1 & w & H & Hr & Hm & Hg).
      exists st1, w.
      split; [exact H|]. split; [exact Hr|]. split; [now apply m_alt_r|].
      eapply same_groups_weaken; [|exact Hg]. intros; apply in_or_app; auto.
  - intros H. apply (rep_loop_sound _ r1 lo hi lz k IH1) in H.
    destruct H as (st1 & w & H & Hr & Hm & Hg).
    rewrite Nat.sub_0_r in Hm.
    exists st1, w. now repeat split.
  - intros H. apply IH1 in H. destruct H as (st1 & w & H & Hr & Hm & Hg).
    exists (set_group n st st1), w.
    split; [exact H|]. split; [exact Hr|]. split; [now constructor|].
    intros m Hm'. rewrite group_set_group_other.
    + apply Hg. intros Hin. apply Hm'. now right.
    + intros ->. apply Hm'. now left.
Qed.

End Soundness.

Section Amounts.

Lemma line_patterns_amount_first :
  amount_first Importer.advance_payment_pattern
  /\ amount_first Importer.general_pattern
  /\ amount_first Importer.pattern
  /\ amount_first Importer.alt_pattern.
Proof.
  repeat split; try reflexivity; vm_compute; intuition discriminate.
Qed.

Lemma consumed_reads (st st1 : mstate) (w : list ascii) :
  reads st st1 w -> consumed st st1 = w.
Proof.
  unfold reads, consumed. intros ->. rewrite length_app.
  replace (length w + length (ms_rest st1) - length (ms_rest st1))
    with (length w) by lia.
  rewrite firstn_app, firstn_all, Nat.sub_diag. cbn [firstn]. apply app_nil_r.
Qed.

(** Group 2 of a match of such a pattern is a text the amount pattern reads. *)
Lemma amount_group (r : regex) (line : string) (m : match_obj) :
  amount_first r ->
  re_match r line = Some m ->
  exists w, group 2 m = Some (text_of w) /\ matches amount_re w.
Proof.
  intros [Hshape Hrest]. unfold re_match, run_at.
  destruct (rmatch (Group 0 r) _ Some) as [res|] eqn:E; [|discriminate].
  intros H. injection H as <-.
  rewrite rmatch_Group, Hshape, rmatch_Cat in E.
  apply rmatch_sound in E. destruct E as (sa & wa & E & _).
  rewrite rmatch_Cat in E.
  apply rmatch_sound in E. destruct E as (sb & wb & E & _).
  rewrite rmatch_Cat, rmatch_Group in E.
  apply rmatch_sound in E. destruct E as (sc & w & E & Hr & Hm & _).
  apply rmatch_sound in E. destruct E as (sd & wd & E & _ & _ & Hg).
  injection E as <-.
  exists w. split; [|exact Hm].
  rewrite group_set_group_other by discriminate.
  rewrite (Hg 2 Hrest).
  unfold set_group. cbn [ms_caps group Nat.eqb].
  now rewrite (consumed_reads _ _ _ Hr).
Qed.

Lemma matches_digit (w : list ascii) :
  matches digit_re w -> exists c, w = [c] /\ is_digit c = true.
Proof.
  unfold digit_re. intros H. inversion H as [ | | | ng it c Hc | | | | | | | | | ]; subst.
  exists c. split; [reflexivity|].
  unfold set_has in Hc. cbn in Hc. now rewrite orb_false_r in Hc.
Qed.

Lemma matches_digits (lo : nat) (hi : option nat) (lz : bool) (w : list ascii) :
  matches (Repeat lo hi lz digit_re) w -> all_digits w /\ lo <= length w.
Proof.
  remember (Repeat lo hi lz digit_re) as r eqn:E.
  intros H. revert lo E.
  induction H; intros lo0 E; try discriminate.
  - injection E as <- _ _ _. split; [reflexivity | cbn; lia].
  - injection E as -> -> -> ->.
    destruct (IHmatches2 (pred lo0) eq_refl) as [Hd Hl].
    apply matches_digit in H. destruct H as (c & -> & Hc).
    split.
    + unfold all_digits in *. cbn. now rewrite Hc, Hd.
    + cbn [app length]. lia.
Qed.

Lemma matches_comma_groups (hi : option nat) (lz : bool) (lo : nat)
  (hi3 : option nat) (lz3 : bool) (w : list ascii) :
  matches (Repeat 0 hi lz
             (Cat (Lit ",") (Cat (Repeat lo hi3 lz3 digit_re) Empty))) w ->
  digits_or_commas w.
Proof.
  remember (Repeat 0 hi lz (Cat (Lit ",") (Cat (Repeat lo hi3 lz3 digit_re) Empty)))
    as r eqn:E.
  intros H. induction H; try discriminate.
  - reflexivity.
  - injection E as -> -> -> ->.
    specialize (IHmatches2 eq_refl).
    inversion H as [ | | | | | | | ra rb wa wb Ha Hb | | | | | ]; subst.
    inversion Ha; subst.
    inversion Hb as [ | | | | | | | rc rd wc wd Hc Hd | | | | | ]; subst.
    inversion Hd; subst.
    apply matches_digits in Hc. destruct Hc as [Hc _].
    unfold digits_or_commas, all_digits in *.
    rewrite app_nil_r. cbn [app forallb]. rewrite forallb_app, IHmatches2.
    rewrite andb_true_r. cbn.
    clear -Hc. induction wc as [|c wc IH]; [reflexivity|].
    cbn in Hc |- *. apply andb_prop in Hc. destruct Hc as [-> Hc]. now apply IH.
Qed.

(** A text the amount pattern reads: digits and commas, a point, and at
    least one digit. *)
Lemma matches_amount (w : list ascii) :
  matches amount_re w ->
  exists a b, w = a ++ "."%char :: b /\ digits_or_commas a /\ all_digits b
              /\ b <> [].
Proof.
  unfold amount_re. fold digit_re. intros H.
  inversion H as [ | | | | | | | | r1 r2 w0 H1 | r1 r2 w0 H1 | | | ]; subst; clear H.
  - inversion H1 as [ | | | | | | | ra rb wa wb Ha Hb | | | | | ]; subst.
    inversion Hb as [ | | | | | | | rc rd wc wd Hc Hd | | | | | ]; subst.
    inversion Hd as [ | | | | | | | re rf we wf He Hf | | | | | ]; subst.
    inversion He; subst.
    inversion Hf as [ | | | | | | | rg rh wg wh Hg Hh | | | | | ]; subst.
    inversion Hh; subst.
    apply matches_digits in Ha. destruct Ha as [Ha _].
    apply matches_comma_groups in Hc.
    apply matches_digits in Hg. destruct Hg as [Hg Hl].
    exists (wa ++ wc), wg. rewrite app_nil_r. split; [|split; [|split]].
    + now rewrite <- app_assoc.
    + unfold digits_or_commas, all_digits in *. rewrite forallb_app, Hc.
      rewrite andb_true_r. clear -Ha.
      induction wa as [|c wa IH]; [reflexivity|].
      cbn in Ha |- *. apply andb_prop in Ha. destruct Ha as [-> Ha]. now apply IH.
    + exact Hg.
    + destruct wg; [cbn in Hl; lia | discriminate].
  - inversion H1 as [ | | | | | | | ra rb wa wb Ha Hb | | | | | ]; subst.
    inversion Hb as [ | | | | | | | rc rd wc wd Hc Hd | | | | | ]; subst.
    inversion Hc; subst.
    inversion Hd as [ | | | | | | | re rf we wf He Hf | | | | | ]; subst.
    inversion Hf; subst.
    apply matches_digits in Ha. destruct Ha as [Ha _].
    apply matches_digits in He. destruct He as [He Hl].
    exists wa, we. rewrite app_nil_r. split; [|split; [|split]].
    + reflexivity.
    + unfold digits_or_commas, all_digits in *. clear -Ha.
      induction wa as [|c wa IH]; [reflexivity|].
      cbn in Ha |- *. apply andb_prop in Ha. destruct Ha as [-> Ha]. now apply IH.
    + exact He.
    + destruct we; [cbn in Hl; lia | discriminate].
Qed.

End Amounts.

Section WhatClassifyRaises.

Lemma chars_text_of (l : list ascii) : chars (text_of l) = l.
Proof. apply list_ascii_of_string_of_list_ascii. Qed.

Lemma digit_not_point (c : ascii) : is_digit c = true -> ceq c "." = false.
Proof.
  unfold is_digit, between, ord. intros H. cbn [ceq].
  destruct (Ascii.eqb c ".") eqn:E; [|reflexivity].
  apply Ascii.eqb_eq in E. subst c. discriminate H.
Qed.

Lemma digit_kept (c : ascii) : is_digit c = true -> kept_in_number c = true.
Proof.
  unfold is_digit, between, ord, kept_in_number. intros H. cbn [ceq].
  destruct (Ascii.eqb c ",") eqn:E1.
  { apply Ascii.eqb_eq in E1. subst c. discriminate H. }
  destruct (Ascii.eqb c " ") eqn:E2; [|reflexivity].
  apply Ascii.eqb_eq in E2. subst c. discriminate H.
Qed.

Lemma split_point_digits (a b acc : list ascii) :
  all_digits a ->
  split_point acc (a ++ "."%char :: b) = (rev acc ++ a, Some b).
Proof.
  revert acc. induction a as [|c a IH]; intros acc Ha.
  - cbn. now rewrite app_nil_r.
  - unfold all_digits in Ha. cbn [forallb] in Ha.
    apply andb_prop in Ha. destruct Ha as [Hc Ha].
    cbn [app split_point]. rewrite (digit_not_point c Hc).
    rewrite (IH (c :: acc) Ha). cbn [rev]. now rewrite <- app_assoc.
Qed.

Lemma digits_value_some (l : list ascii) :
  all_digits l -> forall acc, exists v, digits_value acc l = Some v.
Proof.
  induction l as [|c l IH]; intros Hl acc; cbn [digits_value].
  - now exists acc.
  - unfold all_digits in Hl. cbn [forallb] in Hl.
    apply andb_prop in Hl. destruct Hl as [-> Hl]. now apply IH.
Qed.

Lemma filter_commas (a : list ascii) :
  digits_or_commas a -> all_digits (filter kept_in_number a).
Proof.
  unfold digits_or_commas, all_digits.
  induction a as [|c a IH]; intros Ha; [reflexivity|].
  cbn [forallb] in Ha. apply andb_prop in Ha. destruct Ha as [Hc Ha].
  cbn [filter].
  destruct (is_digit c) eqn:Ed.
  - rewrite (digit_kept c Ed). cbn [forallb]. now rewrite Ed, IH.
  - cbn [orb] in Hc. unfold is_comma in Hc. unfold kept_in_number.
    rewrite Hc. cbn [orb negb]. now apply IH.
Qed.

Lemma filter_digits (b : list ascii) :
  all_digits b -> filter kept_in_number b = b.
Proof.
  unfold all_digits. induction b as [|c b IH]; intros Hb; [reflexivity|].
  cbn [forallb] in Hb. apply andb_prop in Hb. destruct Hb as [Hc Hb].
  cbn [filter]. now rewrite (digit_kept c Hc), IH.
Qed.

(** [D] reads every text the amount pattern reads. *)
Lemma D_reads_amounts (w : list ascii) :
  matches amount_re w -> exists n, D (text_of w) = Ok n.
Proof.
  intros H. apply matches_amount in H.
  destruct H as (a & b & -> & Ha & Hb & Hne).
  unfold D.
  assert (Hs : String.eqb (text_of (a ++ "."%char :: b)) "" = false)
    by (destruct a; reflexivity).
  rewrite Hs, chars_text_of, filter_app. cbn [filter].
  change (kept_in_number ".") with true. cbv iota.
  rewrite (filter_digits b Hb).
  unfold Decimal_of_str. rewrite chars_text_of.
  rewrite (split_point_digits _ b [] (filter_commas a Ha)). cbn [rev app].
  assert (Hall : all_digits (filter kept_in_number a ++ b)).
  { unfold all_digits. rewrite forallb_app.
    now rewrite (filter_commas a Ha), Hb. }
  destruct (digits_value_some _ Hall 0%Z) as [v Hv].
  destruct (filter kept_in_number a) as [|x a'], b as [|y b];
    try (now elim Hne);
    rewrite Hv; cbn [option_map]; eexists; reflexivity.
Qed.

(** The size of what [D] reads: the digits before the point bound the
    place of the leading digit. *)
Lemma count_digits_le (fuel : nat) :
  forall (n : Z) (k : nat),
    1 <= k -> (n < 10 ^ Z.of_nat k)%Z -> count_digits fuel n <= k.
Proof.
  induction fuel as [|fuel IH]; intros n k Hk Hn; cbn [count_digits]; [exact Hk|].
  destruct (n <? 10)%Z eqn:E; [exact Hk|].
  apply Z.ltb_ge in E.
  destruct k as [|[|k]]; [lia | cbn in Hn; lia |].
  apply le_n_S, IH; [lia|].
  apply Z.div_lt_upper_bound; [lia|].
  replace (Z.of_nat (S (S k))) with (Z.succ (Z.of_nat (S k))) in Hn by lia.
  rewrite Z.pow_succ_r in Hn by lia. exact Hn.
Qed.

Lemma digits_value_bound (l : list ascii) :
  forall (acc v : Z),
    digits_value acc l = Some v -> (0 <= acc)%Z ->
    (0 <= v < (acc + 1) * 10 ^ Z.of_nat (length l))%Z.
Proof.
  induction l as [|c l IH]; intros acc v H Hacc; cbn [digits_value] in H.
  - injection H as <-. cbn. lia.
  - destruct (is_digit c) eqn:Ed; [|discriminate].
    unfold is_digit, between in Ed. apply andb_prop in Ed.
    destruct Ed as [E1 E2]. apply Nat.leb_le in E1. apply Nat.leb_le in E2.
    apply IH in H; [|lia]. destruct H as [H0 H1]. split; [exact H0|].
    cbn [length]. replace (Z.of_nat (S (length l)))
      with (Z.succ (Z.of_nat (length l))) by lia.
    rewrite Z.pow_succ_r by lia.
    assert (Hp : (0 < 10 ^ Z.of_nat (length l))%Z)
      by (apply Z.pow_pos_nonneg; lia).
    nia.
Qed.

Lemma D_size_of_amounts (w : list ascii) :
  matches amount_re w ->
  exists n, D (text_of w) = Ok n
            /\ (Z.of_nat (ndigits (d_int n)) + d_exp n
                <= Z.of_nat (length w))%Z.
Proof.
  intros H. apply matches_amount in H.
  destruct H as (a & b & -> & Ha & Hb & Hne).
  unfold D.
  assert (Hs : String.eqb (text_of (a ++ "."%char :: b)) "" = false)
    by (destruct a; reflexivity).
  rewrite Hs, chars_text_of, filter_app. cbn [filter].
  change (kept_in_number ".") with true. cbv iota.
  rewrite (filter_digits b Hb).
  unfold Decimal_of_str. rewrite chars_text_of.
  rewrite (split_point_digits _ b [] (filter_commas a Ha)). cbn [rev app].
  assert (Hall : all_digits (filter kept_in_number a ++ b)).
  { unfold all_digits. rewrite forallb_app.
    now rewrite (filter_commas a Ha), Hb. }
  destruct (digits_value_some _ Hall 0%Z) as [v Hv].
  assert (Hbound := digits_value_bound _ _ _ Hv (Z.le_refl 0)).
  assert (Hlen : length (filter kept_in_number a) <= length a)
    by apply filter_length_le.
  assert (Hd : ndigits v <= length (filter kept_in_number a ++ b)).
  { apply count_digits_le.
    - rewrite length_app. destruct b; [now elim Hne | cbn; lia].
    - lia. }
  rewrite length_app in Hd.
  exists (MkDecimal false v (- Z.of_nat (length b))). split.
  - destruct (filter kept_in_number a) as [|x a'], b as [|y b];
      try (now elim Hne); rewrite Hv; reflexivity.
  - cbn [d_int d_exp]. rewrite length_app. cbn [length]. lia.
Qed.

(** The multiplication raises only [Overflow], and only when the leading
    digit is above [Emax]. *)
Lemma signed_raises (n : Decimal) (is_credit : bool) (x : exn) :
  signed n is_credit = Raise x ->
  x = Overflow /\ (Emax < Z.of_nat (ndigits (d_int n)) + d_exp n)%Z.
Proof.
  unfold signed, fix_to_context. cbn [d_neg d_int d_exp].
  unfold Etiny, Etop, Emin, Emax, prec.
  change (Z.of_nat 28) with 28%Z.
  destruct (d_int n =? 0)%Z; [discriminate|].
  destruct (999999 - (28 - 1) <? _)%Z eqn:E1.
  - apply Z.ltb_lt in E1. intros H. injection H as <-. split; [reflexivity | lia].
  - apply Z.ltb_ge in E1.
    destruct (d_exp n <? _)%Z; [|discriminate].
    destruct (_ =? 10 ^ 28)%Z; [|discriminate].
    destruct (999999 - (28 - 1) <? _)%Z eqn:E2; [|discriminate].
    apply Z.ltb_lt in E2. intros H. injection H as <-.
    split; [reflexivity | lia].
Qed.

(** Group 2 of a match of a line pattern is a part of the line. *)
Lemma amount_group_in_line (r : regex) (line : string) (m : match_obj) :
  amount_first r ->
  re_match r line = Some m ->
  exists w, group 2 m = Some (text_of w) /\ matches amount_re w
            /\ length w <= String.length line.
Proof.
  intros [Hshape Hrest]. unfold re_match, run_at.
  destruct (rmatch (Group 0 r) _ Some) as [res|] eqn:E; [|discriminate].
  intros H. injection H as <-.
  rewrite rmatch_Group, Hshape, rmatch_Cat in E.
  apply rmatch_sound in E. destruct E as (sa & wa & E & Hra & _).
  rewrite rmatch_Cat in E.
  apply rmatch_sound in E. destruct E as (sb & wb & E & Hrb & _).
  rewrite rmatch_Cat, rmatch_Group in E.
  apply rmatch_sound in E. destruct E as (sc & w & E & Hr & Hm & _).
  apply rmatch_sound in E. destruct E as (sd & wd & E & _ & _ & Hg).
  injection E as <-.
  exists w. split; [|split; [exact Hm|]].
  - rewrite group_set_group_other by discriminate.
    rewrite (Hg 2 Hrest).
    unfold set_group. cbn [ms_caps group Nat.eqb].
    now rewrite (consumed_reads _ _ _ Hr).
  - unfold reads in *. cbn [ms_rest] in Hra.
    rewrite <- chars_length, Hra, Hrb, Hr, !length_app. lia.
Qed.

(** [units] of a matched line: a value, or [Overflow] for a raw amount
    with a million digits before the point. *)
Lemma make_units_result (r : regex) (line : string) (m : match_obj)
  (is_credit : bool) (currency : string) :
  amount_first r -> re_match r line = Some m ->
  (exists u, Importer.make_units (group_str 2 m) is_credit currency = Ok u)
  \/ (Importer.make_units (group_str 2 m) is_credit currency = Raise Overflow
      /\ (999999 < Z.of_nat (String.length line))%Z).
Proof.
  intros Hr Hm.
  destruct (amount_group_in_line r line m Hr Hm) as (w & Hg & Hw & Hlen).
  destruct (D_size_of_amounts w Hw) as (n & Hn & Hsize).
  unfold Importer.make_units, group_str. rewrite Hg, Hn. cbn [bind].
  destruct (signed n is_credit) as [v|x] eqn:Es; cbn [bind].
  - left. eexists. reflexivity.
  - right. destruct (signed_raises n is_credit x Es) as [-> Hbig].
    split; [reflexivity|]. unfold Emax in Hbig. lia.
Qed.

(** Classifying a line raises nothing but that [Overflow]. *)
Lemma classify_result (self : Importer.t) (lines : list string) (i : nat)
  (units_var : option data.Amount) (line : string) :
  (exists p, Importer.classify self lines i units_var line = Ok p)
  \/ (Importer.classify self lines i units_var line = Raise Overflow
      /\ (999999 < Z.of_nat (String.length line))%Z).
Proof.
  destruct line_patterns_amount_first as (Ha & _ & Hp & Hb).
  destruct (re_match Importer.advance_payment_pattern line) as [m|] eqn:Em.
  - rewrite (classify_strict self lines i units_var line m Em).
    destruct (make_units_result _ line m (truthy (group 1 m))
                (Importer.currency self) Ha Em) as [[u ->]|[-> Hl]]; cbn [bind].
    + left. eexists. reflexivity.
    + right. now split.
  - destruct (contains "Advance Payment" line) eqn:Ec.
    + left. unfold Importer.classify. rewrite Em, Ec. cbn [is_some orb].
      destruct (re_match Importer.general_pattern line);
        [|eexists; reflexivity].
      destruct (re_search Importer.currency_pattern _); eexists; reflexivity.
    + destruct (re_match Importer.alt_pattern line) as [mb|] eqn:Eb.
      * destruct (classify_annotated self lines i units_var line Em Ec mb Eb)
          as [f ->].
        destruct (make_units_result _ line mb (truthy (group 1 mb))
                    (Importer.currency self) Hb Eb) as [[u ->]|[-> Hl]];
          cbn [bind].
        -- left. eexists. reflexivity.
        -- right. now split.
      * destruct (re_match Importer.pattern line) as [mp|] eqn:Ep.
        -- destruct (classify_plain self lines i units_var line Em Ec mp Eb Ep)
             as [f ->].
           destruct (make_units_result _ line mp (truthy (group 1 mp))
                       (Importer.currency self) Hp Ep) as [[u ->]|[-> Hl]];
             cbn [bind].
           ++ left. eexists. reflexivity.
           ++ right. now split.
        -- left. unfold Importer.classify. rewrite Em, Ec, Eb, Ep.
           eexists. reflexivity.
Qed.

Lemma strptime_raises_ValueError (s : string) (e : exn) :
  strptime_dmy s = Raise e -> e = ValueError.
Proof.
  unfold strptime_dmy.
  destruct (re_match dmy_format s); [|now intros H; injection H].
  destruct (negb _); [now intros H; injection H|].
  destruct (_ <=? _); [discriminate | now intros H; injection H].
Qed.

Lemma make_entry_result (filepath acct : string) (payee : option string)
  (f : Importer.fields) (units : option data.Amount) :
  match entry_error f units with
  | Some x => Importer.make_entry filepath acct payee f units = Raise x
  | None =>
      exists e, Importer.make_entry filepath acct payee f units = Ok e
                /\ data.payee e = payee
  end.
Proof.
  unfold entry_error, Importer.make_entry, Importer.make_narration, str_add.
  destruct (strptime_dmy _); cbn [bind]; [|reflexivity].
  destruct (Importer.transaction_currency f); cbn [bind]; [|reflexivity].
  destruct units; cbn [load_local bind]; [|reflexivity].
  eexists. split; reflexivity.
Qed.

Lemma entry_error_kinds (f : Importer.fields) (units : option data.Amount)
  (x : exn) :
  entry_error f units = Some x ->
  x = ValueError \/ x = TypeError \/ (x = UnboundLocalError /\ units = None).
Proof.
  unfold entry_error.
  destruct (strptime_dmy _) eqn:E.
  - destruct (Importer.transaction_currency f).
    + destruct units; [discriminate|]. intros H. injection H as <-. auto.
    + intros H. injection H as <-. auto.
  - intros H. injection H as <-. left. eapply strptime_raises_ValueError, E.
Qed.

End WhatClassifyRaises.

(** X9: at every cursor inside the lines, one iteration of the loop
    classifies the line, which raises nothing but [Overflow], and that only
    on a line of a million characters or more (the raw amount times the sign
    leaves the range of the decimal context); a line that is no transaction
    is skipped; a transaction line appends its record and moves the cursor
    on (by two after a consumed "Amount:" line), unless building the entry
    raises: [ValueError] when the posting date is no day of the calendar,
    else [TypeError] when no currency was found, else, for an Advance Payment
    line only, [UnboundLocalError] when nothing was assigned to [units]. *)
Theorem iteration_outcome :
  forall (self : Importer.t) (filepath : string) (lines : list string)
         (st : Importer.loop_state),
    Importer.i st < length lines ->
    iteration_spec self filepath lines st.
Proof.
  intros self filepath lines st Hi. unfold iteration_spec.
  destruct (nth_error lines (Importer.i st)) as [line|] eqn:En;
    [|apply nth_error_None in En; lia].
  exists line. split; [reflexivity|].
  unfold Importer.step. rewrite En.
  destruct (classify_result self lines (Importer.i st)
              (Importer.units_var st) line) as [[p ->]|[-> Hl]]; cbn [bind];
    [|auto].
  destruct p as [|f units|f units payee description c].
  - reflexivity.
  - assert (H := make_entry_result filepath (Importer.account self filepath)
                   (Some "Advance payment") f units).
    destruct (entry_error f units) as [x|] eqn:Ee.
    + rewrite H. split; [reflexivity|].
      apply entry_error_kinds in Ee. intuition.
    + destruct H as (e & -> & He). exists e. split; [reflexivity | exact He].
  - assert (H := make_entry_result filepath (Importer.account self filepath)
                   payee f (Some units)).
    destruct (entry_error f (Some units)) as [x|] eqn:Ee.
    + rewrite H. split; [reflexivity|].
      apply entry_error_kinds in Ee.
      destruct Ee as [?|[?|[_ ?]]]; [auto | auto | discriminate].
    + destruct H as (e & -> & He). exists e. cbn [bind]. split; [|exact He].
      destruct c; do 2 f_equal; lia.
Qed.

Lemma iteration_outcome_witness :
  let self := Importer.MkImporter "Liabilities:Rajhi" "SAR" "*" "4321" in
  let lines := ["10.00 1.00 Shop 10.00 SAR 01/05/23 02/05/23";
                "12.00 0.00 Coffee house 03/05/23 04/05/23"] in
  1 < length lines
  /\ iteration_spec self "may.pdf" lines (Importer.MkState 1 [] None).
Proof.
  intros self lines.
  assert (H : 1 < length lines) by (cbn; lia).
  split; [exact H|].
  exact (iteration_outcome self "may.pdf" lines (Importer.MkState 1 [] None) H).
Defined.

Section WhatExtractRaises.

Variable self : Importer.t.
Variable filepath : string.
Variable lines : list string.

Lemma step_raises (st : Importer.loop_state) (x : exn) :
  Importer.i st < length lines ->
  Importer.step self filepath lines st = Raise x ->
  x = ValueError \/ x = TypeError \/ x = UnboundLocalError
  \/ (x = Overflow
      /\ exists line, In line lines
                      /\ (999999 < Z.of_nat (String.length line))%Z).
Proof.
  intros Hi. unfold Importer.step.
  destruct (nth_error lines (Importer.i st)) as [line|] eqn:En;
    [|apply nth_error_None in En; lia].
  destruct (classify_result self lines (Importer.i st)
              (Importer.units_var st) line) as [[p ->]|[-> Hl]]; cbn [bind].
  - destruct p as [|f units|f units payee description c].
    + discriminate.
    + assert (H := make_entry_result filepath (Importer.account self filepath)
                     (Some "Advance payment") f units).
      destruct (entry_error f units) as [y|] eqn:Ee.
      * rewrite H. cbn [bind]. intros E. injection E as <-.
        apply entry_error_kinds in Ee. intuition.
      * destruct H as (e & -> & _). discriminate.
    + assert (H := make_entry_result filepath (Importer.account self filepath)
                     payee f (Some units)).
      destruct (entry_error f (Some units)) as [y|] eqn:Ee.
      * rewrite H. cbn [bind]. intros E. injection E as <-.
        apply entry_error_kinds in Ee. intuition.
      * destruct H as (e & -> & _). discriminate.
  - intros E. injection E as <-. do 3 right. split; [reflexivity|].
    exists line. split; [eapply nth_error_In, En | exact Hl].
Qed.

Lemma run_raises (fuel : nat) :
  forall (st : Importer.loop_state) (x : exn),
    Importer.run fuel self filepath lines st = Raise x ->
    x = ValueError \/ x = TypeError \/ x = UnboundLocalError
    \/ (x = Overflow
        /\ exists line, In line lines
                        /\ (999999 < Z.of_nat (String.length line))%Z).
Proof.
  induction fuel as [|fuel IH]; intros st x; cbn [Importer.run];
    [discriminate|].
  destruct (Importer.i st <? length lines) eqn:Ei; [|discriminate].
  apply Nat.ltb_lt in Ei.
  destruct (Importer.step self filepath lines st) as [st'|y] eqn:Es;
    cbn [bind].
  - apply IH.
  - intros E. injection E as <-. exact (step_raises st y Ei Es).
Qed.

End WhatExtractRaises.

(** X10: whatever the statement, [extract] ends in a list of records or in
    one of four exceptions: [ValueError], [TypeError], [UnboundLocalError]
    or [Overflow]; and [Overflow] needs a line of a million characters or
    more among those the loop runs over, so on a statement with shorter
    lines it is one of the first three.  Sanitizing, splitting and
    classifying raise nothing else. *)
Theorem extract_raises_only :
  forall (self : Importer.t) (w : world) (filepath : string) (x : exn),
    Importer.extract self w filepath = Raise x ->
    x = ValueError \/ x = TypeError \/ x = UnboundLocalError
    \/ (x = Overflow
        /\ exists line, In line (loop_lines w filepath)
                        /\ (999999 < Z.of_nat (String.length line))%Z).
Proof.
  intros self w filepath x. unfold Importer.extract, Importer.parse_lines.
  fold (loop_lines w filepath).
  destruct (Importer.run _ _ _ _ _) as [st|y] eqn:E; cbn [bind];
    [discriminate|].
  intros H. injection H as <-.
  exact (run_raises self filepath _ _ _ _ E).
Qed.

Lemma extract_raises_only_witness :
  let self := Importer.MkImporter "Liabilities:Rajhi" "SAR" "*" "4321" in
  let w := statement ["10.00 1.00 Shop 10.00 SAR 31/02/23 02/03/23"] in
  Importer.extract self w "may.pdf" = Raise ValueError
  /\ (ValueError = ValueError \/ ValueError = TypeError
      \/ ValueError = UnboundLocalError
      \/ (ValueError = Overflow
          /\ exists line, In line (loop_lines w "may.pdf")
                          /\ (999999 < Z.of_nat (String.length line))%Z)).
Proof.
  intros self w.
  assert (H : Importer.extract self w "may.pdf" = Raise ValueError)
    by (vm_compute; reflexivity).
  split; [exact H|].
  exact (extract_raises_only _ _ _ _ H).
Defined.

(** ** The sanitizer, line by line *)

Section Composition.

Lemma sanitize_app (a b : list string) :
  Importer.sanitize (a ++ b) = Importer.sanitize a ++ Importer.sanitize b.
Proof. rewrite !sanitize_filter. apply filter_app. Qed.

Lemma filter_twice (A : Type) (f : A -> bool) (l : list A) :
  filter f (filter f l) = filter f l.
Proof.
  induction l as [|x l IH]; [reflexivity|]. cbn [filter].
  destruct (f x) eqn:E; [|exact IH]. cbn [filter]. now rewrite E, IH.
Qed.

End Composition.

(** X11: the sanitizer judges every line on its own.  Sanitizing two runs of
    lines one after the other is sanitizing them together, so what is dropped
    from one page does not depend on the other pages; sanitizing twice drops
    nothing more; and the result is never longer than the input. *)
Theorem sanitize_composes :
  forall a b : list string,
    Importer.sanitize (a ++ b) = Importer.sanitize a ++ Importer.sanitize b
    /\ Importer.sanitize (Importer.sanitize a) = Importer.sanitize a
    /\ length (Importer.sanitize a) <= length a.
Proof.
  intros a b. split; [apply sanitize_app|]. split.
  - rewrite !sanitize_filter. apply filter_twice.
  - rewrite sanitize_filter. apply filter_length_le.
Qed.

(** X12: the sanitizer tests the raw line from its first character, before
    any trimming: a line that starts with a white-space character matches
    none of the five patterns, whatever follows, and is kept, also when the
    text behind the white space is a page title. *)
Theorem indented_lines_are_kept :
  forall (c : ascii) (rest : string),
    is_space c = true ->
    Importer.is_boilerplate (String c rest) = false
    /\ forall before after : list string,
         In (String c rest)
            (Importer.sanitize (before ++ String c rest :: after)).
Proof.
  intros c rest Hc.
  assert (Hb : Importer.is_boilerplate (String c rest) = false).
  { destruct c as [b0 b1 b2 b3 b4 b5 b6 b7].
    destruct b0, b1, b2, b3, b4, b5, b6, b7;
      try (vm_compute in Hc; discriminate Hc);
      vm_compute; reflexivity. }
  split; [exact Hb|].
  intros before after. rewrite sanitize_filter. apply filter_In.
  split; [apply in_or_app; right; now left|].
  unfold kept. now rewrite Hb.
Qed.

Lemma indented_lines_are_kept_witness :
  is_space " " = true
  /\ Importer.is_boilerplate " credit card statement" = false
  /\ In " credit card statement"
        (Importer.sanitize ["Page no. 1 of 2"; " credit card statement"]).
Proof.
  assert (Hc : is_space " " = true) by reflexivity.
  split; [exact Hc|]. split.
  - exact (proj1 (indented_lines_are_kept " " "credit card statement" Hc)).
  - exact (proj2 (indented_lines_are_kept " " "credit card statement" Hc)
             ["Page no. 1 of 2"] []).
Defined.

Section Titles.

Lemma chars_app (a b : string) : chars (a ++ b) = chars a ++ chars b.
Proof.
  unfold chars. induction a as [|c a IH]; cbn; [reflexivity | now rewrite IH].
Qed.

Lemma is_prefix_app (p l : list ascii) : is_prefix p (p ++ l) = true.
Proof. apply is_prefix_spec. now exists l. Qed.

Lemma literal_title_dropped (title rest : string) :
  In (literal (chars title)) Importer.patterns ->
  Importer.is_boilerplate (title ++ rest) = true.
Proof.
  intros Hin. apply is_boilerplate_spec.
  exists (literal (chars title)). split; [exact Hin|].
  assert (H := run_at_literal (chars title) (chars (title ++ rest)) None).
  rewrite chars_app, is_prefix_app in H.
  unfold re_match. intros E. rewrite chars_app in E. rewrite E in H.
  discriminate H.
Qed.

End Titles.

(** X13: a line that starts with one of the three literal titles (the two
    Arabic ones, the first and the fourth pattern, and 'credit card
    statement') is dropped whole, whatever follows the title on the line:
    sanitizing the lines around it gives what sanitizing them without it
    gives. *)
Theorem title_lines_are_dropped :
  forall (title rest : string) (before after : list string),
    In title [nth 0 Importer.patterns_text ""; "credit card statement";
              nth 3 Importer.patterns_text ""] ->
    Importer.is_boilerplate (title ++ rest) = true
    /\ Importer.sanitize (before ++ (title ++ rest)%string :: after)
       = Importer.sanitize before ++ Importer.sanitize after.
Proof.
  intros title rest before after Hin.
  assert (Hb : Importer.is_boilerplate (title ++ rest) = true).
  { apply literal_title_dropped.
    destruct Hin as [<-|[<-|[<-|[]]]]; vm_compute; auto. }
  split; [exact Hb|].
  rewrite sanitize_app, !sanitize_filter. cbn [filter].
  unfold kept at 2. now rewrite Hb.
Qed.

Lemma title_lines_are_dropped_witness :
  In "credit card statement"
     [nth 0 Importer.patterns_text ""; "credit card statement";
      nth 3 Importer.patterns_text ""]
  /\ Importer.is_boilerplate
       ("credit card statement" ++ " 25.00 0.00 Shop 25.00 SAR 01/05/23 02/05/23")
     = true
  /\ Importer.sanitize
       (["Amazon"]
        ++ ("credit card statement"
            ++ " 25.00 0.00 Shop 25.00 SAR 01/05/23 02/05/23")%string
        :: ["Total"])
     = Importer.sanitize ["Amazon"] ++ Importer.sanitize ["Total"].
Proof.
  assert (Hin : In "credit card statement"
                   [nth 0 Importer.patterns_text ""; "credit card statement";
                    nth 3 Importer.patterns_text ""])
    by (right; left; reflexivity).
  split; [exact Hin|].
  exact (title_lines_are_dropped "credit card statement"
           " 25.00 0.00 Shop 25.00 SAR 01/05/23 02/05/23"
           ["Amazon"] ["Total"] Hin).
Defined.

(** ** The lines the loop runs over *)

Section Lines.

Lemma text_of_chars (s : string) : text_of (chars s) = s.
Proof. apply string_of_list_ascii_of_string. Qed.

(** Trimming does not see a space put in front of the text or behind it. *)
Lemma strip_cons_space (c : ascii) (l : list ascii) :
  is_space c = true -> strip (text_of (c :: l)) = strip (text_of l).
Proof.
  intros Hc. unfold strip. rewrite !chars_text_of. cbn [lstrip_chars].
  now rewrite Hc.
Qed.

Lemma strip_snoc_space (c : ascii) (l : list ascii) :
  is_space c = true -> strip (text_of (l ++ [c])) = strip (text_of l).
Proof.
  intros Hc. unfold strip. rewrite !chars_text_of. f_equal. f_equal.
  induction l as [|x l IH]; cbn [app lstrip_chars].
  - now rewrite Hc.
  - destruct (is_space x); [exact IH|].
    change (x :: l ++ [c]) with ((x :: l) ++ [c]).
    rewrite rev_unit. cbn [lstrip_chars]. now rewrite Hc.
Qed.

Lemma trimmed_cons_space (c : ascii) (l : list ascii) :
  is_space c = true -> trimmed (text_of (c :: l)) = trimmed (text_of l).
Proof. intros Hc. unfold trimmed. now rewrite strip_cons_space. Qed.

Lemma trimmed_snoc_space (c : ascii) (l : list ascii) :
  is_space c = true -> trimmed (text_of (l ++ [c])) = trimmed (text_of l).
Proof. intros Hc. unfold trimmed. now rewrite strip_snoc_space. Qed.

(** The pieces of a split, trimmed: a space at either end of the text
    changes nothing. *)
Lemma split_on_front (c : ascii) :
  is_space c = true ->
  forall l cur,
    flat_map trimmed (split_on nl (cur ++ [c]) l)
    = flat_map trimmed (split_on nl cur l).
Proof.
  intros Hc. induction l as [|x l IH]; intros cur; cbn [split_on flat_map].
  - rewrite rev_unit. now rewrite trimmed_cons_space.
  - destruct (Ascii.eqb x nl).
    + cbn [flat_map]. rewrite rev_unit. now rewrite trimmed_cons_space.
    + change (x :: cur ++ [c]) with ((x :: cur) ++ [c]). apply IH.
Qed.

Lemma split_lstrip (l : list ascii) :
  flat_map trimmed (split_on nl [] (lstrip_chars l))
  = flat_map trimmed (split_on nl [] l).
Proof.
  induction l as [|c l IH]; [reflexivity|]. cbn [lstrip_chars].
  destruct (is_space c) eqn:Hc; [|reflexivity].
  rewrite IH. cbn [split_on].
  destruct (Ascii.eqb c nl) eqn:E.
  - reflexivity.
  - symmetry. apply (split_on_front c Hc l []).
Qed.

Lemma split_on_back (c : ascii) :
  is_space c = true ->
  forall l cur,
    flat_map trimmed (split_on nl cur (l ++ [c]))
    = flat_map trimmed (split_on nl cur l).
Proof.
  intros Hc. induction l as [|x l IH]; intros cur; cbn [app split_on].
  - destruct (Ascii.eqb c nl); cbn [split_on flat_map rev].
    + change (trimmed (text_of [])) with (@nil string). reflexivity.
    + now rewrite trimmed_snoc_space.
  - destruct (Ascii.eqb x nl); cbn [flat_map]; now rewrite IH.
Qed.

Lemma split_rstrip (r : list ascii) :
  flat_map trimmed (split_on nl [] (rev (lstrip_chars r)))
  = flat_map trimmed (split_on nl [] (rev r)).
Proof.
  induction r as [|c r IH]; [reflexivity|]. cbn [lstrip_chars].
  destruct (is_space c) eqn:Hc; [|reflexivity].
  rewrite IH. cbn [rev]. symmetry. now apply split_on_back.
Qed.

(** Trimming the whole text before it is split changes no line. *)
Lemma nonblank_lines_split (text : string) :
  Importer.nonblank_lines text = flat_map trimmed (split_nl text).
Proof.
  change (Importer.nonblank_lines text)
    with (flat_map trimmed (split_nl (strip text))).
  unfold split_nl, strip.
  rewrite chars_text_of, split_rstrip, rev_involutive. apply split_lstrip.
Qed.

(** Splitting what was joined gives the lines back. *)
Lemma split_on_line (p : string) (rest cur : list ascii) :
  no_line_feed p ->
  split_on nl cur (chars p ++ nl :: rest)
  = text_of (rev cur ++ chars p) :: split_on nl [] rest.
Proof.
  unfold no_line_feed. generalize (chars p) as l. intros l. revert cur.
  induction l as [|c l IH]; intros cur Hp; cbn [app split_on].
  - rewrite Ascii.eqb_refl. now rewrite app_nil_r.
  - destruct (Ascii.eqb c nl) eqn:E.
    + apply Ascii.eqb_eq in E. subst c. elim Hp. now left.
    + rewrite IH by (intros H; apply Hp; now right).
      cbn [rev]. now rewrite <- app_assoc.
Qed.

Lemma split_on_last (p : string) (cur : list ascii) :
  no_line_feed p ->
  split_on nl cur (chars p) = [text_of (rev cur ++ chars p)].
Proof.
  unfold no_line_feed. generalize (chars p) as l. intros l. revert cur.
  induction l as [|c l IH]; intros cur Hp; cbn [split_on].
  - now rewrite app_nil_r.
  - destruct (Ascii.eqb c nl) eqn:E.
    + apply Ascii.eqb_eq in E. subst c. elim Hp. now left.
    + rewrite IH by (intros H; apply Hp; now right).
      cbn [rev]. now rewrite <- app_assoc.
Qed.

Lemma split_join (ls : list string) :
  Forall no_line_feed ls -> ls <> [] -> split_nl (join NL ls) = ls.
Proof.
  unfold split_nl. induction ls as [|p ls IH]; intros Hall Hne; [now elim Hne|].
  inversion Hall as [|? ? Hp Hrest]; subst.
  destruct ls as [|q ls].
  - cbn [join]. rewrite split_on_last by exact Hp. cbn [rev app].
    now rewrite text_of_chars.
  - change (join NL (p :: q :: ls)) with (p ++ NL ++ join NL (q :: ls))%string.
    rewrite !chars_app. change (chars NL) with [nl]. cbn [app].
    rewrite split_on_line by exact Hp. cbn [rev app].
    rewrite text_of_chars. f_equal. apply IH; [exact Hrest | discriminate].
Qed.

Lemma nonblank_lines_join (ls : list string) :
  Forall no_line_feed ls ->
  Importer.nonblank_lines (join NL ls) = flat_map trimmed ls.
Proof.
  intros H. rewrite nonblank_lines_split.
  destruct ls as [|p ls]; [reflexivity|].
  now rewrite split_join.
Qed.

(** No line of [splitlines] holds a line feed. *)
Lemma splitlines_from_no_nl_upto (n : nat) :
  forall l cur, length l <= n -> ~ In nl cur ->
                Forall no_line_feed (splitlines_from cur l).
Proof.
  assert (Hflush : forall cur, ~ In nl cur -> no_line_feed (text_of (rev cur))).
  { intros cur H. unfold no_line_feed. rewrite chars_text_of.
    intros Hin. apply H. now apply in_rev. }
  induction n as [|n IH]; intros l cur Hlen Hcur.
  - destruct l; [|cbn in Hlen; lia]. cbn [splitlines_from].
    destruct cur; constructor; [now apply Hflush | constructor].
  - destruct l as [|c l]; cbn [splitlines_from].
    + destruct cur; constructor; [now apply Hflush | constructor].
    + cbn [length] in Hlen. destruct (ord c =? 13) eqn:E13.
      * destruct l as [|d l].
        -- constructor; [now apply Hflush | constructor].
        -- cbn [length] in Hlen. destruct (ord d =? 10).
           ++ constructor; [now apply Hflush|].
              apply IH; [lia | intros []].
           ++ constructor; [now apply Hflush|].
              apply IH; [cbn [length]; lia | intros []].
      * destruct (is_linebreak c) eqn:Eb.
        -- constructor; [now apply Hflush|].
           apply IH; [lia | intros []].
        -- apply IH; [lia|].
           intros [->|H]; [vm_compute in Eb; discriminate Eb | now apply Hcur].
Qed.

Lemma splitlines_no_nl (text : string) :
  Forall no_line_feed (splitlines text).
Proof.
  apply (splitlines_from_no_nl_upto (length (chars text))); [lia | intros []].
Qed.

Lemma sanitize_Forall (P : string -> Prop) (ls : list string) :
  Forall P ls -> Forall P (Importer.sanitize ls).
Proof.
  rewrite sanitize_filter, !Forall_forall. intros H x Hx.
  apply filter_In in Hx. now apply H.
Qed.

End Lines.

(** X14: joining the kept lines with line feeds, trimming the joined text and
    splitting it again changes nothing: [extract] runs its loop over the kept
    raw lines of [splitlines], each trimmed and the blank ones left out, in
    their order.  So a line is judged by the sanitizer before it is trimmed
    and by the loop after. *)
Theorem extract_reads_trimmed_lines :
  forall (self : Importer.t) (w : world) (filepath : string),
    Importer.extract self w filepath
    = Importer.parse_lines self filepath
        (flat_map trimmed
           (Importer.sanitize
              (splitlines (join NL (extract_text w filepath))))).
Proof.
  intros self w filepath. unfold Importer.extract. f_equal.
  apply nonblank_lines_join, sanitize_Forall, splitlines_no_nl.
Qed.

(** ** Statements without transactions *)

Section Skipping.

Variable self : Importer.t.
Variable filepath : string.
Variable lines : list string.

Lemma step_skips (st : Importer.loop_state) (line : string) :
  nth_error lines (Importer.i st) = Some line ->
  unmatched line = true ->
  Importer.step self filepath lines st
  = Ok (Importer.MkState (Importer.i st + 1) (Importer.entries st)
                         (Importer.units_var st)).
Proof.
  intros Hn Hu. unfold unmatched in Hu.
  apply andb_prop in Hu. destruct Hu as [Ha Hu].
  unfold Importer.step. rewrite Hn. unfold Importer.classify.
  destruct (re_match Importer.advance_payment_pattern line); [discriminate|].
  cbn [is_some orb].
  destruct (contains "Advance Payment" line).
  - destruct (re_match Importer.general_pattern line); [discriminate|].
    reflexivity.
  - apply andb_prop in Hu. destruct Hu as [Hp Hb].
    destruct (re_match Importer.pattern line); [discriminate|].
    destruct (re_match Importer.alt_pattern line); [discriminate|].
    reflexivity.
Qed.

Lemma run_skips (fuel : nat) :
  forallb unmatched lines = true ->
  forall st, exists st',
    Importer.run fuel self filepath lines st = Ok st'
    /\ Importer.entries st' = Importer.entries st.
Proof.
  intros Hall. induction fuel as [|fuel IH]; intros st; cbn [Importer.run].
  - now exists st.
  - destruct (Importer.i st <? length lines) eqn:Ei; [|now exists st].
    apply Nat.ltb_lt in Ei.
    destruct (nth_error lines (Importer.i st)) as [line|] eqn:En;
      [|apply nth_error_None in En; lia].
    assert (Hu : unmatched line = true).
    { rewrite forallb_forall in Hall. apply Hall.
      eapply nth_error_In, En. }
    rewrite (step_skips st line En Hu). cbn [bind].
    destruct (IH (Importer.MkState (Importer.i st + 1) (Importer.entries st)
                                   (Importer.units_var st))) as (st' & -> & He).
    now exists st'.
Qed.

End Skipping.

(** X15: a statement none of whose lines has a transaction shape gives the
    empty list of records and raises nothing; this covers the document
    without pages and the one whose lines are all blank or page titles. *)
Theorem no_transaction_lines_no_records :
  forall (self : Importer.t) (w : world) (filepath : string),
    forallb unmatched (loop_lines w filepath) = true ->
    Importer.extract self w filepath = Ok [].
Proof.
  intros self w filepath H.
  unfold Importer.extract, Importer.parse_lines. fold (loop_lines w filepath).
  destruct (run_skips self filepath _ (length (loop_lines w filepath)) H
              (Importer.MkState 0 [] None)) as (st' & -> & He).
  cbn [bind]. now rewrite He.
Qed.

Lemma no_transaction_lines_no_records_witness :
  let self := Importer.MkImporter "Liabilities:Rajhi" "SAR" "*" "4321" in
  let w := statement ["credit card statement"; ""; "Dear customer,";
                      "  Total due 1,250.50 SAR on 10/06/23"] in
  forallb unmatched (loop_lines w "may.pdf") = true
  /\ Importer.extract self w "may.pdf" = Ok [].
Proof.
  intros self w.
  assert (H : forallb unmatched (loop_lines w "may.pdf") = true)
    by (vm_compute; reflexivity).
  split; [exact H|].
  exact (no_transaction_lines_no_records self w "may.pdf" H).
Defined.

(** ** Lines with the phrase "Advance Payment" *)

Section Phrase.

Lemma classify_phrase (self : Importer.t) (lines : list string) (i : nat)
  (units_var : option data.Amount) (line : string) (p : Importer.parsed) :
  contains "Advance Payment" line = true ->
  Importer.classify self lines i units_var line = Ok p ->
  p = Importer.NoTransaction \/ exists f u, p = Importer.AdvanceLine f u.
Proof.
  intros Hc. unfold Importer.classify. rewrite Hc, orb_true_r.
  destruct (re_match Importer.advance_payment_pattern line).
  - destruct (Importer.make_units _ _ _); cbn [bind]; [|discriminate].
    intros H. injection H as <-. right. eauto.
  - destruct (re_match Importer.general_pattern line).
    + destruct (re_search Importer.currency_pattern _);
        intros H; injection H as <-; right; eauto.
    + intros H. injection H as <-. now left.
Qed.

End Phrase.

(** X16: a line that holds the phrase "Advance Payment" anywhere never
    reaches the plain or the "Amount:" branch: whenever its iteration
    returns, the cursor has moved on by exactly one (a following "Amount:"
    line is not consumed) and either no record was added or one whose payee
    is the fixed text 'Advance payment', not a neighbouring line. *)
Theorem advance_payment_phrase_wins :
  forall (self : Importer.t) (filepath : string) (lines : list string)
         (st st' : Importer.loop_state) (line : string),
    nth_error lines (Importer.i st) = Some line ->
    contains "Advance Payment" line = true ->
    Importer.step self filepath lines st = Ok st' ->
    Importer.i st' = Importer.i st + 1
    /\ (Importer.entries st' = Importer.entries st
        \/ exists e, Importer.entries st' = Importer.entries st ++ [e]
                     /\ data.payee e = Some "Advance payment").
Proof.
  intros self filepath lines st st' line Hn Hc.
  unfold Importer.step. rewrite Hn.
  destruct (Importer.classify self lines (Importer.i st)
              (Importer.units_var st) line) as [p|] eqn:Ep;
    cbn [bind]; [|discriminate].
  destruct (classify_phrase _ _ _ _ _ _ Hc Ep) as [->|(f & u & ->)].
  - intros H. injection H as <-. cbn. split; [reflexivity | now left].
  - destruct (Importer.make_entry _ _ _ _ _) as [e|] eqn:Ee; cbn [bind];
      [|discriminate].
    intros H. injection H as <-. cbn [Importer.i Importer.entries].
    split; [reflexivity|]. right. exists e. split; [reflexivity|].
    now destruct (make_entry_payee filepath _ _ _ _ _ Ee).
Qed.

Lemma advance_payment_phrase_wins_witness :
  let self := Importer.MkImporter "Liabilities:Rajhi" "SAR" "*" "4321" in
  let line := "CR 500.00 0.00 Advance Payment Riyadh 500.00 SAR 10/06/23 11/06/23" in
  let lines := ["Cafe Bateel"; line; "Amount: 500.00"] in
  let st := Importer.MkState 1 [] None in
  exists st',
    Importer.step self "may.pdf" lines st = Ok st'
    /\ Importer.i st' = Importer.i st + 1
    /\ (Importer.entries st' = Importer.entries st
        \/ exists e, Importer.entries st' = Importer.entries st ++ [e]
                     /\ data.payee e = Some "Advance payment").
Proof.
  intros self line lines st.
  destruct (Importer.step self "may.pdf" lines st) as [st'|x] eqn:E.
  - exists st'. split; [reflexivity|].
    exact (advance_payment_phrase_wins self "may.pdf" lines st st' line
             eq_refl eq_refl E).
  - vm_compute in E. discriminate E.
Defined.

(** ** What [extract] depends on *)

Section Frame.

Variables self self' : Importer.t.
Hypothesis same_account :
  Importer.importer_account self = Importer.importer_account self'.
Hypothesis same_currency : Importer.currency self = Importer.currency self'.

Lemma classify_frame (lines : list string) (i : nat)
  (units_var : option data.Amount) (line : string) :
  Importer.classify self lines i units_var line
  = Importer.classify self' lines i units_var line.
Proof. unfold Importer.classify. now rewrite same_currency. Qed.

Lemma step_frame (filepath : string) (lines : list string)
  (st : Importer.loop_state) :
  Importer.step self filepath lines st = Importer.step self' filepath lines st.
Proof.
  unfold Importer.step, Importer.account.
  destruct (nth_error lines (Importer.i st)); [|reflexivity].
  now rewrite classify_frame, same_account.
Qed.

Lemma run_frame (filepath : string) (lines : list string) (fuel : nat) :
  forall st,
    Importer.run fuel self filepath lines st
    = Importer.run fuel self' filepath lines st.
Proof.
  induction fuel as [|fuel IH]; intros st; cbn [Importer.run]; [reflexivity|].
  destruct (Importer.i st <? length lines); [|reflexivity].
  rewrite step_frame.
  destruct (Importer.step self' filepath lines st); cbn [bind];
    [apply IH | reflexivity].
Qed.

End Frame.

(** X17: the result of [extract], records or exception, depends on the
    configured account, the configured currency and the page texts of the
    file only: the configured flag and the configured card token play no
    part in it, and neither does the media type that [identify] tests. *)
Theorem extract_ignores_flag_and_token :
  forall (self self' : Importer.t) (w w' : world) (filepath : string),
    Importer.importer_account self = Importer.importer_account self' ->
    Importer.currency self = Importer.currency self' ->
    extract_text w filepath = extract_text w' filepath ->
    Importer.extract self w filepath = Importer.extract self' w' filepath.
Proof.
  intros self self' w w' filepath Ha Hc Ht.
  unfold Importer.extract, Importer.parse_lines. rewrite Ht.
  now rewrite (run_frame self self' Ha Hc).
Qed.

Lemma extract_ignores_flag_and_token_witness :
  let line := "CR 1,250.50 0.00 Advance Payment XYZ 1,250.50 SAR 10/06/23 11/06/23" in
  let self := Importer.MkImporter "Liabilities:Rajhi" "SAR" "*" "4321" in
  let self' := Importer.MkImporter "Liabilities:Rajhi" "SAR" "!" "9999" in
  let w := statement [line] in
  let w' := MkWorld (fun _ => Some "text/plain") (fun _ => [line]) in
  Importer.extract self w "may.pdf" = Importer.extract self' w' "may.pdf".
Proof.
  intros line self self' w w'.
  exact (extract_ignores_flag_and_token self self' w w' "may.pdf"
           eq_refl eq_refl eq_refl).
Defined.

(** ** The records *)

Section Records.

Variable self : Importer.t.
Variable filepath : string.
Variable lines : list string.

Lemma make_units_currency (a : string) (c : bool) (cur : string)
  (u : data.Amount) :
  Importer.make_units a c cur = Ok u -> data.currency u = cur.
Proof.
  unfold Importer.make_units. destruct (D a) as [n|]; cbn [bind]; [|discriminate].
  destruct (signed n c); cbn [bind]; [|discriminate].
  intros H. now injection H as <-.
Qed.

Lemma make_entry_shape (acct : string) (payee : option string)
  (f : Importer.fields) (units : option data.Amount) (e : data.Transaction) :
  Importer.make_entry filepath acct payee f units = Ok e ->
  exists u, units = Some u
            /\ data.meta e = (filepath, 0) /\ data.flag e = "*"
            /\ data.tags e = [] /\ data.links e = []
            /\ data.postings e = [data.MkPosting acct u None None None None].
Proof.
  unfold Importer.make_entry.
  destruct (strptime_dmy _); cbn [bind]; [|discriminate].
  destruct (Importer.make_narration f); cbn [bind]; [|discriminate].
  destruct units as [u|]; cbn [load_local bind]; [|discriminate].
  intros H. injection H as <-. exists u. now repeat split.
Qed.

Lemma classify_units (i : nat) (units_var : option data.Amount)
  (line : string) (p : Importer.parsed) :
  (forall u, units_var = Some u -> data.currency u = Importer.currency self) ->
  Importer.classify self lines i units_var line = Ok p ->
  match p with
  | Importer.NoTransaction => True
  | Importer.AdvanceLine _ units =>
      forall u, units = Some u -> data.currency u = Importer.currency self
  | Importer.StandardLine _ u _ _ c =>
      data.currency u = Importer.currency self
      /\ (c = true -> i + 1 < length lines)
  end.
Proof.
  intros Huv. destruct p as [|f units|f u payee description c].
  - trivial.
  - destruct (re_match Importer.advance_payment_pattern line) as [m|] eqn:Em.
    + rewrite (classify_strict self lines i units_var line m Em).
      destruct (Importer.make_units _ _ _) as [u0|] eqn:Eu; cbn [bind];
        [|discriminate].
      intros H. injection H as _ <-. intros u Hu. injection Hu as <-.
      eapply make_units_currency, Eu.
    + destruct (contains "Advance Payment" line) eqn:Ec.
      * unfold Importer.classify. rewrite Em, Ec. cbn [is_some orb].
        destruct (re_match Importer.general_pattern line); [|discriminate].
        destruct (re_search Importer.currency_pattern _);
          intros H; injection H as _ <-; exact Huv.
      * destruct (re_match Importer.alt_pattern line) as [mb|] eqn:Eb.
        -- destruct (classify_annotated self lines i units_var line Em Ec mb Eb)
             as [f0 ->].
           destruct (Importer.make_units _ _ _); cbn [bind]; discriminate.
        -- destruct (re_match Importer.pattern line) as [mp|] eqn:Ep.
           ++ destruct (classify_plain self lines i units_var line Em Ec mp Eb Ep)
                as [f0 ->].
              destruct (Importer.make_units _ _ _); cbn [bind]; discriminate.
           ++ unfold Importer.classify. rewrite Em, Ec, Eb, Ep. discriminate.
  - intros H.
    destruct (classify_standard_inv self lines i units_var line f u payee
                description c H) as (_ & _ & Hu & Hs).
    split; [eapply make_units_currency, Hu|].
    intros ->.
    destruct Hs as [(m & _ & _ & _ & Hc & _) | (_ & m & _ & _ & _ & Hc & _)];
      [discriminate|].
    symmetry in Hc. unfold continues in Hc.
    apply andb_prop in Hc. destruct Hc as [Hc _]. now apply Nat.ltb_lt in Hc.
Qed.

Lemma step_keeps_invariant (st st' : Importer.loop_state) :
  Importer.i st < length lines ->
  loop_invariant self filepath lines st ->
  Importer.step self filepath lines st = Ok st' ->
  loop_invariant self filepath lines st'.
Proof.
  intros Hi (Hes & Hu & Hlen & _). unfold Importer.step.
  destruct (nth_error lines (Importer.i st)) as [line|]; [|discriminate].
  destruct (Importer.classify self lines (Importer.i st)
              (Importer.units_var st) line) as [p|] eqn:Ep;
    cbn [bind]; [|discriminate].
  assert (Hp := classify_units _ _ _ _ Hu Ep).
  destruct p as [|f units|f u payee description c].
  - intros H. injection H as <-. unfold loop_invariant. cbn.
    repeat split; trivial; lia.
  - destruct (Importer.make_entry _ _ _ _ _) as [e|] eqn:Ee; cbn [bind];
      [|discriminate].
    intros H. injection H as <-.
    apply make_entry_shape in Ee.
    destruct Ee as (u & -> & Hm & Hf & Ht & Hl & Hpost).
    unfold loop_invariant. cbn [Importer.entries Importer.units_var Importer.i].
    split; [|split; [exact Hp|split; [rewrite length_app; cbn; lia | lia]]].
    apply Forall_app. split; [exact Hes|]. constructor; [|constructor].
    unfold entry_shape. repeat split; trivial.
    exists (data.number u). rewrite Hpost. unfold Importer.account.
    rewrite <- (Hp u eq_refl). now destruct u.
  - destruct (Importer.make_entry _ _ _ _ _) as [e|] eqn:Ee; cbn [bind];
      [|discriminate].
    intros H. injection H as <-.
    apply make_entry_shape in Ee.
    destruct Ee as (u0 & Hu0 & Hm & Hf & Ht & Hl & Hpost).
    injection Hu0 as <-. destruct Hp as [Hcur Hc].
    unfold loop_invariant. cbn [Importer.entries Importer.units_var Importer.i].
    split; [|split; [|split]].
    + apply Forall_app. split; [exact Hes|]. constructor; [|constructor].
      unfold entry_shape. repeat split; trivial.
      exists (data.number u). rewrite Hpost. unfold Importer.account.
      rewrite <- Hcur. now destruct u.
    + intros u1 H1. now injection H1 as <-.
    + rewrite length_app. cbn. destruct c; lia.
    + destruct c; [specialize (Hc eq_refl)|]; lia.
Qed.

Lemma run_keeps_invariant (fuel : nat) :
  forall st st',
    loop_invariant self filepath lines st ->
    Importer.run fuel self filepath lines st = Ok st' ->
    loop_invariant self filepath lines st'.
Proof.
  induction fuel as [|fuel IH]; intros st st' Hinv; cbn [Importer.run].
  - intros H. now injection H as <-.
  - destruct (Importer.i st <? length lines) eqn:Ei.
    + apply Nat.ltb_lt in Ei.
      destruct (Importer.step self filepath lines st) as [st1|] eqn:Es;
        cbn [bind]; [|discriminate].
      apply IH. eapply step_keeps_invariant; eassumption.
    + intros H. now injection H as <-.
Qed.

End Records.

(** X18: every record [extract] returns has the same frame, whatever its
    line: the metadata are the file path with line number 0, the flag is the
    literal '*' (not the configured flag), tags and links are empty, and
    there is exactly one posting, on the configured account and in the
    configured currency, without cost or price; that holds also for a record
    posted with the [units] of an earlier line.  And there are never more
    records than lines the loop runs over. *)
Theorem records_have_one_shape :
  forall (self : Importer.t) (w : world) (filepath : string)
         (es : list data.Transaction),
    Importer.extract self w filepath = Ok es ->
    Forall (entry_shape self filepath) es
    /\ length es <= length (loop_lines w filepath).
Proof.
  intros self w filepath es.
  unfold Importer.extract, Importer.parse_lines. fold (loop_lines w filepath).
  destruct (Importer.run _ _ _ _ _) as [st|] eqn:E; cbn [bind]; [|discriminate].
  intros H. injection H as <-.
  apply (run_keeps_invariant self filepath (loop_lines w filepath)) in E.
  - destruct E as (H1 & _ & H3 & H4). split; [exact H1 | lia].
  - unfold loop_invariant. cbn. repeat split; auto with arith.
    intros u H. discriminate H.
Qed.

Lemma records_have_one_shape_witness :
  let self := Importer.MkImporter "Liabilities:Rajhi" "SAR" "!" "4321" in
  let w := statement
             ["CR 1,250.50 0.00 Advance Payment XYZ 1,250.50 SAR 10/06/23 11/06/23";
              "20.00 0.00 Advance Payment 20.00 USD 12/06/23 13/06/23"] in
  exists es,
    Importer.extract self w "may.pdf" = Ok es
    /\ Forall (entry_shape self "may.pdf") es
    /\ length es <= length (loop_lines w "may.pdf").
Proof.
  intros self w.
  destruct (Importer.extract self w "may.pdf") as [es|x] eqn:E.
  - exists es. split; [reflexivity|].
    exact (records_have_one_shape self w "may.pdf" es E).
  - vm_compute in E. discriminate E.
Defined.

(** ** The dates of the records *)

Section Dates.

Lemma between_In (lo hi : nat) (c : ascii) :
  between lo hi c = true -> In c (map chr (seq lo (hi + 1 - lo))).
Proof.
  unfold between. intros H. apply andb_prop in H. destruct H as [H1 H2].
  apply Nat.leb_le in H1. apply Nat.leb_le in H2.
  apply in_map_iff. exists (ord c). split.
  - apply ascii_nat_embedding.
  - apply in_seq. lia.
Qed.

Lemma range_In (lo hi c : ascii) :
  set_has false [CRange lo hi] c = true ->
  In c (map chr (seq (ord lo) (ord hi + 1 - ord lo))).
Proof.
  unfold set_has. cbn [existsb item_has xorb]. rewrite orb_false_r.
  apply between_In.
Qed.

Lemma digit_In (c : ascii) :
  set_has false [CDigit] c = true -> In c (map chr (seq 48 10)).
Proof.
  unfold set_has. cbn [existsb item_has xorb]. rewrite orb_false_r.
  apply (between_In 48 57).
Qed.

Ltac invert_matches :=
  repeat match goal with
         | H : matches (Cat _ _) _ |- _ => inversion H; subst; clear H
         | H : matches (Alt _ _) _ |- _ => inversion H; subst; clear H
         | H : matches (Lit _) _ |- _ => inversion H; subst; clear H
         | H : matches Empty _ |- _ => inversion H; subst; clear H
         | H : matches (CharSet false [CRange _ _]) _ |- _ =>
             let Hset := fresh "Hset" in
             inversion H as [| | |? ? ? Hset| | | | | | | | |]; subst; clear H;
             apply range_In in Hset; vm_compute in Hset
         | H : matches (CharSet false [CDigit]) _ |- _ =>
             let Hset := fresh "Hset" in
             inversion H as [| | |? ? ? Hset| | | | | | | | |]; subst; clear H;
             apply digit_In in Hset; vm_compute in Hset
         end.

Ltac each_char :=
  repeat match goal with
         | H : _ \/ _ |- _ => destruct H as [H|H]
         | H : False |- _ => contradiction H
         | H : _ = _ :> ascii |- _ => subst
         end.

(** What the groups of the date format read, as numbers. *)
Lemma day_value (w : list ascii) :
  matches day_re w ->
  1 <= nat_of_digits (strip (text_of w)).
Proof.
  unfold day_re. cbn [dmy_format]. intros H. invert_matches; each_char;
    vm_compute; lia.
Qed.

Lemma month_value (w : list ascii) :
  matches month_re w ->
  1 <= nat_of_digits (text_of w) <= 12.
Proof.
  unfold month_re. cbn [dmy_format]. intros H. invert_matches; each_char;
    vm_compute; lia.
Qed.

Lemma year_value (w : list ascii) :
  matches year_re w ->
  nat_of_digits (text_of w) <= 99.
Proof.
  unfold year_re. cbn [dmy_format]. intros H. invert_matches; each_char;
    vm_compute; lia.
Qed.

Lemma dmy_shape :
  dmy_format
  = Cat (Group 1 day_re)
      (Cat (Lit "/") (Cat (Group 2 month_re)
         (Cat (Lit "/") (Cat (Group 3 year_re) Empty)))).
Proof. reflexivity. Qed.

Lemma group_of_set_group (n : nat) (st st1 : mstate) (w : list ascii) :
  reads st st1 w ->
  group n (ms_caps (set_group n st st1)) = Some (text_of w).
Proof.
  intros Hr. unfold set_group. cbn [ms_caps group]. rewrite Nat.eqb_refl.
  now rewrite (consumed_reads _ _ _ Hr).
Qed.

(** The three groups of a match of the date format. *)
Lemma dmy_groups (s : string) (m : match_obj) :
  re_match dmy_format s = Some m ->
  exists wd wm wy,
    group 1 m = Some (text_of wd) /\ matches day_re wd
    /\ group 2 m = Some (text_of wm) /\ matches month_re wm
    /\ group 3 m = Some (text_of wy) /\ matches year_re wy.
Proof.
  unfold re_match, run_at.
  destruct (rmatch (Group 0 dmy_format) _ Some) as [res|] eqn:E; [|discriminate].
  intros H. injection H as <-.
  rewrite rmatch_Group, dmy_shape, rmatch_Cat, rmatch_Group in E.
  apply rmatch_sound in E. destruct E as (s1 & wd & E & Hrd & Hmd & _).
  rewrite rmatch_Cat in E.
  apply rmatch_sound in E. destruct E as (s2 & w2 & E & _ & _ & Hg2).
  rewrite rmatch_Cat, rmatch_Group in E.
  apply rmatch_sound in E. destruct E as (s3 & wm & E & Hrm & Hmm & Hg3).
  rewrite rmatch_Cat in E.
  apply rmatch_sound in E. destruct E as (s4 & w4 & E & _ & _ & Hg4).
  rewrite rmatch_Cat, rmatch_Group in E.
  apply rmatch_sound in E. destruct E as (s5 & wy & E & Hry & Hmy & Hg5).
  apply rmatch_sound in E. destruct E as (s6 & w6 & E & _ & _ & Hg6).
  injection E as <-.
  exists wd, wm, wy. repeat split; trivial.
  - rewrite group_set_group_other by discriminate.
    rewrite (Hg6 1) by (cbn; tauto).
    rewrite group_set_group_other by discriminate.
    rewrite (Hg5 1) by (vm_compute; tauto).
    rewrite (Hg4 1) by (cbn; tauto).
    rewrite group_set_group_other by discriminate.
    rewrite (Hg3 1) by (vm_compute; tauto).
    rewrite (Hg2 1) by (cbn; tauto).
    now apply group_of_set_group.
  - rewrite group_set_group_other by discriminate.
    rewrite (Hg6 2) by (cbn; tauto).
    rewrite group_set_group_other by discriminate.
    rewrite (Hg5 2) by (vm_compute; tauto).
    rewrite (Hg4 2) by (cbn; tauto).
    now apply group_of_set_group.
  - rewrite group_set_group_other by discriminate.
    rewrite (Hg6 3) by (cbn; tauto).
    now apply group_of_set_group.
Qed.

Lemma strptime_real_day (s : string) (d : caldate) :
  strptime_dmy s = Ok d -> real_day d.
Proof.
  unfold strptime_dmy.
  destruct (re_match dmy_format s) as [m|] eqn:E; [|discriminate].
  destruct (dmy_groups s m E)
    as (wd & wm & wy & G1 & Hd & G2 & Hm & G3 & Hy).
  unfold group_str. rewrite G1, G2, G3.
  destruct (negb _); [discriminate|].
  apply day_value in Hd. apply month_value in Hm. apply year_value in Hy.
  destruct (_ <=? days_in_month _ _) eqn:El; [|discriminate].
  apply Nat.leb_le in El.
  intros H. injection H as <-. unfold real_day. cbn [year month day].
  destruct (Nat.leb_spec (nat_of_digits (text_of wy)) 68);
    (split; [lia | split; [lia | split; [lia | exact El]]]).
Qed.

Lemma day_digits (w : list ascii) :
  matches day_re w -> all_digits (chars (strip (text_of w))).
Proof.
  unfold day_re. cbn [dmy_format]. intros H. invert_matches; each_char;
    vm_compute; reflexivity.
Qed.

Lemma month_digits (w : list ascii) : matches month_re w -> all_digits w.
Proof.
  unfold month_re. cbn [dmy_format]. intros H. invert_matches; each_char;
    vm_compute; reflexivity.
Qed.

Lemma year_digits (w : list ascii) :
  matches year_re w -> all_digits w /\ length w = 2.
Proof.
  unfold year_re. cbn [dmy_format]. intros H. invert_matches; each_char;
    vm_compute; split; reflexivity.
Qed.

(** The groups of a match of the date format, and the whole match. *)
Lemma dmy_parts (s : string) (m : match_obj) :
  re_match dmy_format s = Some m ->
  exists wd wm wy,
    group 0 m = Some (text_of (wd ++ "/"%char :: wm ++ "/"%char :: wy))
    /\ (group 1 m = Some (text_of wd) /\ matches day_re wd)
    /\ (group 2 m = Some (text_of wm) /\ matches month_re wm)
    /\ (group 3 m = Some (text_of wy) /\ matches year_re wy).
Proof.
  unfold re_match, run_at.
  destruct (rmatch (Group 0 dmy_format) _ Some) as [res|] eqn:E; [|discriminate].
  intros H. injection H as <-.
  rewrite rmatch_Group, dmy_shape, rmatch_Cat, rmatch_Group in E.
  apply rmatch_sound in E. destruct E as (s1 & wd & E & Hrd & Hmd & _).
  rewrite rmatch_Cat in E.
  apply rmatch_sound in E. destruct E as (s2 & w2 & E & Hr2 & Hm2 & Hg2).
  rewrite rmatch_Cat, rmatch_Group in E.
  apply rmatch_sound in E. destruct E as (s3 & wm & E & Hrm & Hmm & Hg3).
  rewrite rmatch_Cat in E.
  apply rmatch_sound in E. destruct E as (s4 & w4 & E & Hr4 & Hm4 & Hg4).
  rewrite rmatch_Cat, rmatch_Group in E.
  apply rmatch_sound in E. destruct E as (s5 & wy & E & Hry & Hmy & Hg5).
  apply rmatch_sound in E. destruct E as (s6 & w6 & E & Hr6 & Hm6 & Hg6).
  injection E as <-.
  inversion Hm2; subst. inversion Hm4; subst. inversion Hm6; subst.
  exists wd, wm, wy. split; [|split; [|split]]; (split || idtac); trivial.
  - unfold set_group at 1. cbn [ms_caps group Nat.eqb]. do 2 f_equal.
    unfold reads in *. cbn [ms_rest set_group] in *.
    apply consumed_reads. unfold reads. cbn [ms_rest].
    rewrite Hrd, Hr2, Hrm, Hr4, Hry, Hr6. cbn [app].
    rewrite <- !app_assoc. cbn [app]. rewrite <- !app_assoc. reflexivity.
  - rewrite group_set_group_other by discriminate.
    rewrite (Hg6 1) by (cbn; tauto).
    rewrite group_set_group_other by discriminate.
    rewrite (Hg5 1) by (vm_compute; tauto).
    rewrite (Hg4 1) by (cbn; tauto).
    rewrite group_set_group_other by discriminate.
    rewrite (Hg3 1) by (vm_compute; tauto).
    rewrite (Hg2 1) by (cbn; tauto).
    now apply group_of_set_group.
  - rewrite group_set_group_other by discriminate.
    rewrite (Hg6 2) by (cbn; tauto).
    rewrite group_set_group_other by discriminate.
    rewrite (Hg5 2) by (vm_compute; tauto).
    rewrite (Hg4 2) by (cbn; tauto).
    now apply group_of_set_group.
  - rewrite group_set_group_other by discriminate.
    rewrite (Hg6 3) by (cbn; tauto).
    now apply group_of_set_group.
Qed.

(** What [strptime] returns is the day the text writes, and it is a day of
    the calendar. *)
Lemma strptime_written (s : string) (d : caldate) :
  strptime_dmy s = Ok d -> written_as s d /\ real_day d.
Proof.
  intros H. split; [|exact (strptime_real_day s d H)].
  unfold strptime_dmy in H.
  destruct (re_match dmy_format s) as [m|] eqn:E; [|discriminate].
  destruct (dmy_parts s m E)
    as (wd & wm & wy & G0 & (G1 & Hd) & (G2 & Hm) & (G3 & Hy)).
  unfold group_str in H. rewrite G0, G1, G2, G3 in H.
  destruct (String.eqb _ s) eqn:Es; cbn [negb] in H; [|discriminate].
  apply String.eqb_eq in Es.
  destruct (_ <=? days_in_month _ _); [|discriminate].
  injection H as <-. exists wd, wm, wy. cbn [day month year].
  split; [now rewrite <- Es, chars_text_of|].
  split; [now apply day_digits|]. split; [now apply month_digits|].
  split; [now apply year_digits|]. repeat split.
Qed.

End Dates.

Section RecordDates.

Lemma classify_posting_date (self : Importer.t) (lines : list string) (i : nat)
  (units_var : option data.Amount) (line : string) (p : Importer.parsed) :
  Importer.classify self lines i units_var line = Ok p ->
  match p with
  | Importer.NoTransaction => True
  | Importer.AdvanceLine f _ | Importer.StandardLine f _ _ _ _ =>
      posting_date_of line = Some (Importer.posting_date f)
  end.
Proof.
  unfold Importer.classify, posting_date_of.
  destruct (re_match Importer.advance_payment_pattern line) as [m|];
    cbn [is_some orb].
  - destruct (Importer.make_units _ _ _); cbn [bind]; [|discriminate].
    intros H. injection H as <-. reflexivity.
  - destruct (contains "Advance Payment" line).
    + destruct (re_match Importer.general_pattern line) as [mg|].
      * destruct (re_search Importer.currency_pattern _);
          intros H; injection H as <-; reflexivity.
      * intros H. now injection H as <-.
    + destruct (re_match Importer.alt_pattern line) as [mb|].
      * rewrite orb_true_r.
        destruct (Importer.make_units _ _ _); cbn [bind]; [|discriminate].
        destruct (Importer.two_above lines i).
        intros H. injection H as <-. reflexivity.
      * destruct (re_match Importer.pattern line) as [mp|]; cbn [is_some orb].
        -- destruct (Importer.make_units _ _ _); cbn [bind]; [|discriminate].
           destruct (re_search Importer.currency_pattern _);
             destruct (_ && _);
             try destruct (Importer.two_above lines i);
             try destruct (Importer.above_below lines i);
             intros H; injection H as <-; reflexivity.
        -- intros H. now injection H as <-.
Qed.

Variable self : Importer.t.
Variable filepath : string.
Variable lines : list string.

Lemma make_entry_date (acct : string) (payee : option string)
  (f : Importer.fields) (units : option data.Amount) (e : data.Transaction) :
  Importer.make_entry filepath acct payee f units = Ok e ->
  written_as (Importer.posting_date f) (data.date e)
  /\ real_day (data.date e).
Proof.
  unfold Importer.make_entry.
  destruct (strptime_dmy _) as [d|] eqn:Ed; cbn [bind]; [|discriminate].
  destruct (Importer.make_narration f); cbn [bind]; [|discriminate].
  destruct units; cbn [load_local bind]; [|discriminate].
  intros H. injection H as <-. cbn [data.date].
  now apply strptime_written.
Qed.

Lemma step_dates (st st' : Importer.loop_state) (line : string) :
  nth_error lines (Importer.i st) = Some line ->
  Importer.step self filepath lines st = Ok st' ->
  Importer.entries st' = Importer.entries st
  \/ exists e s,
       Importer.entries st' = Importer.entries st ++ [e]
       /\ posting_date_of line = Some s
       /\ written_as s (data.date e)
       /\ real_day (data.date e).
Proof.
  intros Hn. unfold Importer.step. rewrite Hn.
  destruct (Importer.classify _ _ _ _ _) as [p|] eqn:Ep; cbn [bind];
    [|discriminate].
  apply classify_posting_date in Ep.
  destruct p as [|f units|f u payee description c].
  - intros H. injection H as <-. now left.
  - destruct (Importer.make_entry _ _ _ _ _) as [e|] eqn:Ee; cbn [bind];
      [|discriminate].
    intros H. injection H as <-. right.
    exists e, (Importer.posting_date f). cbn [Importer.entries].
    split; [reflexivity|]. split; [exact Ep|].
    eapply make_entry_date, Ee.
  - destruct (Importer.make_entry _ _ _ _ _) as [e|] eqn:Ee; cbn [bind];
      [|discriminate].
    intros H. injection H as <-. right.
    exists e, (Importer.posting_date f). cbn [Importer.entries].
    split; [reflexivity|]. split; [exact Ep|].
    eapply make_entry_date, Ee.
Qed.

Lemma run_dates (fuel : nat) :
  forall st st',
    Forall (dated_by_a_line lines) (Importer.entries st) ->
    Importer.run fuel self filepath lines st = Ok st' ->
    Forall (dated_by_a_line lines) (Importer.entries st').
Proof.
  induction fuel as [|fuel IH]; intros st st' Hes; cbn [Importer.run].
  - intros H. now injection H as <-.
  - destruct (Importer.i st <? length lines) eqn:Ei.
    + apply Nat.ltb_lt in Ei.
      destruct (nth_error lines (Importer.i st)) as [line|] eqn:En;
        [|apply nth_error_None in En; lia].
      destruct (Importer.step self filepath lines st) as [st1|] eqn:Es;
        cbn [bind]; [|discriminate].
      apply IH.
      destruct (step_dates st st1 line En Es)
        as [->|(e & s & -> & Hs & Hw & Hr)]; [exact Hes|].
      apply Forall_app. split; [exact Hes|]. constructor; [|constructor].
      split; [exact Hr|]. exists line, s. split; [|now split].
      eapply nth_error_In, En.
    + intros H. now injection H as <-.
Qed.

End RecordDates.

(** X19: on lines of ASCII characters, the date of a record is the posting
    date written on its line, and it is a day of the calendar.  An iteration
    that appends a record has read the posting date of its line as
    day/month/two-digit year, in digits; the record is dated the day of the
    month, the month and the year so written (00 to 68 are 2000 to 2068, 69
    to 99 are 1969 to 1999), and the month is 1 to 12 and the day 1 to the
    length of that month in that year.  So a line whose posting date writes
    no day of the calendar yields no record, and every record [extract]
    returns is dated by a line the loop ran over. *)
Theorem record_dates_are_calendar_days :
  forall (self : Importer.t) (filepath : string),
    (forall (lines : list string) (st st' : Importer.loop_state)
            (line : string),
        ascii_text line ->
        nth_error lines (Importer.i st) = Some line ->
        Importer.step self filepath lines st = Ok st' ->
        Importer.entries st' = Importer.entries st
        \/ exists e s,
             Importer.entries st' = Importer.entries st ++ [e]
             /\ posting_date_of line = Some s
             /\ written_as s (data.date e)
             /\ real_day (data.date e))
    /\ (forall (w : world) (es : list data.Transaction),
          Forall ascii_text (loop_lines w filepath) ->
          Importer.extract self w filepath = Ok es ->
          Forall (dated_by_a_line (loop_lines w filepath)) es).
Proof.
  intros self filepath. split.
  - intros lines st st' line _. apply step_dates.
  - intros w es _. unfold Importer.extract, Importer.parse_lines.
    fold (loop_lines w filepath).
    destruct (Importer.run _ _ _ _ _) as [st|] eqn:E; cbn [bind];
      [|discriminate].
    intros H. injection H as <-.
    eapply run_dates in E; [exact E | constructor].
Qed.

Lemma record_dates_are_calendar_days_witness :
  let self := Importer.MkImporter "Liabilities:Rajhi" "SAR" "*" "4321" in
  let w := statement
             ["CR 1,250.50 0.00 Advance Payment XYZ 1,250.50 SAR 29/02/24 01/03/24";
              "10.00 0.00 Shop 10.00 SAR 31/12/69 01/01/70"] in
  Forall ascii_text (loop_lines w "may.pdf")
  /\ exists es,
       Importer.extract self w "may.pdf" = Ok es
       /\ map data.date es = [MkDate 2024 2 29; MkDate 1969 12 31]
       /\ Forall (dated_by_a_line (loop_lines w "may.pdf")) es.
Proof.
  intros self w.
  assert (Ha : Forall ascii_text (loop_lines w "may.pdf")).
  { apply Forall_forall. intros line Hin. vm_compute in Hin.
    destruct Hin as [<-|[<-|[]]]; vm_compute; reflexivity. }
  split; [exact Ha|].
  destruct (Importer.extract self w "may.pdf") as [es|x] eqn:E.
  - exists es. split; [reflexivity|]. split.
    + vm_compute in E. injection E as <-. reflexivity.
    + exact (proj2 (record_dates_are_calendar_days self "may.pdf") w es Ha E).
  - vm_compute in E. discriminate E.
Defined.

(** ** [identify] and the pages *)

Section Pages.

(** An occurrence in one of the joined pages is one in the joined text. *)
Lemma occurs_join (t : list ascii) (page : string) (pages : list string) :
  In page pages ->
  (exists b a, chars page = b ++ t ++ a) ->
  exists b a, chars (join NL pages) = b ++ t ++ a.
Proof.
  induction pages as [|p rest IH]; intros Hin Hocc; [contradiction Hin|].
  destruct rest as [|q rest].
  - destruct Hin as [->|[]]. exact Hocc.
  - change (join NL (p :: q :: rest)) with (p ++ NL ++ join NL (q :: rest))%string.
    rewrite !chars_app. destruct Hin as [->|Hin].
    + destruct Hocc as (b & a & ->).
      exists b, (a ++ chars NL ++ chars (join NL (q :: rest))).
      now rewrite <- !app_assoc.
    + destruct (IH Hin Hocc) as (b & a & ->).
      exists (chars p ++ chars NL ++ b), a. now rewrite <- !app_assoc.
Qed.

Lemma starts_before_nl (l2 : list ascii) :
  forall t l a : list ascii,
    ~ In nl t -> l ++ nl :: l2 = t ++ a -> l = t ++ skipn (length t) l.
Proof.
  induction t as [|y t IHt]; intros l a Hn Hl; [reflexivity|].
  destruct l as [|z l].
  - cbn in Hl. injection Hl as <- _. elim Hn. now left.
  - cbn in Hl. injection Hl as -> Hl. cbn [length skipn app]. f_equal.
    apply (IHt l a); [|exact Hl]. intros Hin. apply Hn. now right.
Qed.

(** A text without line feed that occurs in [l1], a line feed and [l2]
    occurs in [l1] or in [l2]. *)
Lemma occurs_beside_nl (t : list ascii) :
  t <> [] -> ~ In nl t ->
  forall l1 l2 b a,
    l1 ++ nl :: l2 = b ++ t ++ a ->
    (exists a', l1 = b ++ t ++ a') \/ (exists b', l2 = b' ++ t ++ a).
Proof.
  intros Hne Hnl. induction l1 as [|c l1 IH]; intros l2 b a H.
  - right. destruct b as [|x b].
    + destruct t as [|x t]; [now elim Hne|].
      cbn in H. injection H as <- _. elim Hnl. now left.
    + cbn in H. injection H as _ ->. now exists b.
  - destruct b as [|x b].
    + left. exists (skipn (length t) (c :: l1)). cbn [app] in *.
      exact (starts_before_nl l2 t (c :: l1) a Hnl H).
    + cbn in H. injection H as -> H.
      destruct (IH l2 b a H) as [[a' ->]|[b' ->]].
      * left. now exists a'.
      * right. now exists b'.
Qed.

Lemma occurs_in_a_page (t : list ascii) (pages : list string) :
  t <> [] -> ~ In nl t ->
  (exists b a, chars (join NL pages) = b ++ t ++ a) ->
  exists page, In page pages /\ exists b a, chars page = b ++ t ++ a.
Proof.
  intros Hne Hnl. induction pages as [|p rest IH]; intros (b & a & H).
  - cbn in H. destruct b; [destruct t; [now elim Hne | discriminate] | discriminate].
  - destruct rest as [|q rest].
    + exists p. split; [now left | now exists b, a].
    + change (join NL (p :: q :: rest))
        with (p ++ NL ++ join NL (q :: rest))%string in H.
      rewrite !chars_app in H. change (chars NL) with [nl] in H. cbn [app] in H.
      destruct (occurs_beside_nl t Hne Hnl _ _ _ _ H) as [[a' Ha]|[b' Hb]].
      * exists p. split; [now left | now exists b, a'].
      * destruct IH as (page & Hin & Hocc); [now exists b', a|].
        exists page. split; [now right | exact Hocc].
Qed.

End Pages.

(** X20: for a PDF and a configured token that is not empty, is free of
    pattern characters and holds no line feed, [identify] returns true
    exactly when the token occurs on at least one page: the pages are joined
    by line feeds, so an occurrence never runs from one page into the next,
    and no page is left out.  (Otherwise it returns false or, when all the
    pages are empty, [None].) *)
Theorem identify_looks_at_every_page :
  forall (self : Importer.t) (w : world) (filepath : string),
    guess_type w filepath = Some "application/pdf" ->
    plain_token (Importer.account_number self) ->
    Importer.account_number self <> "" ->
    no_line_feed (Importer.account_number self) ->
    (Importer.identify self w filepath = Ok (Some true)
     <-> exists page,
           In page (extract_text w filepath)
           /\ occurs (Importer.account_number self) page).
Proof.
  intros self w filepath Hm Hp Hne Hnl.
  set (token := Importer.account_number self) in *.
  assert (Hne' : chars token <> []).
  { intros H. apply Hne. rewrite <- (text_of_chars token), H. reflexivity. }
  split.
  - intros H.
    destruct (String.eqb (join NL (extract_text w filepath)) "") eqn:Et.
    + unfold Importer.identify in H.
      rewrite Hm, String.eqb_refl, Et in H. discriminate H.
    + apply String.eqb_neq in Et.
      rewrite (identify_plain_token self w filepath Hm Et Hp) in H.
      injection H as H. unfold contains in H. apply occurs_in_spec in H.
      now apply occurs_in_a_page.
  - intros (page & Hin & Hocc).
    assert (Ho : exists b a,
               chars (join NL (extract_text w filepath)) = b ++ chars token ++ a)
      by (eapply occurs_join; eassumption).
    assert (Ht : join NL (extract_text w filepath) <> "").
    { intros E. destruct Ho as (b & a & Ho). rewrite E in Ho.
      destruct b; [|discriminate Ho].
      destruct (chars token); [now elim Hne' | discriminate Ho]. }
    rewrite (identify_plain_token self w filepath Hm Ht Hp).
    do 2 f_equal. unfold contains. now apply occurs_in_spec.
Qed.

Lemma identify_looks_at_every_page_witness :
  let self := Importer.MkImporter "Liabilities:Rajhi" "SAR" "*" "4321" in
  let w := MkWorld (fun _ => Some "application/pdf")
                   (fun _ => [""; "Card **** 4321"; "Page no. 2 of 2"]) in
  guess_type w "may.pdf" = Some "application/pdf"
  /\ plain_token (Importer.account_number self)
  /\ Importer.account_number self <> ""
  /\ no_line_feed (Importer.account_number self)
  /\ (Importer.identify self w "may.pdf" = Ok (Some true)
      <-> exists page,
            In page (extract_text w "may.pdf")
            /\ occurs (Importer.account_number self) page).
Proof.
  intros self w.
  assert (Hm : guess_type w "may.pdf" = Some "application/pdf") by reflexivity.
  assert (Hp : plain_token (Importer.account_number self)) by reflexivity.
  assert (Hne : Importer.account_number self <> "") by discriminate.
  assert (Hnl : no_line_feed (Importer.account_number self))
    by (vm_compute; intuition discriminate).
  split; [exact Hm|]. split; [exact Hp|]. split; [exact Hne|].
  split; [exact Hnl|].
  exact (identify_looks_at_every_page self w "may.pdf" Hm Hp Hne Hnl).
Defined.

(** ** The constructor and the script *)

(** X21: the constructor stores its arguments under the names the methods
    read ([account] gives back the first, [extract] posts in the second), a
    flag that is not given is '*', and a call with fewer than three
    arguments raises [TypeError].  The statements under
    [if __name__ == '__main__'] give two, so running the module as a script
    raises [TypeError] before [main] is called, whatever [main] does. *)
Theorem script_entry_raises_TypeError :
  forall (A : Type) (main : Importer.t -> result A) (args : list string)
         (filepath : string),
    match Importer.__init__ args with
    | Ok self =>
        3 <= length args <= 4
        /\ nth_error args 0 = Some (Importer.account self filepath)
        /\ nth_error args 1 = Some (Importer.currency self)
        /\ nth_error args 2 = Some (Importer.account_number self)
        /\ Importer.flag self = nth 3 args "*"
    | Raise x => x = TypeError /\ (length args < 3 \/ 4 < length args)
    end
    /\ main_block main = Raise TypeError.
Proof.
  intros A main args filepath. split; [|reflexivity].
  destruct args as [|a [|b [|c [|d [|e rest]]]]]; cbn;
    repeat split; auto; lia.
Qed.

(** ** The first characters of a transaction line *)

Section FirstCharacter.

Lemma starts_app (a b : list ascii) :
  starts_like_a_transaction a -> starts_like_a_transaction (a ++ b).
Proof.
  destruct a as [|c a]; [contradiction|]. cbn [app starts_like_a_transaction].
  intros [H|(-> & s & rest' & -> & Hs)]; [now left|].
  right. split; [reflexivity|]. now exists s, (rest' ++ b).
Qed.

Lemma amount_starts (w : list ascii) :
  matches amount_re w -> starts_like_a_transaction w.
Proof.
  intros H. inversion H as [ | | | | | | | | r1 r2 w0 Ha | r1 r2 w0 Ha | | | ];
    subst;
    inversion Ha as [ | | | | | | | ra rb wa wb Hd Hb | | | | | ]; subst;
    apply matches_digits in Hd; destruct Hd as [Hd Hl];
    (destruct wa as [|c wa]; [cbn in Hl; lia|]);
    cbn [app starts_like_a_transaction]; left;
    unfold all_digits in Hd; cbn [forallb] in Hd;
    now apply andb_prop in Hd.
Qed.

Lemma credit_starts (w : list ascii) :
  matches (second_part Importer.pattern) w ->
  w = [] \/ starts_like_a_transaction w.
Proof.
  intros H. cbn in H.
  inversion H as [ | | | | | | | | | | | | lo hi lz r w1 w2 H1 H2 ]; subst;
    [now left|]. right. apply starts_app. clear H H2.
  inversion H1 as [ | | | | | | | | | | n r w H | | ]; subst. clear H1.
  inversion H as [ | | | | | | | ? ? ? wb Ha Hb | | | | | ]; subst. clear H.
  inversion Ha; subst. clear Ha.
  inversion Hb as [ | | | | | | | ? ? ? wc Ha Hc | | | | | ]; subst. clear Hb.
  inversion Ha; subst. clear Ha.
  inversion Hc as [ | | | | | | | ? ? ? wd Ha Hd | | | | | ]; subst. clear Hc.
  inversion Ha as [ | | | | | | | | | | | | ? ? ? ? w3 w4 H3 H4 ]; subst.
  inversion H3 as [ | | | negated items s Hs | | | | | | | | | ]; subst.
  cbn [app starts_like_a_transaction]. right. split; [reflexivity|].
  exists s, (w4 ++ wd). split; [reflexivity|].
  unfold set_has in Hs. cbn in Hs. now rewrite orb_false_r in Hs.
Qed.

(** A line one of the four line patterns matches. *)
Lemma matched_line_starts (r : regex) (line : string) (m : match_obj) :
  amount_first r ->
  second_part r = second_part Importer.pattern ->
  re_match r line = Some m ->
  starts_like_a_transaction (chars line).
Proof.
  intros [Hshape _] Hcr. unfold re_match, run_at.
  destruct (rmatch (Group 0 r) _ Some) as [res|] eqn:E; [|discriminate].
  intros _.
  rewrite rmatch_Group, Hshape, rmatch_Cat in E.
  apply rmatch_sound in E. destruct E as (sa & wa & E & Hra & Hma & _).
  rewrite rmatch_Cat in E.
  apply rmatch_sound in E. destruct E as (sb & wb & E & Hrb & Hmb & _).
  rewrite rmatch_Cat in E.
  apply rmatch_sound in E. destruct E as (sc & wc & E & Hrc & Hmc & _).
  inversion Hma; subst. clear Hma.
  inversion Hmc as [ | | | | | | | | | | n r0 w Hamt | | ]; subst. clear Hmc.
  unfold reads in *. cbn [ms_rest app] in Hra.
  rewrite Hra, Hrb, Hrc. rewrite Hcr in Hmb.
  destruct (credit_starts wb Hmb) as [->|Hs].
  - cbn [app]. now apply starts_app, amount_starts.
  - now apply starts_app.
Qed.

End FirstCharacter.

(** X22: among the lines of ASCII characters (on which the digits and the
    white space of the patterns are the ASCII ones), every line the loop
    takes for a transaction starts with a digit, or with "CR" and a
    white-space character: such a line that starts in any other way matches
    none of the four line patterns and is skipped, whatever it holds further
    on. *)
Theorem transaction_lines_start_with_CR_or_digit :
  forall line : string,
    ascii_text line ->
    unmatched line = false ->
    starts_like_a_transaction (chars line).
Proof.
  intros line _ H. unfold unmatched in H.
  destruct line_patterns_amount_first as (Fa & Fg & Fp & Fb).
  destruct (re_match Importer.advance_payment_pattern line) as [m|] eqn:Ea.
  - exact (matched_line_starts _ line m Fa eq_refl Ea).
  - cbn [is_some negb andb] in H.
    destruct (contains "Advance Payment" line).
    + destruct (re_match Importer.general_pattern line) as [m|] eqn:Eg;
        [|discriminate H].
      exact (matched_line_starts _ line m Fg eq_refl Eg).
    + destruct (re_match Importer.pattern line) as [m|] eqn:Ep.
      * exact (matched_line_starts _ line m Fp eq_refl Ep).
      * destruct (re_match Importer.alt_pattern line) as [m|] eqn:Eb;
          [|discriminate H].
        exact (matched_line_starts _ line m Fb eq_refl Eb).
Qed.

Lemma transaction_lines_start_with_CR_or_digit_witness :
  let line := "CR 25.00 0.00 Amount: 25.00 Shop USD 01/05/23 02/05/23" in
  ascii_text line
  /\ unmatched line = false
  /\ starts_like_a_transaction (chars line).
Proof.
  intros line.
  assert (Ha : ascii_text line) by (vm_compute; reflexivity).
  assert (H : unmatched line = false) by (vm_compute; reflexivity).
  split; [exact Ha|]. split; [exact H|].
  exact (transaction_lines_start_with_CR_or_digit line Ha H).
Defined.

(** ** [units] before its first assignment *)

Section Unbound.

Variable self : Importer.t.
Variable filepath : string.
Variable lines : list string.

Lemma step_binds_units (st st' : Importer.loop_state) :
  (Importer.units_var st = None -> Importer.entries st = []) ->
  Importer.step self filepath lines st = Ok st' ->
  Importer.units_var st' = None -> Importer.entries st' = [].
Proof.
  intros Hinv. unfold Importer.step.
  destruct (nth_error lines (Importer.i st)) as [line|]; [|discriminate].
  destruct (Importer.classify _ _ _ _ _) as [p|]; cbn [bind]; [|discriminate].
  destruct p as [|f units|f u payee description c].
  - intros H. injection H as <-. exact Hinv.
  - destruct (Importer.make_entry _ _ _ _ _) as [e|] eqn:Ee; cbn [bind];
      [|discriminate].
    destruct (make_entry_payee filepath _ _ _ _ _ Ee) as (_ & _ & u & -> & _).
    intros H. injection H as <-. discriminate.
  - destruct (Importer.make_entry _ _ _ _ _) as [e|]; cbn [bind];
      [|discriminate].
    intros H. injection H as <-. discriminate.
Qed.

Lemma run_binds_units (fuel : nat) :
  forall st st',
    (Importer.units_var st = None -> Importer.entries st = []) ->
    Importer.run fuel self filepath lines st = Ok st' ->
    Importer.units_var st' = None -> Importer.entries st' = [].
Proof.
  induction fuel as [|fuel IH]; intros st st' Hinv; cbn [Importer.run].
  - intros H. now injection H as <-.
  - destruct (Importer.i st <? length lines).
    + destruct (Importer.step self filepath lines st) as [st1|] eqn:Es;
        cbn [bind]; [|discriminate].
      apply IH. eapply step_binds_units; eassumption.
    + intros H. now injection H as <-.
Qed.

(** Only the looser Advance Payment branch leaves [units] as it was. *)
Lemma classify_advance_units (i : nat) (units_var : option data.Amount)
  (line : string) (f : Importer.fields) :
  Importer.classify self lines i units_var line
  = Ok (Importer.AdvanceLine f None) ->
  units_var = None
  /\ re_match Importer.advance_payment_pattern line = None
  /\ contains "Advance Payment" line = true.
Proof.
  destruct (re_match Importer.advance_payment_pattern line) as [m|] eqn:Em.
  - rewrite (classify_strict self lines i units_var line m Em).
    destruct (Importer.make_units _ _ _); cbn [bind]; discriminate.
  - destruct (contains "Advance Payment" line) eqn:Ec.
    + unfold Importer.classify. rewrite Em, Ec. cbn [is_some orb].
      destruct (re_match Importer.general_pattern line); [|discriminate].
      destruct (re_search Importer.currency_pattern _);
        intros H; injection H as _ ->; auto.
    + destruct (re_match Importer.alt_pattern line) as [mb|] eqn:Eb.
      * destruct (classify_annotated self lines i units_var line Em Ec mb Eb)
          as [f0 ->].
        destruct (Importer.make_units _ _ _); cbn [bind]; discriminate.
      * destruct (re_match Importer.pattern line) as [mp|] eqn:Ep.
        -- destruct (classify_plain self lines i units_var line Em Ec mp Eb Ep)
             as [f0 ->].
           destruct (Importer.make_units _ _ _); cbn [bind]; discriminate.
        -- unfold Importer.classify. rewrite Em, Ec, Eb, Ep. discriminate.
Qed.

Lemma make_entry_unbound (acct : string) (payee : option string)
  (f : Importer.fields) (units : option data.Amount) :
  Importer.make_entry filepath acct payee f units = Raise UnboundLocalError ->
  units = None.
Proof.
  intros H. assert (R := make_entry_result filepath acct payee f units).
  destruct (entry_error f units) as [x|] eqn:Ex.
  - rewrite R in H. injection H as ->.
    destruct (entry_error_kinds f units _ Ex) as [E|[E|[_ E]]];
      [discriminate E | discriminate E | exact E].
  - destruct R as (e & R & _). rewrite R in H. discriminate H.
Qed.

Lemma step_unbound (st : Importer.loop_state) :
  Importer.step self filepath lines st = Raise UnboundLocalError ->
  Importer.units_var st = None
  /\ exists line,
       nth_error lines (Importer.i st) = Some line
       /\ re_match Importer.advance_payment_pattern line = None
       /\ contains "Advance Payment" line = true.
Proof.
  unfold Importer.step.
  destruct (nth_error lines (Importer.i st)) as [line|]; [|discriminate].
  destruct (classify_result self lines (Importer.i st)
              (Importer.units_var st) line) as [[p Ep]|[Ep _]];
    rewrite Ep; cbn [bind]; [|discriminate].
  destruct p as [|f units|f u payee description c].
  - discriminate.
  - destruct (Importer.make_entry _ _ _ _ _) as [e|x] eqn:Ee; cbn [bind];
      [discriminate|].
    intros H. injection H as ->.
    apply make_entry_unbound in Ee. subst units.
    destruct (classify_advance_units _ _ _ _ Ep) as (Hu & Hm & Hc).
    split; [exact Hu|]. now exists line.
  - destruct (Importer.make_entry _ _ _ _ _) as [e|x] eqn:Ee; cbn [bind];
      [discriminate|].
    intros H. injection H as ->.
    apply make_entry_unbound in Ee. discriminate Ee.
Qed.

End Unbound.

(** X23: [UnboundLocalError] comes up only before the first record.  When
    an iteration of the loop raises it, no record has been added so far, and
    the line is one with the phrase "Advance Payment" that the strict
    pattern does not match; once a record exists, such a line posts the
    [units] of an earlier line instead of raising. *)
Theorem unbound_units_only_before_the_first_record :
  forall (self : Importer.t) (filepath : string) (lines : list string)
         (st : Importer.loop_state),
    reached self filepath lines st ->
    Importer.step self filepath lines st = Raise UnboundLocalError ->
    Importer.entries st = []
    /\ exists line,
         nth_error lines (Importer.i st) = Some line
         /\ re_match Importer.advance_payment_pattern line = None
         /\ contains "Advance Payment" line = true.
Proof.
  intros self filepath lines st (k & Hk & _) Hs.
  destruct (step_unbound self filepath lines st Hs) as (Hu & Hline).
  split; [|exact Hline].
  exact (run_binds_units self filepath lines k (Importer.MkState 0 [] None) st
           (fun _ => eq_refl) Hk Hu).
Qed.

Lemma unbound_units_only_before_the_first_record_witness :
  let self := Importer.MkImporter "Liabilities:Rajhi" "SAR" "*" "4321" in
  let lines := ["Dear customer";
                "20.00 0.00 Advance Payment 20.00 USD 12/06/23 13/06/23"] in
  let st := Importer.MkState 1 [] None in
  reached self "may.pdf" lines st
  /\ Importer.step self "may.pdf" lines st = Raise UnboundLocalError
  /\ Importer.entries st = []
  /\ exists line,
       nth_error lines (Importer.i st) = Some line
       /\ re_match Importer.advance_payment_pattern line = None
       /\ contains "Advance Payment" line = true.
Proof.
  intros self lines st.
  assert (Hr : reached self "may.pdf" lines st).
  { exists 1. split; [vm_compute; reflexivity | cbn; lia]. }
  assert (Hs : Importer.step self "may.pdf" lines st = Raise UnboundLocalError)
    by (vm_compute; reflexivity).
  split; [exact Hr|]. split; [exact Hs|].
  exact (unbound_units_only_before_the_first_record self "may.pdf" lines st
           Hr Hs).
Defined.
